(** * GPy: the kernel gradient-verification harness and the latent initializer

    A shallow embedding of [GPy/testing/test_kernel.py] (the adapters
    [Kern_check_*], the driver [check_kernel_gradient_functions] and the
    Psi-statistics test closures) and of [GPy/util/initialization.py]
    ([initialize_latent]).

    Conventions of the embedding.
    - A numpy array is its shape together with its index function; array
      entries are real numbers, so sums, means and standard deviations are the
      exact ones.  Where numpy divides by zero, and answers with [nan] or
      [inf] and a [RuntimeWarning], the model records the warning.
      Eigenvalues, which the code only compares against a float literal, are
      binary64 floats.
    - Python objects that are mutated or aliased (arrays behind [self.X],
      [self.Xc], the kernel) live in a store and are named by locations.
    - Code that can raise returns a [result]; code with effects runs in the
      state-and-exception monad [M].
    - The kernel, the [Param]/[checkgrad] framework and [PCA] are external to
      the two source files: they enter as interfaces (records of operations).
      Of the framework the adapters need two facts: a linked [Param] holds
      its values in an array object of its own, and the finished object
      gets one call of [parameters_changed] before its constructor returns. *)

From Stdlib Require Import PrimFloat.
From stdpp Require Import base gmap strings.
From Stdlib Require Import Reals Lra Psatz List ZArith Lia.
Import ListNotations.

Set Warnings "-inexact-float".

(* ------------------------------------------------------------------ *)
(** ** Exceptions, results and the state-and-exception monad *)

Inductive exn : Set :=
| AssertionError
| NotImplementedError
| ValueError
| IndexError
| AxisError
| LinAlgError
| UnboundLocalError.

Inductive result (A : Type) : Type :=
| Ok (a : A)
| Raise (e : exn).
Arguments Ok {A} a.
Arguments Raise {A} e.

Definition exn_eqb (a b : exn) : bool :=
  match a, b with
  | AssertionError, AssertionError | NotImplementedError, NotImplementedError
  | ValueError, ValueError | IndexError, IndexError
  | AxisError, AxisError | LinAlgError, LinAlgError
  | UnboundLocalError, UnboundLocalError => true
  | _, _ => false
  end.

Definition M (S A : Type) : Type := S -> result A * S.

Definition ret {S A : Type} (a : A) : M S A := fun s => (Ok a, s).

Definition bind {S A B : Type} (m : M S A) (f : A -> M S B) : M S B :=
  fun s => match m s with
           | (Ok a, s') => f a s'
           | (Raise e, s') => (Raise e, s')
           end.

Definition raise {S A : Type} (e : exn) : M S A := fun s => (Raise e, s).

Definition lift {S A : Type} (r : result A) : M S A := fun s => (r, s).

Definition gets {S A : Type} (f : S -> A) : M S A := fun s => (Ok (f s), s).

Definition modify {S : Type} (f : S -> S) : M S unit := fun s => (Ok tt, f s).

(** [try: m except e: h] for a single exception class. *)
Definition try_except {S A : Type} (m : M S A) (e : exn) (h : M S A) : M S A :=
  fun s => match m s with
           | (Raise e', s') => if exn_eqb e' e then h s' else (Raise e', s')
           | r => r
           end.

Definition when {S : Type} (b : bool) (m : M S unit) : M S unit :=
  if b then m else ret tt.

Declare Scope py_scope.
Delimit Scope py_scope with py.
Notation "x <- m ;; k" := (bind m (fun x => k))
  (at level 100, m at next level, k at level 200, right associativity) : py_scope.
Notation "m ;; k" := (bind m (fun _ => k))
  (at level 100, k at level 200, right associativity) : py_scope.
Open Scope py_scope.

Definition rbind {A B : Type} (r : result A) (f : A -> result B) : result B :=
  match r with Ok a => f a | Raise e => Raise e end.

(* ------------------------------------------------------------------ *)
(** ** numpy arrays *)

Record ndarray : Type := NdArray { shape : list nat; item : list nat -> R }.

Definition ndim (a : ndarray) : nat := length (shape a).

(** [a.shape[k]] *)
Definition dim (k : nat) (a : ndarray) : nat := nth k (shape a) 0%nat.

(** Sum of [f 0 .. f (n-1)]. *)
Fixpoint sum_n (f : nat -> R) (n : nat) : R :=
  match n with
  | O => 0%R
  | S k => (sum_n f k + f k)%R
  end.

Fixpoint sum_over (sh : list nat) (f : list nat -> R) : R :=
  match sh with
  | [] => f []
  | n :: sh' => sum_n (fun i => sum_over sh' (fun idx => f (i :: idx))) n
  end.

(** [a.sum()] *)
Definition np_sum (a : ndarray) : R := sum_over (shape a) (item a).

Definition insert_at (k i : nat) (idx : list nat) : list nat :=
  firstn k idx ++ i :: skipn k idx.

Definition remove_at (k : nat) (sh : list nat) : list nat :=
  firstn k sh ++ skipn (S k) sh.

(** [a.sum(k)] for an axis [k >= 0]. *)
Definition sum_axis (k : nat) (a : ndarray) : result ndarray :=
  if (k <? ndim a)%nat then
    Ok {| shape := remove_at k (shape a);
          item := fun idx => sum_n (fun i => item a (insert_at k i idx)) (dim k a) |}
  else Raise AxisError.

(** [a.T] *)
Definition transpose (a : ndarray) : ndarray :=
  {| shape := rev (shape a); item := fun idx => item a (rev idx) |}.

(** [-a] *)
Definition neg (a : ndarray) : ndarray :=
  {| shape := shape a; item := fun idx => (- item a idx)%R |}.

(** Broadcasting of two shapes, read from the last axis backwards. *)
Fixpoint broadcast_rev (r1 r2 : list nat) : option (list nat) :=
  match r1, r2 with
  | [], r => Some r
  | r, [] => Some r
  | a :: r1', b :: r2' =>
      match broadcast_rev r1' r2' with
      | None => None
      | Some r =>
          if (a =? b)%nat then Some (a :: r)
          else if (a =? 1)%nat then Some (b :: r)
          else if (b =? 1)%nat then Some (a :: r)
          else None
      end
  end.

Definition broadcast_shapes (s1 s2 : list nat) : option (list nat) :=
  option_map (@rev nat) (broadcast_rev (rev s1) (rev s2)).

Fixpoint clamp_index (sh idx : list nat) : list nat :=
  match sh, idx with
  | d :: sh', i :: idx' => (if (d =? 1)%nat then 0%nat else i) :: clamp_index sh' idx'
  | _, _ => []
  end.

(** The index of operand [sh] that a result index [idx] reads. *)
Definition broadcast_index (sh idx : list nat) : list nat :=
  clamp_index sh (skipn (length idx - length sh) idx).

(** [a * b] *)
Definition np_mul (a b : ndarray) : result ndarray :=
  match broadcast_shapes (shape a) (shape b) with
  | Some sh =>
      Ok {| shape := sh;
            item := fun idx => (item a (broadcast_index (shape a) idx)
                                * item b (broadcast_index (shape b) idx))%R |}
  | None => Raise ValueError
  end.

(** [np.diag(a)]: the diagonal of a matrix, or the diagonal matrix of a vector. *)
Definition np_diag (a : ndarray) : result ndarray :=
  match shape a with
  | [n] => Ok {| shape := [n; n];
                 item := fun idx => match idx with
                                    | [i; j] => if (i =? j)%nat then item a [i] else 0%R
                                    | _ => 0%R
                                    end |}
  | [n; m] => Ok {| shape := [Nat.min n m];
                    item := fun idx => match idx with
                                       | [i] => item a [i; i]
                                       | _ => 0%R
                                       end |}
  | _ => Raise ValueError
  end.

(** [a.diagonal()] *)
Definition diagonal (a : ndarray) : result ndarray :=
  match shape a with
  | [n; m] => np_diag a
  | n :: m :: rest =>
      Ok {| shape := rest ++ [Nat.min n m];
            item := fun idx => item a (last idx 0%nat :: last idx 0%nat :: removelast idx) |}
  | _ => Raise ValueError
  end.

(** An index lies within a shape. *)
Definition in_range (sh idx : list nat) : Prop := Forall2 lt idx sh.

(* ------------------------------------------------------------------ *)
(** ** The global random state of [np.random] *)

Record rng : Type := Rng {
  normals : nat -> R;     (* the coming standard-normal draws *)
  uniforms : nat -> R;    (* the coming uniform draws of [0, 1) *)
  integers : nat -> nat   (* the coming raw integer draws *)
}.

Definition shift {A : Type} (n : nat) (f : nat -> A) : nat -> A :=
  fun k => f (n + k)%nat.

(** [np.random.randn(n, m)], also [np.random.normal(0, 1, (n, m))]. *)
Definition randn (n m : nat) (g : rng) : ndarray * rng :=
  ({| shape := [n; m];
      item := fun idx => match idx with
                         | [i; j] => normals g (i * m + j)%nat
                         | _ => 0%R
                         end |},
   {| normals := shift (n * m) (normals g);
      uniforms := uniforms g; integers := integers g |}).

(** [np.random.rand(n, m)] *)
Definition rand (n m : nat) (g : rng) : ndarray * rng :=
  ({| shape := [n; m];
      item := fun idx => match idx with
                         | [i; j] => uniforms g (i * m + j)%nat
                         | _ => 0%R
                         end |},
   {| normals := normals g;
      uniforms := shift (n * m) (uniforms g); integers := integers g |}).

(** [np.random.randint(low, high)]: one integer of [low, high). *)
Definition randint (low high : Z) (g : rng) : result Z * rng :=
  if (low <? high)%Z then
    (Ok (low + Z.of_nat (integers g 0%nat) mod (high - low))%Z,
     {| normals := normals g; uniforms := uniforms g;
        integers := shift 1 (integers g) |})
  else (Raise ValueError, g).

(** [np.random.uniform(low, high, n)] *)
Definition uniform (low high : R) (n : nat) (g : rng) : list R * rng :=
  (map (fun i => (low + (high - low) * uniforms g i)%R) (seq 0 n),
   {| normals := normals g;
      uniforms := shift n (uniforms g); integers := integers g |}).

(* ------------------------------------------------------------------ *)
(** ** The kernel capability interface (external to the harness) *)

Class Kernel (K : Type) : Type := {
  RBF : nat -> K;                                   (* GPy.kern.RBF(input_dim) *)
  input_dim : K -> nat;
  randomize : R -> R -> K -> rng -> result K * rng; (* k.randomize(loc, scale) *)
  K_full : K -> ndarray -> option ndarray -> result ndarray;
  Kdiag : K -> ndarray -> result ndarray;
  gradients_X : K -> ndarray -> ndarray -> option ndarray -> result ndarray;
  gradients_X_diag : K -> ndarray -> ndarray -> result ndarray;
  gradients_XX : K -> ndarray -> ndarray -> option ndarray -> result ndarray
}.

(* ------------------------------------------------------------------ *)
(** ** The store of array objects *)

Definition loc : Type := nat.

#[global] Instance ndarray_inhabited : Inhabited ndarray :=
  populate {| shape := [0%nat]; item := fun _ => 0%R |}.

Record pystate : Type := PyState {
  arrays : gmap nat ndarray;      (* the array behind each location *)
  gradient : gmap nat ndarray;    (* the [.gradient] buffer of each Param *)
  next : nat;                     (* the next unused location *)
  random : rng
}.

Definition Py (A : Type) : Type := M pystate A.

Definition alloc (a : ndarray) : Py loc :=
  fun s => (Ok (next s),
            {| arrays := <[next s := a]> (arrays s); gradient := gradient s;
               next := S (next s); random := random s |}).

Definition read (l : loc) : Py ndarray := gets (fun s => arrays s !!! l).

Definition write (l : loc) (a : ndarray) : Py unit :=
  modify (fun s => {| arrays := <[l := a]> (arrays s); gradient := gradient s;
                      next := next s; random := random s |}).

(** [a.copy()]: a new array object with the entries of [a]. *)
Definition copy (l : loc) : Py loc := a <- read l ;; alloc a.

Definition draw {A : Type} (f : rng -> A * rng) : Py A :=
  fun s => let (a, g) := f (random s) in
           (Ok a, {| arrays := arrays s; gradient := gradient s;
                     next := next s; random := g |}).

(** A draw that can raise. *)
Definition draw_result {A : Type} (f : rng -> result A * rng) : Py A :=
  fun s => let (r, g) := f (random s) in
           (r, {| arrays := arrays s; gradient := gradient s;
                  next := next s; random := g |}).

(** [a.shape[k]] *)
Definition shape_at (k : nat) (a : ndarray) : result nat :=
  match nth_error (shape a) k with
  | Some n => Ok n
  | None => Raise IndexError
  end.

(** Broadcasting [a] to the shape [sh], as an assignment [buf[:] = a] does. *)
Definition broadcast_to (a : ndarray) (sh : list nat) : result ndarray :=
  match broadcast_shapes (shape a) sh with
  | Some sh' =>
      if decide (sh' = sh) then
        Ok {| shape := sh; item := fun idx => item a (broadcast_index (shape a) idx) |}
      else Raise ValueError
  | None => Raise ValueError
  end.

(** [p.gradient[:] = g] for the Param at [l]. *)
Definition set_gradient (l : loc) (g : ndarray) : Py unit :=
  x <- read l ;;
  g' <- lift (broadcast_to g (shape x)) ;;
  modify (fun s => {| arrays := arrays s; gradient := <[l := g']> (gradient s);
                      next := next s; random := random s |}).

(** [Param(name, a)] together with its [link_parameter] (paramz, outside
    these sources): a linked parameter holds its values in the parameter
    array of its model, a new array object with the entries of [a]; it shares
    no memory with [a]. *)
Definition Param (name : string) (l : loc) : Py loc := copy l.

(** What paramz's metaclass does once [__init__] has returned: the
    parameters are connected and [parameters_changed] is called on the
    finished object; an exception of that call leaves the constructor. *)
Definition initialize_parameter {A : Type} (parameters_changed : A -> Py unit)
    (m : A) : Py A :=
  parameters_changed m ;; ret m.

(* ------------------------------------------------------------------ *)
(** ** [Kern_check_model] and the location adapters *)

Record complex128 : Set := Complex { real : float; imag : float }.

(** [is_positive_semi_definite], on the eigenvalues [v] that
    [np.linalg.eig(self.kernel.K(self.X))[0]] returned. *)
Definition is_positive_semi_definite (v : list complex128) : bool :=
  if existsb (fun z => PrimFloat.leb (real z) (-1e-10)%float) v
  then false
  else true.

Section Adapters.
Context {K : Type} `{Kernel K}.

Record Kern_check_model : Type := KernCheckModel {
  kernel : K;
  X : loc;
  X2 : option loc;
  dL_dK : loc
}.

(** [Kern_check_model.__init__]; [kernel.randomize] can raise.  The class has
    no [parameters_changed] of its own, so nothing follows [__init__] when a
    [Kern_check_model] itself is constructed. *)
Definition Kern_check_model_init (kern : option K) (dL x x2 : option loc)
  : Py Kern_check_model :=
  let kern := match kern with None => RBF 1 | Some k => k end in
  kern <- draw_result (randomize 1 (1 / 10) kern) ;;
  x <- match x with
       | None => a <- draw (randn 20 (input_dim kern)) ;; alloc a
       | Some l => ret l
       end ;;
  dL <- match dL with
        | None =>
            xa <- read x ;;
            n <- lift (shape_at 0 xa) ;;
            match x2 with
            | None => a <- draw (rand n n) ;; alloc a
            | Some l2 =>
                x2a <- read l2 ;;
                m <- lift (shape_at 0 x2a) ;;
                a <- draw (rand n m) ;; alloc a
            end
        | Some l => ret l
        end ;;
  ret {| kernel := kern; X := x; X2 := x2; dL_dK := dL |}.

(** [Kern_check_model.log_likelihood] *)
Definition log_likelihood (m : Kern_check_model) : Py R :=
  d <- read (dL_dK m) ;;
  x <- read (X m) ;;
  x2 <- match X2 m with
        | None => ret None
        | Some l => a <- read l ;; ret (Some a)
        end ;;
  k <- lift (K_full (kernel m) x x2) ;;
  p <- lift (np_mul d k) ;;
  ret (np_sum p).

(** [Kern_check_dK_dX.__init__]: the free parameter is [Param("X", X)]. *)
Definition Kern_check_dK_dX_body (kern : option K) (dL : option loc)
    (x : loc) (x2 : option loc) : Py Kern_check_model :=
  m <- Kern_check_model_init kern dL (Some x) x2 ;;
  px <- Param "X" x ;;
  ret {| kernel := m.(kernel); X := px; X2 := m.(X2); dL_dK := m.(dL_dK) |}.

(** [Kern_check_dK_dX.parameters_changed] *)
Definition dK_dX_parameters_changed (m : Kern_check_model) : Py unit :=
  d <- read (dL_dK m) ;;
  x <- read (X m) ;;
  x2 <- match X2 m with
        | None => ret None
        | Some l => a <- read l ;; ret (Some a)
        end ;;
  g <- lift (gradients_X (kernel m) d x x2) ;;
  set_gradient (X m) g.

(** [Kern_check_dK_dX(kernel, dL_dK, X, X2)] *)
Definition Kern_check_dK_dX_init (kern : option K) (dL : option loc)
    (x : loc) (x2 : option loc) : Py Kern_check_model :=
  m <- Kern_check_dK_dX_body kern dL x x2 ;;
  initialize_parameter dK_dX_parameters_changed m.

(** [Kern_check_dKdiag_dX.__init__]: the [X2] argument is dropped. *)
Definition Kern_check_dKdiag_dX_body (kern : option K) (dL : option loc)
    (x : loc) (x2 : option loc) : Py Kern_check_model :=
  Kern_check_dK_dX_body kern dL x None.

(** [Kern_check_dKdiag_dX.log_likelihood] *)
Definition dKdiag_dX_log_likelihood (m : Kern_check_model) : Py R :=
  d <- read (dL_dK m) ;;
  x <- read (X m) ;;
  dd <- lift (np_diag d) ;;
  kd <- lift (Kdiag (kernel m) x) ;;
  p <- lift (np_mul dd kd) ;;
  ret (np_sum p).

(** [Kern_check_dKdiag_dX.parameters_changed] *)
Definition dKdiag_dX_parameters_changed (m : Kern_check_model) : Py unit :=
  d <- read (dL_dK m) ;;
  x <- read (X m) ;;
  dd <- lift (diagonal d) ;;
  g <- lift (gradients_X_diag (kernel m) dd x) ;;
  set_gradient (X m) g.

(** [Kern_check_dKdiag_dX(kernel, dL_dK, X, X2)] *)
Definition Kern_check_dKdiag_dX_init (kern : option K) (dL : option loc)
    (x : loc) (x2 : option loc) : Py Kern_check_model :=
  m <- Kern_check_dKdiag_dX_body kern dL x x2 ;;
  initialize_parameter dKdiag_dX_parameters_changed m.

(** A [Kern_check_d2K_dXdX] object: the base fields and the copy [Xc]. *)
Record Kern_check_d2K_dXdX : Type := KernCheckD2K {
  base : Kern_check_model;
  Xc : loc
}.

(** [Kern_check_d2K_dXdX.__init__] *)
Definition Kern_check_d2K_dXdX_body (kern : option K) (dL : option loc)
    (x : loc) (x2 : option loc) : Py Kern_check_d2K_dXdX :=
  m <- Kern_check_model_init kern dL (Some x) x2 ;;
  c <- copy x ;;
  px <- Param "X" c ;;
  xc <- copy x ;;
  ret {| base := {| kernel := m.(kernel); X := px; X2 := m.(X2);
                    dL_dK := m.(dL_dK) |};
         Xc := xc |}.

(** [Kern_check_d2K_dXdX.log_likelihood] *)
Definition d2K_dXdX_log_likelihood (m : Kern_check_d2K_dXdX) : Py R :=
  d <- read (dL_dK (base m)) ;;
  x <- read (X (base m)) ;;
  match X2 (base m) with
  | None =>
      xc <- read (Xc m) ;;
      g <- lift (gradients_X (kernel (base m)) d x (Some xc)) ;;
      ret (np_sum g)
  | Some l2 =>
      x2 <- read l2 ;;
      g <- lift (gradients_X (kernel (base m)) d x (Some x2)) ;;
      ret (np_sum g)
  end.

(** [Kern_check_d2K_dXdX.parameters_changed] *)
Definition d2K_dXdX_parameters_changed (m : Kern_check_d2K_dXdX) : Py unit :=
  d <- read (dL_dK (base m)) ;;
  x <- read (X (base m)) ;;
  grads <- match X2 (base m) with
           | None =>
               g <- lift (gradients_XX (kernel (base m)) d x None) ;;
               s <- lift (sum_axis 1 g) ;;
               s' <- lift (sum_axis 1 s) ;;
               ret (neg s')
           | Some l2 =>
               x2 <- read l2 ;;
               g <- lift (gradients_XX (kernel (base m)) (transpose d) x2 (Some x)) ;;
               s <- lift (sum_axis 0 g) ;;
               s' <- lift (sum_axis 1 s) ;;
               ret (neg s')
           end ;;
  set_gradient (X (base m)) grads.

(** [Kern_check_d2K_dXdX(kernel, dL_dK, X, X2)] *)
Definition Kern_check_d2K_dXdX_init (kern : option K) (dL : option loc)
    (x : loc) (x2 : option loc) : Py Kern_check_d2K_dXdX :=
  m <- Kern_check_d2K_dXdX_body kern dL x x2 ;;
  initialize_parameter d2K_dXdX_parameters_changed m.

(** The numeric differencer moving the free [X] of an adapter to [x']. *)
Definition perturb (m : Kern_check_d2K_dXdX) (x' : ndarray) : Py unit :=
  write (X (base m)) x'.

End Adapters.

(* ------------------------------------------------------------------ *)
(** ** The conformance driver [check_kernel_gradient_functions] *)

(** The adapter classes the driver instantiates. *)
Inductive adapter : Set :=
| cls_model
| cls_dK_dtheta
| cls_dKdiag_dtheta
| cls_dK_dX
| cls_dKdiag_dX
| cls_d2K_dXdX
| cls_d2Kdiag_dXdX.

(** The ten checks, in the order the driver runs them. *)
Inductive check : Set :=
| psd_K_X
| dK_dtheta_X
| dK_dtheta_X_X2
| dKdiag_dtheta_X
| dK_dX_X
| dK_dX_X_X2
| dKdiag_dX_X
| d2K_dXdX_X_X2
| d2K_dXdX_X
| d2Kdiag_dXdX_X.

Definition check_number (c : check) : nat :=
  match c with
  | psd_K_X => 1 | dK_dtheta_X => 2 | dK_dtheta_X_X2 => 3 | dKdiag_dtheta_X => 4
  | dK_dX_X => 5 | dK_dX_X_X2 => 6 | dKdiag_dX_X => 7 | d2K_dXdX_X_X2 => 8
  | d2K_dXdX_X => 9 | d2Kdiag_dXdX_X => 10
  end.

Definition all_checks : list check :=
  [psd_K_X; dK_dtheta_X; dK_dtheta_X_X2; dKdiag_dtheta_X; dK_dX_X; dK_dX_X_X2;
   dKdiag_dX_X; d2K_dXdX_X_X2; d2K_dXdX_X; d2Kdiag_dXdX_X].

(** What the driver needs from the kernel under test and from the model
    framework: the kernel's attributes, the construction of an adapter on
    [(kern, X, X2)], [testmodel.X[:, dims].fix()], [model.checkgrad(verbose)]
    and the eigenvalues [np.linalg.eig(kernel.K(X))[0]].  Each operation acts
    on the world (kernel parameters, framework state) and may raise. *)
Class Harness (World Model Dims : Type) : Type := {
  kern_name : string;
  kern_input_dim : nat;
  kern_output_dim : Z;
  construct : adapter -> ndarray -> option ndarray -> World -> result Model * World;
  fix_columns : Model -> Dims -> World -> result unit * World;
  checkgrad : Model -> bool -> World -> result bool * World;
  eigenvalues : Model -> World -> result (list complex128) * World
}.

(** A line of standard output. *)
Inductive line : Set :=
| Text (s : string)
| Number (x : float).

(** History of the checks, kept for the specification: the outcome of the
    guarded part of a check, and the outcome of its diagnostic re-run. *)
Inductive event : Set :=
| Attempt (c : check) (r : result bool)
| Rerun (c : check) (r : result bool).

(** [v.real.min()] *)
Definition float_min2 (a b : float) : float :=
  if PrimFloat.is_nan a then a
  else if PrimFloat.is_nan b then b
  else if PrimFloat.ltb b a then b else a.

Definition real_min (v : list complex128) : result float :=
  match map real v with
  | [] => Raise ValueError
  | x :: xs => Ok (fold_left float_min2 xs x)
  end.

(** [X[:, j] = v] on a matrix, with Python's negative indices. *)
Definition set_column (x : ndarray) (j : Z) (v : R) : result ndarray :=
  match shape x with
  | [n; q] =>
      if ((- Z.of_nat q <=? j) && (j <? Z.of_nat q))%Z then
        let c := Z.to_nat (if (j <? 0)%Z then Z.of_nat q + j else j)%Z in
        Ok {| shape := [n; q];
              item := fun idx => match idx with
                                 | [i; k] => if (k =? c)%nat then v else item x idx
                                 | _ => item x idx
                                 end |}
      else Raise IndexError
  | _ => Raise IndexError
  end.

Section Driver.
Context {World Model Dims : Type} `{Harness World Model Dims}.

(** The driver's locals and surroundings. *)
Record dstate : Type := DState {
  world : World;
  np_random : rng;
  stdout : list line;
  pass_checks : bool;
  testmodel : option Model;
  trace : list event
}.

Definition Drv (A : Type) : Type := M dstate A.

Definition call {A : Type} (f : World -> result A * World) : Drv A :=
  fun s => let (r, w) := f (world s) in
           (r, {| world := w; np_random := np_random s; stdout := stdout s;
                  pass_checks := pass_checks s; testmodel := testmodel s;
                  trace := trace s |}).

Definition draw_np {A : Type} (f : rng -> result A * rng) : Drv A :=
  fun s => let (r, g) := f (np_random s) in
           (r, {| world := world s; np_random := g; stdout := stdout s;
                  pass_checks := pass_checks s; testmodel := testmodel s;
                  trace := trace s |}).

Definition print (l : line) : Drv unit :=
  modify (fun s => {| world := world s; np_random := np_random s;
                      stdout := stdout s ++ [l];
                      pass_checks := pass_checks s; testmodel := testmodel s;
                      trace := trace s |}).

Definition set_pass_checks (b : bool) : Drv unit :=
  modify (fun s => {| world := world s; np_random := np_random s;
                      stdout := stdout s; pass_checks := b;
                      testmodel := testmodel s; trace := trace s |}).

Definition set_testmodel (m : Model) : Drv unit :=
  modify (fun s => {| world := world s; np_random := np_random s;
                      stdout := stdout s; pass_checks := pass_checks s;
                      testmodel := Some m; trace := trace s |}).

Definition record (e : event) (s : dstate) : dstate :=
  {| world := world s; np_random := np_random s; stdout := stdout s;
     pass_checks := pass_checks s; testmodel := testmodel s;
     trace := trace s ++ [e] |}.

(** Runs [m] and notes its outcome, raised or returned, in the history. *)
Definition observe (mk : result bool -> event) (m : Drv bool) : Drv bool :=
  fun s => let (r, s') := m s in (r, record (mk r) s').

(** [assert c]; [debug] is Python's [__debug__], false under [python -O]. *)
Definition py_assert (debug c : bool) : Drv unit :=
  if debug && negb c then raise AssertionError else ret tt.

(** [np.random.randn(rows, kern.input_dim)], with column [output_ind]
    overwritten by [np.random.randint(kern.output_dim, X.shape[0])]. *)
Definition default_X (rows : nat) (output_ind : option Z) : Drv ndarray :=
  x <- draw_np (fun g => let (a, g') := randn rows kern_input_dim g in (Ok a, g')) ;;
  match output_ind with
  | None => ret x
  | Some j =>
      n <- lift (shape_at 0 x) ;;
      v <- draw_np (randint kern_output_dim (Z.of_nat n)) ;;
      lift (set_column x j (IZR v))
  end.

(** [Kern_check_model(kern, X=X).is_positive_semi_definite()] *)
Definition psd_attempt (x : ndarray) : Drv bool :=
  m <- call (construct cls_model x None) ;;
  v <- call (eigenvalues m) ;;
  if is_positive_semi_definite v then ret true
  else
    lo <- lift (real_min v) ;;
    print (Number lo) ;;
    ret false.

(** [cls(kern, X=X, X2=X2).checkgrad(verbose=verbose)] *)
Definition fresh_checkgrad (cls : adapter) (x : ndarray) (x2 : option ndarray)
    (verbose : bool) : Drv bool :=
  m <- call (construct cls x x2) ;;
  call (checkgrad m verbose).

(** [testmodel = cls(kern, X=X, X2=X2)], the optional
    [testmodel.X[:, fixed_X_dims].fix()], then [testmodel.checkgrad(verbose)]. *)
Definition testmodel_checkgrad (cls : adapter) (x : ndarray) (x2 : option ndarray)
    (fixed_X_dims : option Dims) (verbose : bool) : Drv bool :=
  m <- call (construct cls x x2) ;;
  set_testmodel m ;;
  match fixed_X_dims with
  | Some d => call (fix_columns m d)
  | None => ret tt
  end ;;
  call (checkgrad m verbose).

(** [testmodel.checkgrad(verbose=True)] on the variable [testmodel]. *)
Definition testmodel_rerun : Drv bool :=
  tm <- gets testmodel ;;
  match tm with
  | Some m => call (checkgrad m true)
  | None => raise UnboundLocalError
  end.

(** Check 1: the positive-semi-definiteness block. *)
Definition check_psd (debug verbose : bool) (x : ndarray) (rest : Drv bool)
  : Drv bool :=
  when verbose (print (Text "Checking covariance function is positive definite.")) ;;
  result <- observe (Attempt psd_K_X) (psd_attempt x) ;;
  when (result && verbose) (print (Text "Check passed.")) ;;
  if negb result then
    print (Text ("Positive definite check failed for " +:+ kern_name
                 +:+ " covariance function.")) ;;
    set_pass_checks false ;;
    py_assert debug result ;;
    ret false
  else rest.

(** The shape shared by checks 2 to 10.  [guarded] says whether the attempt
    stands in [try: ... except NotImplementedError:]; [assert_first] says
    whether [assert result] comes before [pass_checks = False]. *)
Definition gradient_check (debug verbose : bool) (c : check) (guarded : bool)
    (checking not_implemented failed : string)
    (attempt rerun : Drv bool) (assert_first : bool) (rest : Drv bool)
  : Drv bool :=
  when verbose (print (Text checking)) ;;
  result <- (if guarded then
               try_except (observe (Attempt c) attempt) NotImplementedError
                 (when verbose (print (Text (not_implemented +:+ kern_name))) ;;
                  ret true)
             else observe (Attempt c) attempt) ;;
  when (result && verbose) (print (Text "Check passed.")) ;;
  if negb result then
    print (Text (failed +:+ kern_name
                 +:+ " covariance function. Gradient values as follows:")) ;;
    observe (Rerun c) rerun ;;
    (if assert_first
     then py_assert debug result ;; set_pass_checks false
     else set_pass_checks false ;; py_assert debug result) ;;
    ret false
  else rest.

(** [check_kernel_gradient_functions(kern, X, X2, output_ind, verbose,
    fixed_X_dims)]; [kern] is the kernel of the harness. *)
Definition check_kernel_gradient_functions (debug : bool)
    (X_arg X2_arg : option ndarray) (output_ind : option Z) (verbose : bool)
    (fixed_X_dims : option Dims) : Drv bool :=
  set_pass_checks true ;;
  x <- match X_arg with
       | None => default_X 10 output_ind
       | Some a => ret a
       end ;;
  x2 <- match X2_arg with
        | None => default_X 20 output_ind
        | Some a => ret a
        end ;;
  check_psd debug verbose x (
  gradient_check debug verbose dK_dtheta_X false
    "Checking gradients of K(X, X) wrt theta." ""
    "Gradient of K(X, X) wrt theta failed for "
    (fresh_checkgrad cls_dK_dtheta x None verbose)
    (fresh_checkgrad cls_dK_dtheta x None true) false (
  gradient_check debug verbose dK_dtheta_X_X2 true
    "Checking gradients of K(X, X2) wrt theta."
    "update_gradients_full, with differing X and X2, not implemented for "
    "Gradient of K(X, X) wrt theta failed for "
    (fresh_checkgrad cls_dK_dtheta x (Some x2) verbose)
    (fresh_checkgrad cls_dK_dtheta x (Some x2) true) false (
  gradient_check debug verbose dKdiag_dtheta_X true
    "Checking gradients of Kdiag(X) wrt theta."
    "update_gradients_diag not implemented for "
    "Gradient of Kdiag(X) wrt theta failed for "
    (fresh_checkgrad cls_dKdiag_dtheta x None verbose)
    (fresh_checkgrad cls_dKdiag_dtheta x None true) false (
  gradient_check debug verbose dK_dX_X true
    "Checking gradients of K(X, X) wrt X."
    "gradients_X not implemented for "
    "Gradient of K(X, X) wrt X failed for "
    (testmodel_checkgrad cls_dK_dX x None fixed_X_dims verbose)
    testmodel_rerun true (
  gradient_check debug verbose dK_dX_X_X2 true
    "Checking gradients of K(X, X2) wrt X."
    "gradients_X not implemented for "
    "Gradient of K(X, X2) wrt X failed for "
    (testmodel_checkgrad cls_dK_dX x (Some x2) fixed_X_dims verbose)
    testmodel_rerun true (
  gradient_check debug verbose dKdiag_dX_X true
    "Checking gradients of Kdiag(X) wrt X."
    "gradients_X not implemented for "
    "Gradient of Kdiag(X) wrt X failed for "
    (testmodel_checkgrad cls_dKdiag_dX x None fixed_X_dims verbose)
    (fresh_checkgrad cls_dKdiag_dX x None true) false (
  gradient_check debug verbose d2K_dXdX_X_X2 true
    "Checking gradients of dK(X, X2) wrt X2 with full cov in dimensions"
    "gradients_X not implemented for "
    "Gradient of dK(X, X2) wrt X failed for "
    (testmodel_checkgrad cls_d2K_dXdX x (Some x2) fixed_X_dims verbose)
    testmodel_rerun true (
  gradient_check debug verbose d2K_dXdX_X true
    "Checking gradients of dK(X, X) wrt X with full cov in dimensions"
    "gradients_X not implemented for "
    "Gradient of dK(X, X) wrt X with full cov in dimensions failed for "
    (testmodel_checkgrad cls_d2K_dXdX x None fixed_X_dims verbose)
    testmodel_rerun true (
  gradient_check debug verbose d2Kdiag_dXdX_X true
    "Checking gradients of dKdiag(X, X) wrt X with cov in dimensions"
    "gradients_X not implemented for "
    "Gradient of dKdiag(X, X) wrt X with cov in dimensions failed for "
    (testmodel_checkgrad cls_d2Kdiag_dXdX x None fixed_X_dims verbose)
    testmodel_rerun true (
  gets pass_checks)))))))))).

Definition init_state (w : World) (g : rng) : dstate :=
  {| world := w; np_random := g; stdout := []; pass_checks := true;
     testmodel := None; trace := [] |}.

End Driver.

(* ------------------------------------------------------------------ *)
(** ** [TestKernelPsiStatisticsGradient] *)

(** The Psi-statistics capabilities of a kernel [K] against a variational
    posterior [QX], and the generic [GradientChecker(f, df, x0).checkgrad]. *)
Class PsiKernel (K QX : Type) : Type := {
  param_array : K -> ndarray;
  set_param_array : ndarray -> K -> result K;            (* k.param_array[:] = p *)
  kern_gradient : K -> ndarray;
  psi0 : K -> ndarray -> QX -> result ndarray;
  psi1 : K -> ndarray -> QX -> result ndarray;
  psi2 : K -> ndarray -> QX -> result ndarray;
  psi2n : K -> ndarray -> QX -> result ndarray;
  update_gradients_expectations :
    ndarray -> ndarray -> ndarray -> ndarray -> QX -> K -> result K;
  gradients_Z_expectations :
    K -> ndarray -> ndarray -> ndarray -> ndarray -> QX -> result ndarray;
  gradients_qX_expectations :
    K -> ndarray -> ndarray -> ndarray -> ndarray -> QX -> result ndarray;
  qX_param_array : QX -> ndarray;
  qX_set_param_array : ndarray -> QX -> result QX;       (* qX.param_array[:] = p *)
  qX_trigger_params_changed : QX -> QX;
  qX_set_gradients : ndarray -> QX -> result QX;
  qX_gradient : QX -> ndarray
}.

(** The three free-parameter targets. *)
Inductive target : Set :=
| kernel_param
| inducing_Z
| posterior_qX.

(** [(w * psi).sum()] *)
Definition weighted_sum (w psi : ndarray) : result R :=
  rbind (np_mul w psi) (fun p => Ok (np_sum p)).

Section PsiStatistics.
Context {K QX : Type} `{PsiKernel K QX}.

(** The fixture built by [setup]: inducing points and contraction weights. *)
Record fixture : Type := Fixture {
  Zs : ndarray;          (* self.Z *)
  w1 : ndarray;
  w2 : ndarray;
  w3 : ndarray;
  w3n : ndarray
}.

(** The objects the closures read and write: the kernel under test, the
    shared posterior [self.qX], and the targets handed to the checker. *)
Record tstate : Type := TState {
  kern : K;
  qX : QX;
  handed : list (target * bool)
}.

Definition Tst (A : Type) : Type := M tstate A.

Definition set_kern (k : K) : Tst unit :=
  modify (fun s => {| kern := k; qX := qX s; handed := handed s |}).

Definition set_qX (q : QX) : Tst unit :=
  modify (fun s => {| kern := kern s; qX := q; handed := handed s |}).

Definition note (t : target) (n : bool) : Tst unit :=
  modify (fun s => {| kern := kern s; qX := qX s; handed := handed s ++ [(t, n)] |}).

(** The [return] expression shared by the three closures [f]. *)
Definition contraction (fx : fixture) (psi2n_flag : bool)
    (p0 p1 p2 : ndarray) : result R :=
  if negb psi2n_flag then
    rbind (weighted_sum (w1 fx) p0) (fun a =>
    rbind (weighted_sum (w2 fx) p1) (fun b =>
    rbind (weighted_sum (w3 fx) p2) (fun c => Ok (a + b + c)%R)))
  else
    rbind (weighted_sum (w1 fx) p0) (fun a =>
    rbind (weighted_sum (w2 fx) p1) (fun b =>
    rbind (weighted_sum (w3n fx) p2) (fun c => Ok (a + b + c)%R))).

(** [f] of [_test_kernel_param] *)
Definition f_kernel_param (fx : fixture) (psi2n_flag : bool) (p : ndarray) : Tst R :=
  k <- gets kern ;;
  k' <- lift (set_param_array p k) ;;
  set_kern k' ;;
  q <- gets qX ;;
  a0 <- lift (psi0 k' (Zs fx) q) ;;
  a1 <- lift (psi1 k' (Zs fx) q) ;;
  if negb psi2n_flag then
    a2 <- lift (psi2 k' (Zs fx) q) ;;
    lift (contraction fx psi2n_flag a0 a1 a2)
  else
    a2 <- lift (psi2n k' (Zs fx) q) ;;
    lift (contraction fx psi2n_flag a0 a1 a2).

(** [df] of [_test_kernel_param] *)
Definition df_kernel_param (fx : fixture) (psi2n_flag : bool) (p : ndarray)
  : Tst ndarray :=
  k <- gets kern ;;
  k' <- lift (set_param_array p k) ;;
  set_kern k' ;;
  q <- gets qX ;;
  k'' <- lift (update_gradients_expectations (w1 fx) (w2 fx)
                 (if negb psi2n_flag then w3 fx else w3n fx) (Zs fx) q k') ;;
  set_kern k'' ;;
  ret (kern_gradient k'').

(** [f] of [_test_Z]: [psi2] is evaluated once before the branch. *)
Definition f_Z (fx : fixture) (psi2n_flag : bool) (p : ndarray) : Tst R :=
  k <- gets kern ;;
  q <- gets qX ;;
  a0 <- lift (psi0 k p q) ;;
  a1 <- lift (psi1 k p q) ;;
  _ <- lift (psi2 k p q) ;;
  if negb psi2n_flag then
    a2 <- lift (psi2 k p q) ;;
    lift (contraction fx psi2n_flag a0 a1 a2)
  else
    a2 <- lift (psi2n k p q) ;;
    lift (contraction fx psi2n_flag a0 a1 a2).

(** [df] of [_test_Z] *)
Definition df_Z (fx : fixture) (psi2n_flag : bool) (p : ndarray) : Tst ndarray :=
  k <- gets kern ;;
  q <- gets qX ;;
  lift (gradients_Z_expectations k (w1 fx) (w2 fx)
          (if negb psi2n_flag then w3 fx else w3n fx) p q).

(** [f] of [_test_qX] *)
Definition f_qX (fx : fixture) (psi2n_flag : bool) (p : ndarray) : Tst R :=
  q <- gets qX ;;
  q' <- lift (qX_set_param_array p q) ;;
  set_qX (qX_trigger_params_changed q') ;;
  q <- gets qX ;;
  k <- gets kern ;;
  a0 <- lift (psi0 k (Zs fx) q) ;;
  a1 <- lift (psi1 k (Zs fx) q) ;;
  if negb psi2n_flag then
    a2 <- lift (psi2 k (Zs fx) q) ;;
    lift (contraction fx psi2n_flag a0 a1 a2)
  else
    a2 <- lift (psi2n k (Zs fx) q) ;;
    lift (contraction fx psi2n_flag a0 a1 a2).

(** [df] of [_test_qX] *)
Definition df_qX (fx : fixture) (psi2n_flag : bool) (p : ndarray) : Tst ndarray :=
  q <- gets qX ;;
  q' <- lift (qX_set_param_array p q) ;;
  set_qX (qX_trigger_params_changed q') ;;
  q <- gets qX ;;
  k <- gets kern ;;
  g <- lift (gradients_qX_expectations k (w1 fx) (w2 fx)
               (if negb psi2n_flag then w3 fx else w3n fx) (Zs fx) q) ;;
  q'' <- lift (qX_set_gradients g q) ;;
  set_qX q'' ;;
  ret (qX_gradient q'').

(** The objective handed to the differencer for a target. *)
Definition objective (fx : fixture) (t : target) (psi2n_flag : bool)
  : ndarray -> Tst R :=
  match t with
  | kernel_param => f_kernel_param fx psi2n_flag
  | inducing_Z => f_Z fx psi2n_flag
  | posterior_qX => f_qX fx psi2n_flag
  end.

(** [GradientChecker(f, df, x0).checkgrad(verbose)]: the external numeric
    differencer, which calls the closures on the test state. *)
Variable checker_checkgrad :
  (ndarray -> Tst R) -> (ndarray -> Tst ndarray) -> ndarray -> bool -> Tst bool.

Definition assert_true (c : bool) : Tst unit :=
  if c then ret tt else raise AssertionError.

(** [_test_kernel_param(kernel, psi2n)] *)
Definition _test_kernel_param (fx : fixture) (psi2n_flag : bool) : Tst unit :=
  note kernel_param psi2n_flag ;;
  x0 <- gets (fun s => param_array (kern s)) ;;
  _ <- checker_checkgrad (f_kernel_param fx psi2n_flag)
         (df_kernel_param fx psi2n_flag) x0 true ;;
  ok <- checker_checkgrad (f_kernel_param fx psi2n_flag)
          (df_kernel_param fx psi2n_flag) x0 false ;;
  assert_true ok.

(** [_test_Z(kernel, psi2n)] *)
Definition _test_Z (fx : fixture) (psi2n_flag : bool) : Tst unit :=
  note inducing_Z psi2n_flag ;;
  ok <- checker_checkgrad (f_Z fx psi2n_flag) (df_Z fx psi2n_flag) (Zs fx) false ;;
  assert_true ok.

(** [_test_qX(kernel, psi2n)] *)
Definition _test_qX (fx : fixture) (psi2n_flag : bool) : Tst unit :=
  note posterior_qX psi2n_flag ;;
  x0 <- gets (fun s => qX_param_array (qX s)) ;;
  ok <- checker_checkgrad (f_qX fx psi2n_flag) (df_qX fx psi2n_flag) x0 false ;;
  assert_true ok.

(** The body of the loop [for k in kernels] of [test_kernels], after
    [k.randomize()]. *)
Definition test_kernel_passes (fx : fixture) : Tst unit :=
  _test_kernel_param fx false ;;
  _test_Z fx false ;;
  _test_qX fx false ;;
  _test_kernel_param fx true ;;
  _test_Z fx true ;;
  _test_qX fx true.

End PsiStatistics.

(* ------------------------------------------------------------------ *)
(** ** [GPy/util/initialization.py]: [initialize_latent] *)

(** What [initialize_latent] imports: [PCA] with its [project] and [fracs]
    (one-dimensional arrays are lists), [tdot], [diag.add] and numpy's
    [multivariate_normal]. *)
Class LatentLib (P : Type) : Type := {
  PCA : ndarray -> result P;
  project : P -> ndarray -> nat -> result ndarray;
  fracs : P -> list R;
  tdot : ndarray -> ndarray;
  diag_add : ndarray -> R -> ndarray;
  multivariate_normal : list R -> ndarray -> nat -> rng -> result ndarray * rng
}.

(** Column [j] of a matrix, summed: [a[:, j].sum()]. *)
Definition col_sum (a : ndarray) (j : nat) : R :=
  sum_n (fun i => item a [i; j]) (dim 0 a).

Definition col_mean (a : ndarray) (j : nat) : R :=
  (col_sum a j / INR (dim 0 a))%R.

Definition col_var (a : ndarray) (j : nat) : R :=
  (sum_n (fun i => (item a [i; j] - col_mean a j) ^ 2) (dim 0 a) / INR (dim 0 a))%R.

Definition col_std (a : ndarray) (j : nat) : R := sqrt (col_var a j).

(** [a.mean(0)], [a.var(0)] and [a.std(0)] of a matrix. *)
Definition mean0 (a : ndarray) : list R := map (col_mean a) (seq 0 (dim 1 a)).
Definition var0 (a : ndarray) : list R := map (col_var a) (seq 0 (dim 1 a)).
Definition std0 (a : ndarray) : list R := map (col_std a) (seq 0 (dim 1 a)).

(** [a -= v] and [a /= v] for a matrix [a] and a row vector [v]. *)
Definition sub_row (a : ndarray) (v : list R) : ndarray :=
  {| shape := shape a;
     item := fun idx => match idx with
                        | [i; j] => (item a idx - nth j v 0)%R
                        | _ => item a idx
                        end |}.

Definition div_row (a : ndarray) (v : list R) : ndarray :=
  {| shape := shape a;
     item := fun idx => match idx with
                        | [i; j] => (item a idx / nth j v 0)%R
                        | _ => item a idx
                        end |}.

(** [x[:b.shape[0], :b.shape[1]] = b] for matrices [x] and [b]. *)
Definition assign_block (x b : ndarray) : result ndarray :=
  match shape x, shape b with
  | [n; q], [r; c] =>
      if (((r <=? n) || (r =? 1)) && ((c <=? q) || (c =? 1)))%nat then
        Ok {| shape := [n; q];
              item := fun idx => match idx with
                                 | [i; j] => if ((i <? r) && (j <? c))%nat
                                             then item b idx else item x idx
                                 | _ => item x idx
                                 end |}
      else Raise ValueError
  | [n; q], (_ :: _ :: _ :: _) => Raise ValueError
  | _, _ => Raise IndexError
  end.

(** [v.max()] *)
Definition vmax (v : list R) : result R :=
  match v with
  | [] => Raise ValueError
  | x :: xs => Ok (fold_left Rmax xs x)
  end.

Record warning : Set := Warning { category : string; message : string }.

Record lstate : Type := LState {
  lrandom : rng;
  warnings : list warning
}.

Definition warn (c m : string) : M lstate unit :=
  modify (fun s => {| lrandom := lrandom s;
                      warnings := warnings s ++ [{| category := c; message := m |}] |}).

Definition is_zero (x : R) : bool := if Req_dec_T x 0 then true else false.

Definition divide_by_zero_warning : warning :=
  {| category := "RuntimeWarning"; message := "divide by zero encountered in divide" |}.

Definition invalid_value_warning : warning :=
  {| category := "RuntimeWarning"; message := "invalid value encountered in divide" |}.

(** numpy's report of an elementwise division over the pairs (numerator,
    divisor), under its default error state: one [RuntimeWarning] when some
    number other than 0 is divided by 0 (the quotient is [inf] or [-inf]),
    then one when some 0 is divided by 0 (the quotient is [nan]).  The
    wording of the two messages is numpy's and has changed between its
    releases; the properties below rest on the category only. *)
Definition divide_warnings (pairs : list (R * R)) : list warning :=
  (if existsb (fun p => is_zero (snd p) && negb (is_zero (fst p))) pairs
   then [divide_by_zero_warning] else [])
  ++ (if existsb (fun p => is_zero (snd p) && is_zero (fst p)) pairs
      then [invalid_value_warning] else []).

Definition numpy_warn (ws : list warning) : M lstate unit :=
  modify (fun s => {| lrandom := lrandom s; warnings := warnings s ++ ws |}).

Definition ldraw {A : Type} (f : rng -> A * rng) : M lstate A :=
  fun s => let (a, g) := f (lrandom s) in
           (Ok a, {| lrandom := g; warnings := warnings s |}).

Definition ldraw_result {A : Type} (f : rng -> result A * rng) : M lstate A :=
  fun s => let (r, g) := f (lrandom s) in
           (r, {| lrandom := g; warnings := warnings s |}).

Section Initialization.
Context {P : Type} `{LatentLib P}.

(** Lines 16 to 53: the base matrix [Xr] and the variance [var] of the
    branch selected by [init]. *)
Definition initialize_latent_branch (init : string) (input_dim : nat) (Y : ndarray)
  : M lstate (ndarray * list R) :=
  n <- lift (shape_at 0 Y) ;;
  Xr <- ldraw (randn n input_dim) ;;
  if String.eqb "PCA" init then
    p <- lift (PCA Y) ;;
    d <- lift (shape_at 1 Y) ;;
    PC <- lift (project p Y (Nat.min input_dim d)) ;;
    Xr <- lift (assign_block Xr PC) ;;
    ret (Xr, map (fun f => (1 / 10 * f)%R) (firstn input_dim (fracs p)))
  else if String.eqb init "empirical_samples" then
    warn "DeprecationWarning"
      "Deprecated initialization method 'empirical_samples'. Use 'random' instead." ;;
    let YYT := diag_add (tdot Y) (1 / 1000000) in
    n <- lift (shape_at 0 Y) ;;
    d <- lift (shape_at 1 Y) ;;
    s <- ldraw_result (multivariate_normal (repeat 0%R n) YYT (Nat.min input_dim d)) ;;
    let EMP := transpose s in
    Xr <- lift (assign_block Xr EMP) ;;
    var <- ldraw (uniform (5 / 10) (15 / 10) input_dim) ;;
    ret (Xr, var)
  else if String.eqb init "random" then
    ret (Xr, var0 Xr)
  else
    warn "DeprecationWarning"
      (init +:+ " is not a valid initialization method."
       +:+ "Supoprt for anything else than 'PCA' or 'random' will be removed in the next major release.") ;;
    ret (Xr, var0 Xr).

(** The divisions of [Xr /= Xr.std(0)], entry by entry: numerator and
    divisor. *)
Definition scaling_pairs (Xr : ndarray) (std : list R) : list (R * R) :=
  flat_map (fun i => map (fun j => (item Xr [i; j], nth j std 0%R))
                         (seq 0 (dim 1 Xr)))
           (seq 0 (dim 0 Xr)).

(** Lines 56 to 59: centring, scaling and the normalised variance.  The
    arrays of the model hold real numbers: at an entry where numpy divides by
    zero and stores [nan] or [inf], the array of the model holds Rocq's
    [x / 0], which stands for no number of the code; the [RuntimeWarning]
    that numpy emits there is recorded and marks such a result. *)
Definition normalize_latent (Xr : ndarray) (var : list R)
  : M lstate (ndarray * list R) :=
  let Xr := sub_row Xr (mean0 Xr) in
  let std := std0 Xr in
  numpy_warn (divide_warnings (scaling_pairs Xr std)) ;;
  let Xr := div_row Xr std in
  m <- lift (vmax var) ;;
  numpy_warn (divide_warnings (map (fun v => (v, m)) var)) ;;
  ret (Xr, map (fun v => (v / m)%R) var).

(** [initialize_latent(init, input_dim, Y)] *)
Definition initialize_latent (init : string) (input_dim : nat) (Y : ndarray)
  : M lstate (ndarray * list R) :=
  b <- initialize_latent_branch init input_dim Y ;;
  normalize_latent (fst b) (snd b).

End Initialization.

(* ------------------------------------------------------------------ *)
(** ** Vocabulary of the specifications *)

(** Checks 3 to 10 stand in a [try] that catches [NotImplementedError]. *)
Definition skippable (c : check) : bool := (3 <=? check_number c)%nat.

(** The guarded part of check [c] passed or was skipped. *)
Definition passes (c : check) (r : result bool) : bool :=
  match r with
  | Ok b => b
  | Raise NotImplementedError => skippable c
  | Raise _ => false
  end.

Definition passing (e : event) : bool :=
  match e with
  | Attempt c r => passes c r
  | Rerun _ _ => false
  end.

(** [a.sum(axis=(1, 2))] and [a.sum(axis=(0, 2))], entry by entry: the entry
    at an index [i :: rest] of the result sums the entries of [a] over its
    second and third, respectively first and third, coordinate. *)
Definition sum_axes_1_2 (a : ndarray) (idx : list nat) : R :=
  match idx with
  | i :: rest =>
      sum_n (fun p => sum_n (fun q => item a (i :: p :: q :: rest)) (dim 2 a)) (dim 1 a)
  | [] => 0%R
  end.

Definition sum_axes_0_2 (a : ndarray) (idx : list nat) : R :=
  match idx with
  | i :: rest =>
      sum_n (fun p => sum_n (fun q => item a (p :: i :: q :: rest)) (dim 2 a)) (dim 0 a)
  | [] => 0%R
  end.

(** Where a closure [f(p)] evaluates the Psi statistics: the kernel, the
    inducing points and the posterior, with the target replaced by [p]. *)
Definition evaluation_point {K QX : Type} `{PsiKernel K QX}
    (fx : fixture) (t : target) (p : ndarray) (s : @tstate K QX)
  : result (K * ndarray * QX) :=
  match t with
  | kernel_param =>
      rbind (set_param_array p (kern s)) (fun k => Ok (k, Zs fx, qX s))
  | inducing_Z => Ok (kern s, p, qX s)
  | posterior_qX =>
      rbind (qX_set_param_array p (qX s))
        (fun q => Ok (kern s, Zs fx, qX_trigger_params_changed q))
  end.

(** The six passes of one kernel: each target under [psi2], then each target
    under [psi2n]. *)
Definition six_passes : list (target * bool) :=
  [(kernel_param, false); (inducing_Z, false); (posterior_qX, false);
   (kernel_param, true); (inducing_Z, true); (posterior_qX, true)].

(** A differencer that finds every gradient right and keeps the list of
    targets handed to it. *)
Definition accepting {K QX : Type}
    (checker : (ndarray -> @Tst K QX R) -> (ndarray -> @Tst K QX ndarray) ->
               ndarray -> bool -> @Tst K QX bool) : Prop :=
  forall f df x0 v s, exists s',
    checker f df x0 v s = (Ok true, s') /\ handed s' = handed s.

(** Location [l] was allocated in [s]. *)
Definition allocated (s : pystate) (l : loc) : Prop := (l < next s)%nat.

(** The check an event belongs to. *)
Definition event_check (e : event) : check :=
  match e with
  | Attempt c _ => c
  | Rerun c _ => c
  end.

(** What [assert result; return False] amounts to when [result] is false. *)
Definition assert_outcome (debug : bool) : result bool :=
  if debug then Raise AssertionError else Ok false.

(** The histories the driver can leave when it is to run the checks [cs], with
    the value it returns or the exception it raises. *)
Inductive run_spec (debug : bool) : list check -> list event -> result bool -> Prop :=
| run_done : run_spec debug [] [] (Ok true)
| run_pass c r cs t out :
    passes c r = true -> run_spec debug cs t out ->
    run_spec debug (c :: cs) (Attempt c r :: t) out
| run_fail_psd cs :
    run_spec debug (psd_K_X :: cs) [Attempt psd_K_X (Ok false)] (assert_outcome debug)
| run_fail c r' cs :
    c <> psd_K_X ->
    run_spec debug (c :: cs) [Attempt c (Ok false); Rerun c r']
      (match r' with Ok _ => assert_outcome debug | Raise e => Raise e end)
| run_raise c e cs :
    passes c (Raise e) = false ->
    run_spec debug (c :: cs) [Attempt c (Raise e)] (Raise e).

(** A computation that leaves [pass_checks] and the history alone. *)
Definition quiet {World Model A : Type} (m : @Drv World Model A) : Prop :=
  forall s r s', m s = (r, s') ->
    pass_checks s' = pass_checks s /\ trace s' = trace s.

(** From a state where [pass_checks] holds, [m] extends the history as
    [run_spec] allows for the checks [cs]. *)
Definition follows {World Model : Type} (debug : bool) (cs : list check)
    (m : @Drv World Model bool) : Prop :=
  forall s out s', m s = (out, s') -> pass_checks s = true ->
    exists t, trace s' = trace s ++ t /\ run_spec debug cs t out.

(** The line the driver prints when check [c] has failed. *)
Definition failure_line (name : string) (c : check) : line :=
  Text (match c with
        | psd_K_X => "Positive definite check failed for "
        | dK_dtheta_X => "Gradient of K(X, X) wrt theta failed for "
        | dK_dtheta_X_X2 => "Gradient of K(X, X) wrt theta failed for "
        | dKdiag_dtheta_X => "Gradient of Kdiag(X) wrt theta failed for "
        | dK_dX_X => "Gradient of K(X, X) wrt X failed for "
        | dK_dX_X_X2 => "Gradient of K(X, X2) wrt X failed for "
        | dKdiag_dX_X => "Gradient of Kdiag(X) wrt X failed for "
        | d2K_dXdX_X_X2 => "Gradient of dK(X, X2) wrt X failed for "
        | d2K_dXdX_X => "Gradient of dK(X, X) wrt X with full cov in dimensions failed for "
        | d2Kdiag_dXdX_X => "Gradient of dKdiag(X, X) wrt X with cov in dimensions failed for "
        end
        +:+ name
        +:+ match c with
            | psd_K_X => " covariance function."
            | _ => " covariance function. Gradient values as follows:"
            end).

(** The diagnostic re-run of a failed check on the data [x], [x2]: none for
    the first check; for the others [checkgrad(verbose=True)], on a model
    built anew in checks 2, 3, 4 and 7 and on [testmodel] in the others. *)
Definition rerun_of {World Model Dims : Type} `{Harness World Model Dims}
    (c : check) (x x2 : ndarray) : option (@Drv World Model bool) :=
  match c with
  | psd_K_X => None
  | dK_dtheta_X => Some (fresh_checkgrad cls_dK_dtheta x None true)
  | dK_dtheta_X_X2 => Some (fresh_checkgrad cls_dK_dtheta x (Some x2) true)
  | dKdiag_dtheta_X => Some (fresh_checkgrad cls_dKdiag_dtheta x None true)
  | dKdiag_dX_X => Some (fresh_checkgrad cls_dKdiag_dX x None true)
  | dK_dX_X | dK_dX_X_X2 | d2K_dXdX_X_X2 | d2K_dXdX_X | d2Kdiag_dXdX_X =>
      Some testmodel_rerun
  end.

(** How the failure of check [c] shows in a run from [s] to [s'] with the
    history [t]: there is a state [s1] in which the failure line has just
    been printed; nothing is printed after it; the re-run, if the check has
    one, starts in [s1], its outcome is the last event of the history, and it
    leaves the kernel and the framework as the run leaves them. *)
Definition failure_shown {World Model Dims : Type} `{Harness World Model Dims}
    (x x2 : ndarray) (c : check) (s s' : @dstate World Model) (t : list event)
  : Prop :=
  exists s1 printed,
    stdout s1 = stdout s ++ printed ++ [failure_line kern_name c] /\
    stdout s' = stdout s1 /\
    match rerun_of c x x2 with
    | None => world s' = world s1
    | Some rerun =>
        exists r' s2 pre,
          rerun s1 = (r', s2) /\ world s' = world s2 /\ t = pre ++ [Rerun c r']
    end.

(** Every run of [m] extends the history, and shows every failure that it
    adds to it. *)
Definition shows {World Model Dims : Type} `{Harness World Model Dims}
    (x x2 : ndarray) (m : @Drv World Model bool) : Prop :=
  forall s out s', m s = (out, s') ->
    exists t, trace s' = trace s ++ t /\
      forall c, In (Attempt c (Ok false)) t -> failure_shown x x2 c s s' t.

(** The analytic gradient handed to the differencer for a target. *)
Definition gradient_closure {K QX : Type} `{PsiKernel K QX}
    (fx : fixture) (t : target) (psi2n_flag : bool) : ndarray -> @Tst K QX ndarray :=
  match t with
  | kernel_param => df_kernel_param fx psi2n_flag
  | inducing_Z => df_Z fx psi2n_flag
  | posterior_qX => df_qX fx psi2n_flag
  end.

(** The point [x0] at which the differencer starts. *)
Definition start_point {K QX : Type} `{PsiKernel K QX}
    (fx : fixture) (t : target) (s : @tstate K QX) : ndarray :=
  match t with
  | kernel_param => param_array (kern s)
  | inducing_Z => Zs fx
  | posterior_qX => qX_param_array (qX s)
  end.

(** [assert m.checkgrad()] on the answer of the differencer. *)
Definition asserted {K QX : Type} (r : result bool * @tstate K QX)
  : result unit * @tstate K QX :=
  match r with
  | (Ok true, s) => (Ok tt, s)
  | (Ok false, s) => (Raise AssertionError, s)
  | (Raise e, s) => (Raise e, s)
  end.

(** One pass in the words of the specification: the differencer is handed the
    objective of the target, its analytic gradient and the start point, and
    its answer is asserted; for the kernel parameters it is first asked once
    verbosely, the answer being dropped. *)
Definition gradient_pass {K QX : Type} `{PsiKernel K QX}
    (checker : (ndarray -> @Tst K QX R) -> (ndarray -> @Tst K QX ndarray) ->
               ndarray -> bool -> @Tst K QX bool)
    (fx : fixture) (p : target * bool) : @Tst K QX unit :=
  fun s =>
    let s0 := snd (note (fst p) (snd p) s) in
    let f := objective fx (fst p) (snd p) in
    let df := gradient_closure fx (fst p) (snd p) in
    let x0 := start_point fx (fst p) s0 in
    match fst p with
    | kernel_param =>
        match checker f df x0 true s0 with
        | (Ok _, s1) => asserted (checker f df x0 false s1)
        | (Raise e, s1) => (Raise e, s1)
        end
    | _ => asserted (checker f df x0 false s0)
    end.

(** The passes [ps], one after the other. *)
Fixpoint gradient_passes {K QX : Type} `{PsiKernel K QX}
    (checker : (ndarray -> @Tst K QX R) -> (ndarray -> @Tst K QX ndarray) ->
               ndarray -> bool -> @Tst K QX bool)
    (fx : fixture) (ps : list (target * bool)) : @Tst K QX unit :=
  match ps with
  | [] => ret tt
  | p :: ps' => gradient_pass checker fx p ;; gradient_passes checker fx ps'
  end.

(* ------------------------------------------------------------------ *)
(** ** Concrete inputs for the examples *)

Definition adapter_eqb (a b : adapter) : bool :=
  match a, b with
  | cls_model, cls_model | cls_dK_dtheta, cls_dK_dtheta
  | cls_dKdiag_dtheta, cls_dKdiag_dtheta | cls_dK_dX, cls_dK_dX
  | cls_dKdiag_dX, cls_dKdiag_dX | cls_d2K_dXdX, cls_d2K_dXdX
  | cls_d2Kdiag_dXdX, cls_d2Kdiag_dXdX => true
  | _, _ => false
  end.

(** A harness over a kernel named "rbf" with two inputs and two outputs: a
    model is its class and whether it was given [X2]; [verdict] decides what
    [checkgrad] does on it; the eigenvalues of K(X) are 1 and 0.5. *)
Definition example_harness (verdict : adapter -> bool -> result bool)
  : Harness unit (adapter * bool) unit :=
  {| kern_name := "rbf";
     kern_input_dim := 2;
     kern_output_dim := 2;
     construct := fun cls _ x2 w =>
       (Ok (cls, match x2 with Some _ => true | None => false end), w);
     fix_columns := fun _ _ w => (Ok tt, w);
     checkgrad := fun m _ w => (verdict (fst m) (snd m), w);
     eigenvalues := fun _ w => (Ok [Complex 1%float 0%float; Complex 0.5%float 0%float], w) |}.

(** The gradient w.r.t. the hyperparameters is wrong; all else is right. *)
Definition wrong_dK_dtheta (cls : adapter) (has_X2 : bool) : result bool :=
  Ok (negb (adapter_eqb cls cls_dK_dtheta)).

(** Only [update_gradients_full] on [(X, X)] is implemented and right. *)
Definition only_dK_dtheta (cls : adapter) (has_X2 : bool) : result bool :=
  if adapter_eqb cls cls_dK_dtheta && negb has_X2 then Ok true
  else Raise NotImplementedError.

(** No gradient is implemented. *)
Definition nothing_implemented (cls : adapter) (has_X2 : bool) : result bool :=
  Raise NotImplementedError.

Definition zeros (n m : nat) : ndarray :=
  {| shape := [n; m]; item := fun _ => 0%R |}.

Definition example_rng : rng :=
  {| normals := fun k => INR k; uniforms := fun _ => 0%R; integers := fun k => k |}.

(** Psi statistics that are constant arrays for 2 data points and 1
    inducing point, and the fixture of weights of the same shapes. *)
Definition example_psi_kernel : PsiKernel unit unit :=
  {| param_array := fun _ => {| shape := [1%nat]; item := fun _ => 1%R |};
     set_param_array := fun _ k => Ok k;
     kern_gradient := fun _ => {| shape := [1%nat]; item := fun _ => 0%R |};
     psi0 := fun _ _ _ => Ok {| shape := [2%nat]; item := fun _ => 1%R |};
     psi1 := fun _ _ _ => Ok {| shape := [2%nat; 1%nat]; item := fun _ => 2%R |};
     psi2 := fun _ _ _ => Ok {| shape := [1%nat; 1%nat]; item := fun _ => 3%R |};
     psi2n := fun _ _ _ =>
       Ok {| shape := [2%nat; 1%nat; 1%nat]; item := fun _ => 4%R |};
     update_gradients_expectations := fun _ _ _ _ _ k => Ok k;
     gradients_Z_expectations := fun _ _ _ _ z _ => Ok z;
     gradients_qX_expectations := fun _ _ _ _ z _ => Ok z;
     qX_param_array := fun _ => {| shape := [1%nat]; item := fun _ => 0%R |};
     qX_set_param_array := fun _ q => Ok q;
     qX_trigger_params_changed := fun q => q;
     qX_set_gradients := fun _ q => Ok q;
     qX_gradient := fun _ => {| shape := [1%nat]; item := fun _ => 0%R |} |}.

Definition example_fixture : fixture :=
  {| Zs := zeros 1 2;
     w1 := {| shape := [2%nat]; item := fun _ => 1%R |};
     w2 := {| shape := [2%nat; 1%nat]; item := fun _ => 1%R |};
     w3 := {| shape := [1%nat; 1%nat]; item := fun _ => 1%R |};
     w3n := {| shape := [2%nat; 1%nat; 1%nat]; item := fun _ => 1%R |} |}.

Definition example_checker
    (f : ndarray -> @Tst unit unit R) (df : ndarray -> @Tst unit unit ndarray)
    (x0 : ndarray) (verbose : bool) : @Tst unit unit bool :=
  fun s => (Ok true, s).

(** A stand-in for the PCA of the one-column data [example_Y]: the projection
    is the data itself and the single eigen-fraction is 1; samples of
    [multivariate_normal] alternate between 1 and -1. *)
Definition example_latent_lib : LatentLib unit :=
  {| PCA := fun _ => Ok tt;
     project := fun _ Y q => Ok {| shape := [dim 0 Y; q]; item := item Y |};
     fracs := fun _ => [1%R];
     tdot := fun Y => Y;
     diag_add := fun a _ => a;
     multivariate_normal := fun mean _ size g =>
       (Ok {| shape := [size; length mean];
              item := fun idx => match idx with
                                 | [_; i] => if Nat.even i then 1%R else (-1)%R
                                 | _ => 0%R
                                 end |}, g) |}.

(** Two observations of one variable: 1 and -1. *)
Definition example_Y : ndarray :=
  {| shape := [2%nat; 1%nat];
     item := fun idx => match idx with
                        | O :: _ => 1%R
                        | _ => (-1)%R
                        end |}.

(** A random state whose uniform draws are 0, then 1/2 for ever. *)
Definition example_rng_half : rng :=
  {| normals := fun k => INR k;
     uniforms := fun k => match k with O => 0%R | S _ => (1 / 2)%R end;
     integers := fun k => k |}.

(** A kernel on two inputs whose covariances and gradients are constant
    arrays of the shapes GPy gives them. *)
Definition example_kernel : Kernel unit :=
  {| RBF := fun _ => tt;
     input_dim := fun _ => 2%nat;
     randomize := fun _ _ k g => (Ok k, g);
     K_full := fun _ x x2 =>
       Ok {| shape := [dim 0 x; dim 0 (default x x2)]; item := fun _ => 1%R |};
     Kdiag := fun _ x => Ok {| shape := [dim 0 x]; item := fun _ => 1%R |};
     gradients_X := fun _ _ x _ => Ok {| shape := shape x; item := fun _ => 1%R |};
     gradients_X_diag := fun _ _ x => Ok {| shape := shape x; item := fun _ => 1%R |};
     gradients_XX := fun _ _ x x2 =>
       Ok {| shape := [dim 0 x; dim 0 (default x x2); dim 1 x; dim 1 x];
             item := fun _ => 1%R |} |}.

(** A store holding a 3 by 2 matrix at location 0 and a 4 by 2 matrix at
    location 1. *)
Definition example_store : pystate :=
  {| arrays := <[1%nat := zeros 4 2]> (<[0%nat := zeros 3 2]> ∅);
     gradient := ∅;
     next := 2;
     random := example_rng |}.

(* ------------------------------------------------------------------ *)
(** ** [Kern_check_d2Kdiag_dXdX] *)

(** The second derivatives of the diagonal, which this adapter alone asks of
    the kernel. *)
Class KernelDiag (K : Type) : Type := {
  gradients_XX_diag : K -> ndarray -> ndarray -> result ndarray
}.

(** [a[[i], [i]]] *)
Definition take_entry (i : nat) (a : ndarray) : result ndarray :=
  match shape a with
  | [n; m] =>
      if ((i <? n) && (i <? m))%nat
      then Ok {| shape := [1%nat]; item := fun _ => item a [i; i] |}
      else Raise IndexError
  | n :: m :: rest =>
      if ((i <? n) && (i <? m))%nat
      then Ok {| shape := 1%nat :: rest; item := fun idx => item a (i :: i :: tl idx) |}
      else Raise IndexError
  | _ => Raise IndexError
  end.

(** [a[[i]]] *)
Definition take_row (i : nat) (a : ndarray) : result ndarray :=
  match shape a with
  | n :: rest =>
      if (i <? n)%nat
      then Ok {| shape := 1%nat :: rest; item := fun idx => item a (i :: tl idx) |}
      else Raise IndexError
  | [] => Raise IndexError
  end.

(** [a.sum(-1)] *)
Definition sum_last (a : ndarray) : result ndarray :=
  match ndim a with
  | O => Raise AxisError
  | S k => sum_axis k a
  end.

Section DiagonalAdapter.
Context {K : Type} `{Kernel K} `{KernelDiag K}.

(** [Kern_check_d2Kdiag_dXdX.__init__]; the object has the attributes of a
    [Kern_check_d2K_dXdX], but its free [X] wraps the argument itself. *)
Definition Kern_check_d2Kdiag_dXdX_body (kern : option K) (dL : option loc)
    (x : loc) : Py Kern_check_d2K_dXdX :=
  m <- Kern_check_model_init kern dL (Some x) None ;;
  px <- Param "X" x ;;
  xc <- copy x ;;
  ret {| base := {| kernel := m.(kernel); X := px; X2 := m.(X2);
                    dL_dK := m.(dL_dK) |};
         Xc := xc |}.

(** The loop of [log_likelihood] over the rows still to visit, [l] being the
    sum so far. *)
Fixpoint d2Kdiag_rows (k : K) (d x xc : ndarray) (rows : list nat) (l : R)
  : result R :=
  match rows with
  | [] => Ok l
  | i :: rows' =>
      rbind (take_entry i d) (fun di =>
      rbind (take_row i x) (fun xi =>
      rbind (take_row i xc) (fun xci =>
      rbind (gradients_X k di xi (Some xci)) (fun g =>
      d2Kdiag_rows k d x xc rows' (l + np_sum g)%R))))
  end.

(** [Kern_check_d2Kdiag_dXdX.log_likelihood] *)
Definition d2Kdiag_dXdX_log_likelihood (m : Kern_check_d2K_dXdX) : Py R :=
  d <- read (dL_dK (base m)) ;;
  x <- read (X (base m)) ;;
  xc <- read (Xc m) ;;
  n <- lift (shape_at 0 x) ;;
  lift (d2Kdiag_rows (kernel (base m)) d x xc (seq 0 n) 0).

(** [Kern_check_d2Kdiag_dXdX.parameters_changed] *)
Definition d2Kdiag_dXdX_parameters_changed (m : Kern_check_d2K_dXdX) : Py unit :=
  d <- read (dL_dK (base m)) ;;
  x <- read (X (base m)) ;;
  dd <- lift (diagonal d) ;;
  g <- lift (gradients_XX_diag (kernel (base m)) dd x) ;;
  grads <- lift (sum_last (neg g)) ;;
  set_gradient (X (base m)) grads.

(** [Kern_check_d2Kdiag_dXdX(kernel, dL_dK, X)] *)
Definition Kern_check_d2Kdiag_dXdX_init (kern : option K) (dL : option loc)
    (x : loc) : Py Kern_check_d2K_dXdX :=
  m <- Kern_check_d2Kdiag_dXdX_body kern dL x ;;
  initialize_parameter d2Kdiag_dXdX_parameters_changed m.

End DiagonalAdapter.

(* ------------------------------------------------------------------ *)
(** ** [TestKernelPsiStatisticsGradient.setup] *)

(** Row-major position of an index in an array of shape [sh]. *)
Fixpoint flat_index (sh idx : list nat) : nat :=
  match sh, idx with
  | _ :: sh', i :: idx' => (i * fold_right Nat.mul 1 sh' + flat_index sh' idx')%nat
  | _, _ => 0%nat
  end.

(** [np.random.randn(d0, d1, ...)] for any number of axes. *)
Definition randn_nd (sh : list nat) (g : rng) : ndarray * rng :=
  ({| shape := sh; item := fun idx => normals g (flat_index sh idx) |},
   {| normals := shift (fold_right Nat.mul 1 sh) (normals g);
      uniforms := uniforms g; integers := integers g |}).

(** [a + c] for a scalar [c] *)
Definition add_scalar (a : ndarray) (c : R) : ndarray :=
  {| shape := shape a; item := fun idx => (item a idx + c)%R |}.

(** [a + b] *)
Definition np_add (a b : ndarray) : result ndarray :=
  match broadcast_shapes (shape a) (shape b) with
  | Some sh =>
      Ok {| shape := sh;
            item := fun idx => (item a (broadcast_index (shape a) idx)
                                + item b (broadcast_index (shape b) idx))%R |}
  | None => Raise ValueError
  end.

Definition swap_1_2 {A : Type} (l : list A) : list A :=
  match l with
  | a :: b :: c :: rest => a :: c :: b :: rest
  | _ => l
  end.

(** [np.swapaxes(a, 1, 2)] *)
Definition swapaxes_1_2 (a : ndarray) : result ndarray :=
  if (3 <=? ndim a)%nat then
    Ok {| shape := swap_1_2 (shape a); item := fun idx => item a (swap_1_2 idx) |}
  else Raise AxisError.

Module TestKernelPsiStatisticsGradient.

(** [setup]: the mean [X] and the variance [X_var] handed to
    [NormalPosterior], and the fixture. *)
Definition setup (g : rng) : result (ndarray * ndarray * fixture) * rng :=
  let N := 100%nat in
  let M := 20%nat in
  let Q := 3%nat in
  let (X, g) := randn N Q g in
  let (U, g) := rand N Q g in
  let X_var := add_scalar U (1 / 100) in
  let (Z, g) := randn M Q g in
  let (w1, g) := randn_nd [N] g in
  let (w2, g) := randn N M g in
  let (w3, g) := randn M M g in
  let (w3n, g) := randn_nd [N; M; M] g in
  (rbind (swapaxes_1_2 w3n) (fun sw =>
   rbind (np_add w3n sw) (fun w3n =>
   Ok (X, X_var, {| Zs := Z; w1 := w1; w2 := w2; w3 := w3; w3n := w3n |}))),
   g).

End TestKernelPsiStatisticsGradient.

(* ------------------------------------------------------------------ *)
(** ** [TestKernelNonContinuous.setup] *)

(** [np.random.random_integers(low, high, size=n)]: n integers of
    [low, high], both ends included. *)
Definition random_integers (low high n : nat) (g : rng) : result (list nat) * rng :=
  if (low <=? high)%nat then
    (Ok (map (fun i => (low + integers g i mod (high - low + 1))%nat) (seq 0 n)),
     {| normals := normals g; uniforms := uniforms g;
        integers := shift n (integers g) |})
  else (Raise ValueError, g).

(** [x[mask, -1] = v] for a matrix [x] and a mask over its rows. *)
Definition set_last_where (x : ndarray) (mask : nat -> bool) (v : R) : result ndarray :=
  match shape x with
  | [n; S q] =>
      Ok {| shape := [n; S q];
            item := fun idx => match idx with
                               | [i; j] => if mask i && (j =? q)%nat then v
                                           else item x idx
                               | _ => item x idx
                               end |}
  | _ => Raise IndexError
  end.

Module TestKernelNonContinuous.

(** [setup]: the pair [(self.X, self.X2)]. *)
Definition setup (g : rng) : result (ndarray * ndarray) * rng :=
  let N0 := 3%nat in
  let N1 := 9%nat in
  let N2 := 4%nat in
  let N := (N0 + N1 + N2)%nat in
  let D := 3%nat in
  let (X, g) := randn N (D + 1) g in
  match random_integers 0 2 N g with
  | (Raise e, g) => (Raise e, g)
  | (Ok indices, g) =>
      match
        rbind (set_last_where X (fun i => (nth i indices 0 =? 0)%nat) 0) (fun X =>
        rbind (set_last_where X (fun i => (nth i indices 0 =? 1)%nat) 1) (fun X =>
        set_last_where X (fun i => (nth i indices 0 =? 2)%nat) 2))
      with
      | Raise e => (Raise e, g)
      | Ok X =>
          let (X2, g) := randn ((N0 + N1) * 2) (D + 1) g in
          (rbind (set_last_where X2 (fun i => (i <? N0 * 2)%nat) 0) (fun X2 =>
           rbind (set_last_where X2 (fun i => negb (i <? N0 * 2)%nat) 1) (fun X2 =>
           Ok (X, X2))), g)
      end
  end.

End TestKernelNonContinuous.

(* ------------------------------------------------------------------ *)
(** ** Further vocabulary *)

(** The two warnings [initialize_latent] can emit. *)
Definition empirical_samples_warning : warning :=
  {| category := "DeprecationWarning";
     message := "Deprecated initialization method 'empirical_samples'. Use 'random' instead." |}.

Definition invalid_init_warning (init : string) : warning :=
  {| category := "DeprecationWarning";
     message := init +:+ " is not a valid initialization method."
       +:+ "Supoprt for anything else than 'PCA' or 'random' will be removed in the next major release." |}.

(** The line the driver prints after a check that passed or was skipped. *)
Definition is_check_passed (l : line) : bool :=
  match l with
  | Text s => String.eqb s "Check passed."
  | Number _ => false
  end.

Definition is_attempt (e : event) : bool :=
  match e with
  | Attempt _ _ => true
  | Rerun _ _ => false
  end.

(** A computation of the driver that prints nothing. *)
Definition mute {World Model A : Type} (m : @Drv World Model A) : Prop :=
  forall s r s', m s = (r, s') -> stdout s' = stdout s.

(** When [m] returns true it has printed nothing if [verbose] is off, and
    [n] lines ["Check passed."] if it is on. *)
Definition reports {World Model : Type} (verbose : bool) (n : nat)
    (m : @Drv World Model bool) : Prop :=
  forall s s', m s = (Ok true, s') ->
    exists out, stdout s' = stdout s ++ out /\
      (verbose = false -> out = []) /\
      (verbose = true -> length (filter is_check_passed out) = n).

(** The operations of the harness never raise [UnboundLocalError]. *)
Definition harness_binds_its_names {World Model Dims : Type}
    `{Harness World Model Dims} : Prop :=
  (forall cls x x2 w, fst (construct cls x x2 w) <> Raise UnboundLocalError) /\
  (forall m d w, fst (fix_columns m d w) <> Raise UnboundLocalError) /\
  (forall m v w, fst (checkgrad m v w) <> Raise UnboundLocalError) /\
  (forall m w, fst (eigenvalues m w) <> Raise UnboundLocalError).

(** [m] does not end in [UnboundLocalError]. *)
Definition never_unbound {World Model A : Type} (m : @Drv World Model A) : Prop :=
  forall s out s', m s = (out, s') -> out <> Raise UnboundLocalError.

(** The variable [testmodel] is bound where the re-run reads it. *)
Definition ready {World Model : Type} (reads_testmodel : bool)
    (s : @dstate World Model) : Prop :=
  reads_testmodel = true -> testmodel s <> None.

(** Between [s] and [s'] nothing but the gradient buffer of [l] has changed. *)
Definition writes_gradient_only (l : loc) (s s' : pystate) : Prop :=
  arrays s' = arrays s /\ next s' = next s /\ random s' = random s /\
  forall l', l' <> l -> gradient s' !! l' = gradient s !! l'.

(* ------------------------------------------------------------------ *)
(** ** Further inputs for the examples *)

(** The gradient w.r.t. [X] is wrong; all else is right. *)
Definition wrong_dK_dX (cls : adapter) (has_X2 : bool) : result bool :=
  Ok (negb (adapter_eqb cls cls_dK_dX)).

(** A harness over a kernel with one input and twelve outputs, as
    [GPy.kern.Coregionalize(1, output_dim=12)] has them. *)
Definition coregionalize_harness : Harness unit (adapter * bool) unit :=
  {| kern_name := "coregion";
     kern_input_dim := 1;
     kern_output_dim := 12;
     construct := fun cls _ x2 w =>
       (Ok (cls, match x2 with Some _ => true | None => false end), w);
     fix_columns := fun _ _ w => (Ok tt, w);
     checkgrad := fun _ _ w => (Ok true, w);
     eigenvalues := fun _ w => (Ok [Complex 1%float 0%float], w) |}.

(** A differencer that rejects every gradient. *)
Definition rejecting_checker
    (f : ndarray -> @Tst unit unit R) (df : ndarray -> @Tst unit unit ndarray)
    (x0 : ndarray) (verbose : bool) : @Tst unit unit bool :=
  fun s => (Ok false, s).

(** Second derivatives of the diagonal that are constant arrays, one more
    axis than [X]. *)
Definition example_kernel_diag : KernelDiag unit :=
  {| gradients_XX_diag := fun _ _ x =>
       Ok {| shape := shape x ++ [dim 1 x]; item := fun _ => 1%R |} |}.

(* ================================================================== *)
(** * Properties *)

(* ------------------------------------------------------------------ *)
(** ** Finite sums and broadcasting *)

Lemma sum_n_ext (f g : nat -> R) (n : nat) :
  (forall i, (i < n)%nat -> f i = g i) -> sum_n f n = sum_n g n.
Proof.
  induction n as [|n IH]; intros E; simpl; [reflexivity|].
  rewrite IH by (intros i Hi; apply E; lia).
  rewrite (E n) by lia. reflexivity.
Qed.

Lemma sum_n_zero (n : nat) : sum_n (fun _ => 0%R) n = 0%R.
Proof. induction n as [|n IH]; simpl; [reflexivity | rewrite IH; lra]. Qed.

Lemma sum_n_plus (f g : nat -> R) (n : nat) :
  sum_n (fun i => (f i + g i)%R) n = (sum_n f n + sum_n g n)%R.
Proof. induction n as [|n IH]; simpl; [lra | rewrite IH; lra]. Qed.

Lemma sum_n_scale (c : R) (f : nat -> R) (n : nat) :
  sum_n (fun i => (f i * c)%R) n = (sum_n f n * c)%R.
Proof. induction n as [|n IH]; simpl; [lra | rewrite IH; lra]. Qed.

Lemma sum_n_const (c : R) (n : nat) : sum_n (fun _ => c) n = (INR n * c)%R.
Proof.
  induction n as [|n IH]; [simpl; lra|].
  rewrite S_INR. simpl. rewrite IH. lra.
Qed.

Lemma sum_n_opp (f : nat -> R) (n : nat) :
  sum_n (fun i => (- f i)%R) n = (- sum_n f n)%R.
Proof. induction n as [|n IH]; simpl; [lra | rewrite IH; lra]. Qed.

(** Two nested finite sums may be exchanged. *)
Lemma sum_n_swap (f : nat -> nat -> R) (n m : nat) :
  sum_n (fun i => sum_n (fun j => f i j) m) n
  = sum_n (fun j => sum_n (fun i => f i j) n) m.
Proof.
  induction n as [|n IH]; simpl.
  - symmetry. apply sum_n_zero.
  - rewrite IH. symmetry. apply sum_n_plus.
Qed.

Lemma in_range_length (sh idx : list nat) :
  in_range sh idx -> length idx = length sh.
Proof. intros F. induction F; simpl; congruence. Qed.

Lemma clamp_index_in_range (sh idx : list nat) :
  in_range sh idx -> clamp_index sh idx = idx.
Proof.
  intros F. induction F as [|i d idx sh Hlt _ IH]; simpl; [reflexivity|].
  rewrite IH. destruct (Nat.eqb_spec d 1) as [->|]; [|reflexivity].
  f_equal. lia.
Qed.

Lemma broadcast_index_in_range (sh idx : list nat) :
  in_range sh idx -> broadcast_index sh idx = idx.
Proof.
  intros F. unfold broadcast_index.
  rewrite (in_range_length _ _ F), Nat.sub_diag. simpl.
  apply clamp_index_in_range, F.
Qed.

Lemma broadcast_rev_same (r : list nat) : broadcast_rev r r = Some r.
Proof.
  induction r as [|a r IH]; simpl; [reflexivity|].
  rewrite IH, Nat.eqb_refl. reflexivity.
Qed.

Lemma broadcast_shapes_same (sh : list nat) : broadcast_shapes sh sh = Some sh.
Proof.
  unfold broadcast_shapes. rewrite broadcast_rev_same. simpl.
  rewrite rev_involutive. reflexivity.
Qed.

Lemma sum_over_ext (sh : list nat) (f g : list nat -> R) :
  (forall idx, in_range sh idx -> f idx = g idx) -> sum_over sh f = sum_over sh g.
Proof.
  revert f g. induction sh as [|n sh IH]; intros f g E; simpl.
  - apply E. constructor.
  - apply sum_n_ext. intros i Hi. apply IH. intros idx F.
    apply E. constructor; assumption.
Qed.

(** The product of two arrays of one shape, summed, is the sum of the
    products of their entries over that shape. *)
Lemma weighted_sum_same_shape (w a : ndarray) :
  shape a = shape w ->
  weighted_sum w a = Ok (sum_over (shape w) (fun idx => (item w idx * item a idx)%R)).
Proof.
  intros E. unfold weighted_sum, np_mul. rewrite E, broadcast_shapes_same.
  simpl. unfold np_sum. simpl. f_equal.
  apply sum_over_ext. intros idx F.
  rewrite (broadcast_index_in_range _ _ F). reflexivity.
Qed.

(* ------------------------------------------------------------------ *)
(** ** The positive-semi-definiteness test *)

(** C2 (as amended).  [is_positive_semi_definite] returns false exactly when
    some eigenvalue has a real part less than or equal to -1e-10, and true
    exactly when every real part is above -1e-10 (or is not a number). *)
Theorem is_positive_semi_definite_threshold (v : list complex128) :
  (is_positive_semi_definite v = false <->
   exists z, In z v /\ PrimFloat.leb (real z) (-1e-10)%float = true) /\
  (is_positive_semi_definite v = true <->
   forall z, In z v -> PrimFloat.leb (real z) (-1e-10)%float = false).
Proof.
  unfold is_positive_semi_definite.
  destruct (existsb (fun z => PrimFloat.leb (real z) (-1e-10)%float) v) eqn:E.
  - apply existsb_exists in E. destruct E as (z & Hz & Hle).
    split; split; try discriminate; try reflexivity.
    + intros _. exists z. split; assumption.
    + intros A. rewrite (A z Hz) in Hle. discriminate.
  - split; split; try discriminate; try reflexivity.
    + intros (z & Hz & Hle).
      assert (X : existsb (fun z => PrimFloat.leb (real z) (-1e-10)%float) v = true)
        by (apply existsb_exists; exists z; split; assumption).
      rewrite X in E. discriminate.
    + intros _ z Hz. destruct (PrimFloat.leb (real z) (-1e-10)%float) eqn:L; [|reflexivity].
      assert (X : existsb (fun z => PrimFloat.leb (real z) (-1e-10)%float) v = true)
        by (apply existsb_exists; exists z; split; assumption).
      rewrite X in E. discriminate.
Qed.

(** C2, counterexample.  On a spectrum whose only eigenvalue has real part
    exactly -1e-10, so that no real part is strictly below -1e-10, the test
    returns false. *)
Lemma is_positive_semi_definite_at_threshold :
  is_positive_semi_definite [Complex (-1e-10)%float 0%float] = false /\
  existsb (fun z => PrimFloat.ltb (real z) (-1e-10)%float)
    [Complex (-1e-10)%float 0%float] = false.
Proof. split; reflexivity. Qed.

(* ------------------------------------------------------------------ *)
(** ** The driver follows [run_spec] *)

Section DriverProperties.
Context {World Model Dims : Type} `{Harness World Model Dims}.
#[local] Abbreviation Drv := (@Drv World Model).
#[local] Abbreviation dstate := (@dstate World Model).
#[local] Abbreviation call := (@call World Model).
#[local] Abbreviation draw_np := (@draw_np World Model).
#[local] Abbreviation print := (@print World Model).
#[local] Abbreviation set_pass_checks := (@set_pass_checks World Model).
#[local] Abbreviation set_testmodel := (@set_testmodel World Model).
#[local] Abbreviation py_assert := (@py_assert World Model).

Tactic Notation "step_in" hyp(H) "as" ident(a) ident(s1) ident(E) :=
  unfold bind at 1 in H;
  match type of H with
  | (match ?m ?s with _ => _ end) = _ => destruct (m s) as [[a|a] s1] eqn:E
  end.

Ltac quiet_base :=
  let s := fresh "s" in let r := fresh "r" in let s' := fresh "s'" in
  let E := fresh "E" in
  intros s r s' E; cbv in E; inversion E; subst; split; reflexivity.

Lemma quiet_ret {A : Type} (a : A) : quiet (ret a : Drv A).
Proof. quiet_base. Qed.

Lemma quiet_raise {A : Type} (e : exn) : quiet (raise e : Drv A).
Proof. quiet_base. Qed.

Lemma quiet_lift {A : Type} (r : result A) : quiet (lift r : Drv A).
Proof. quiet_base. Qed.

Lemma quiet_gets {A : Type} (f : dstate -> A) : quiet (gets f).
Proof. intros s r s' E. inversion E; subst. split; reflexivity. Qed.

Lemma quiet_bind {A B : Type} (m : Drv A) (f : A -> Drv B) :
  quiet m -> (forall a, quiet (f a)) -> quiet (bind m f).
Proof.
  intros Qm Qf s r s' E. step_in E as a s1 E0.
  - destruct (Qm _ _ _ E0) as [P1 T1]. destruct (Qf _ _ _ _ E) as [P2 T2].
    split; congruence.
  - inversion E; subst. exact (Qm _ _ _ E0).
Qed.

Lemma quiet_call {A : Type} (f : World -> result A * World) : quiet (call f).
Proof.
  intros s r s' E. unfold call in E.
  destruct (f (world s)). inversion E; subst. split; reflexivity.
Qed.

Lemma quiet_draw_np {A : Type} (f : rng -> result A * rng) : quiet (draw_np f).
Proof.
  intros s r s' E. unfold draw_np in E.
  destruct (f (np_random s)). inversion E; subst. split; reflexivity.
Qed.

Lemma quiet_print (l : line) : quiet (print l).
Proof. intros s r s' E. inversion E; subst. split; reflexivity. Qed.

Lemma quiet_set_testmodel (m : Model) : quiet (set_testmodel m).
Proof. intros s r s' E. inversion E; subst. split; reflexivity. Qed.

Lemma quiet_when (b : bool) (m : Drv unit) : quiet m -> quiet (when b m).
Proof. intros Q. destruct b; [exact Q | apply quiet_ret]. Qed.

Lemma quiet_fresh_checkgrad cls x x2 v : quiet (fresh_checkgrad cls x x2 v).
Proof. apply quiet_bind; [apply quiet_call | intros; apply quiet_call]. Qed.

Lemma quiet_testmodel_checkgrad cls x x2 fixed v :
  quiet (testmodel_checkgrad cls x x2 fixed v).
Proof.
  apply quiet_bind; [apply quiet_call | intros m].
  apply quiet_bind; [apply quiet_set_testmodel | intros _].
  apply quiet_bind; [|intros _; apply quiet_call].
  destruct fixed; [apply quiet_call | apply quiet_ret].
Qed.

Lemma quiet_testmodel_rerun : quiet testmodel_rerun.
Proof.
  apply quiet_bind; [apply quiet_gets | intros [m|]];
    [apply quiet_call | apply quiet_raise].
Qed.

Lemma quiet_psd_attempt x : quiet (psd_attempt x).
Proof.
  apply quiet_bind; [apply quiet_call | intros m].
  apply quiet_bind; [apply quiet_call | intros v].
  destruct (is_positive_semi_definite v); [apply quiet_ret|].
  apply quiet_bind; [apply quiet_lift | intros lo].
  apply quiet_bind; [apply quiet_print | intros _; apply quiet_ret].
Qed.

Lemma quiet_default_X rows oi : quiet (default_X rows oi).
Proof.
  apply quiet_bind; [apply quiet_draw_np | intros x].
  destruct oi; [|apply quiet_ret].
  apply quiet_bind; [apply quiet_lift | intros n].
  apply quiet_bind; [apply quiet_draw_np | intros v; apply quiet_lift].
Qed.

Lemma follows_done (debug : bool) : follows debug [] (gets pass_checks : Drv bool).
Proof.
  intros s out s' E P. inversion E; subst. exists []. rewrite P, app_nil_r.
  split; [reflexivity | constructor].
Qed.

Lemma observe_run (mk : result bool -> event) (m : Drv bool) (s : dstate) r s' :
  quiet m -> observe mk m s = (r, s') ->
  pass_checks s' = pass_checks s /\ trace s' = trace s ++ [mk r].
Proof.
  intros Q E. unfold observe in E. destruct (m s) as [r0 s0] eqn:Em.
  inversion E; subst. destruct (Q _ _ _ Em) as [P T]. simpl. rewrite T. auto.
Qed.

Lemma when_print_run (b : bool) (l : line) (s : dstate) r s' :
  when b (print l) s = (r, s') ->
  r = Ok tt /\ pass_checks s' = pass_checks s /\ trace s' = trace s.
Proof. destruct b; intros E; inversion E; subst; auto. Qed.

(** The attempt of a check, under its [try] when the check has one. *)
Lemma guarded_attempt_run (verbose guarded : bool) (c : check)
    (not_implemented : string) (attempt : Drv bool) (s : dstate) r s' :
  quiet attempt ->
  (if guarded then
     try_except (observe (Attempt c) attempt) NotImplementedError
       (when verbose (print (Text (not_implemented +:+ kern_name))) ;; ret true)
   else observe (Attempt c) attempt) s = (r, s') ->
  exists r0,
    pass_checks s' = pass_checks s /\ trace s' = trace s ++ [Attempt c r0] /\
    r = match r0 with
        | Ok b => Ok b
        | Raise e => if guarded && exn_eqb e NotImplementedError
                     then Ok true else Raise e
        end.
Proof.
  intros Q E. destruct guarded.
  - unfold try_except in E.
    destruct (observe (Attempt c) attempt s) as [r0 s0] eqn:Eo.
    destruct (observe_run _ _ _ _ _ Q Eo) as [P T].
    exists r0. destruct r0 as [b|e].
    + inversion E; subst. auto.
    + simpl. destruct (exn_eqb e NotImplementedError).
      * step_in E as u s1 E0.
        -- destruct (when_print_run _ _ _ _ _ E0) as (_ & P1 & T1).
           inversion E; subst. repeat split; congruence.
        -- destruct (when_print_run _ _ _ _ _ E0) as (X & _). discriminate.
      * inversion E; subst. auto.
  - destruct (observe_run _ _ _ _ _ Q E) as [P T].
    exists r. destruct r; auto.
Qed.

(** The tail of a failed check: the assertion, then [return False]. *)
Lemma failure_tail (debug assert_first : bool) (s : dstate) r s' :
  (((if assert_first
     then py_assert debug false ;; set_pass_checks false
     else set_pass_checks false ;; py_assert debug false) ;;
    ret false) : Drv bool) s = (r, s') ->
  r = assert_outcome debug /\ trace s' = trace s.
Proof. destruct debug, assert_first; intros E; inversion E; subst; auto. Qed.

Lemma follows_gradient_check (debug verbose : bool) (c : check) (guarded : bool)
    (checking not_implemented failed : string) (attempt rerun : Drv bool)
    (assert_first : bool) (rest : Drv bool) (cs : list check) :
  c <> psd_K_X -> guarded = skippable c -> quiet attempt -> quiet rerun ->
  follows debug cs rest ->
  follows debug (c :: cs)
    (gradient_check debug verbose c guarded checking not_implemented failed
       attempt rerun assert_first rest).
Proof.
  intros Hc Hg Qa Qr Frest s out s' Hrun P.
  unfold gradient_check in Hrun.
  step_in Hrun as u0 s0 E; destruct (when_print_run _ _ _ _ _ E) as (X & P0 & T0);
    [clear X E | discriminate].
  step_in Hrun as res s1 E; destruct (guarded_attempt_run _ _ _ _ _ _ _ _ Qa E)
    as (r0 & P1 & T1 & Er); clear E.
  - (* the attempt yields a result *)
    assert (Hpass : res = true -> passes c r0 = true).
    { intros ->. destruct r0 as [b|e]; simpl in *; [congruence|].
      destruct guarded; simpl in Er; [|discriminate].
      destruct e; simpl in Er; try discriminate. symmetry; exact Hg. }
    step_in Hrun as u2 s2 E; destruct (when_print_run _ _ _ _ _ E) as (X & P2 & T2);
      [clear X E | discriminate].
    destruct res; simpl in Hrun.
    + destruct (Frest _ _ _ Hrun) as (t & Tt & R); [congruence|].
      exists (Attempt c r0 :: t). split.
      * rewrite Tt, T2, T1, T0, <- app_assoc. reflexivity.
      * constructor; auto.
    + assert (r0 = Ok false) as ->.
      { destruct r0 as [b|e]; [congruence|].
        destruct (guarded && exn_eqb e NotImplementedError); discriminate. }
      step_in Hrun as u3 s3 E; [|discriminate E].
      assert (T3 : trace s3 = trace s2) by (inversion E; reflexivity). clear E.
      step_in Hrun as rr s4 E; destruct (observe_run _ _ _ _ _ Qr E) as [P4 T4]; clear E.
      * destruct (failure_tail _ _ _ _ _ Hrun) as [-> T5].
        exists [Attempt c (Ok false); Rerun c (Ok rr)]. split.
        -- rewrite T5, T4, T3, T2, T1, T0, <- app_assoc. reflexivity.
        -- apply (run_fail debug c (Ok rr)). exact Hc.
      * inversion Hrun; subst.
        exists [Attempt c (Ok false); Rerun c (Raise rr)]. split.
        -- rewrite T4, T3, T2, T1, T0, <- app_assoc. reflexivity.
        -- apply (run_fail debug c (Raise rr)). exact Hc.
  - (* the attempt raises past the handler *)
    injection Hrun as <- <-.
    destruct r0 as [b|e0]; [discriminate|].
    destruct (guarded && exn_eqb e0 NotImplementedError) eqn:G; [discriminate|].
    injection Er as ->.
    exists [Attempt c (Raise e0)]. split; [congruence|].
    apply run_raise. unfold passes. destruct e0; try reflexivity.
    rewrite <- Hg. destruct guarded; [discriminate G | reflexivity].
Qed.

Lemma follows_check_psd (debug verbose : bool) (x : ndarray) (rest : Drv bool)
    (cs : list check) :
  follows debug cs rest ->
  follows debug (psd_K_X :: cs) (check_psd debug verbose x rest).
Proof.
  intros Frest s out s' Hrun P.
  unfold check_psd in Hrun.
  step_in Hrun as u0 s0 E; destruct (when_print_run _ _ _ _ _ E) as (X & P0 & T0);
    [clear X E | discriminate].
  step_in Hrun as res s1 E;
    destruct (observe_run _ _ _ _ _ (quiet_psd_attempt x) E) as [P1 T1]; clear E.
  - step_in Hrun as u2 s2 E; destruct (when_print_run _ _ _ _ _ E) as (X & P2 & T2);
      [clear X E | discriminate].
    destruct res; simpl in Hrun.
    + destruct (Frest _ _ _ Hrun) as (t & Tt & R); [congruence|].
      exists (Attempt psd_K_X (Ok true) :: t). split.
      * rewrite Tt, T2, T1, T0, <- app_assoc. reflexivity.
      * constructor; auto.
    + exists [Attempt psd_K_X (Ok false)].
      destruct debug; inversion Hrun; subst; simpl;
        (split; [congruence | apply run_fail_psd]).
  - inversion Hrun; subst. exists [Attempt psd_K_X (Raise res)].
    split; [congruence|]. apply run_raise. destruct res; reflexivity.
Qed.
(** Every run of the driver either stops while generating the default data
    or leaves a history that [run_spec] allows for the ten checks. *)
Lemma driver_follows (debug : bool) (X_arg X2_arg : option ndarray)
    (output_ind : option Z) (verbose : bool) (fixed_X_dims : option Dims)
    (s : dstate) (out : result bool) (s' : dstate) :
  check_kernel_gradient_functions debug X_arg X2_arg output_ind verbose
    fixed_X_dims s = (out, s') ->
  (exists t, trace s' = trace s ++ t /\ run_spec debug all_checks t out) \/
  ((X_arg = None \/ X2_arg = None) /\ trace s' = trace s /\ exists e, out = Raise e).
Proof.
  intros Hrun. unfold check_kernel_gradient_functions in Hrun.
  step_in Hrun as u0 s0 E; [|discriminate E].
  assert (P0 : pass_checks s0 = true /\ trace s0 = trace s)
    by (inversion E; subst; auto).
  clear E. destruct P0 as [P0 T0].
  step_in Hrun as x s1 E.
  2:{ right. injection Hrun as <- <-.
      destruct X_arg; [discriminate E|].
      destruct (quiet_default_X _ _ _ _ _ E) as [_ T1].
      split; [auto | split; [congruence | eauto]]. }
  assert (P1 : pass_checks s1 = true /\ trace s1 = trace s).
  { destruct X_arg.
    - inversion E; subst; auto.
    - destruct (quiet_default_X _ _ _ _ _ E); split; congruence. }
  clear E. destruct P1 as [P1 T1].
  step_in Hrun as x2 s2 E.
  2:{ right. injection Hrun as <- <-.
      destruct X2_arg; [discriminate E|].
      destruct (quiet_default_X _ _ _ _ _ E) as [_ T2].
      split; [auto | split; [congruence | eauto]]. }
  assert (P2 : pass_checks s2 = true /\ trace s2 = trace s).
  { destruct X2_arg.
    - inversion E; subst; auto.
    - destruct (quiet_default_X _ _ _ _ _ E); split; congruence. }
  clear E. destruct P2 as [P2 T2].
  left. rewrite <- T2.
  refine (follows_check_psd debug verbose x _ _ _ s2 out s' Hrun P2).
  repeat (apply follows_gradient_check;
          [ discriminate | reflexivity
          | first [apply quiet_fresh_checkgrad | apply quiet_testmodel_checkgrad]
          | first [apply quiet_fresh_checkgrad | apply quiet_testmodel_rerun]
          | ]).
  apply follows_done.
Qed.

(** *** What the driver prints *)

Lemma mute_ret {A : Type} (a : A) : mute (ret a : Drv A).
Proof. intros s r s' E. inversion E; subst. reflexivity. Qed.

Lemma mute_lift {A : Type} (r : result A) : mute (lift r : Drv A).
Proof. intros s r0 s' E. inversion E; subst. reflexivity. Qed.

Lemma mute_gets {A : Type} (f : dstate -> A) : mute (gets f).
Proof. intros s r s' E. inversion E; subst. reflexivity. Qed.

Lemma mute_bind {A B : Type} (m : Drv A) (f : A -> Drv B) :
  mute m -> (forall a, mute (f a)) -> mute (bind m f).
Proof.
  intros Qm Qf s r s' E. step_in E as a s1 E0.
  - rewrite (Qf _ _ _ _ E). exact (Qm _ _ _ E0).
  - inversion E; subst. exact (Qm _ _ _ E0).
Qed.

Lemma mute_call {A : Type} (f : World -> result A * World) : mute (call f).
Proof.
  intros s r s' E. unfold call in E.
  destruct (f (world s)). inversion E; subst. reflexivity.
Qed.

Lemma mute_draw_np {A : Type} (f : rng -> result A * rng) : mute (draw_np f).
Proof.
  intros s r s' E. unfold draw_np in E.
  destruct (f (np_random s)). inversion E; subst. reflexivity.
Qed.

Lemma mute_set_testmodel (m : Model) : mute (set_testmodel m).
Proof. intros s r s' E. inversion E; subst. reflexivity. Qed.

Lemma mute_set_pass_checks (b : bool) : mute (set_pass_checks b).
Proof. intros s r s' E. inversion E; subst. reflexivity. Qed.

Lemma mute_observe (mk : result bool -> event) (m : Drv bool) :
  mute m -> mute (observe mk m).
Proof.
  intros Q s r s' E. unfold observe in E. destruct (m s) as [r0 s0] eqn:Em.
  inversion E; subst. exact (Q _ _ _ Em).
Qed.

Lemma mute_fresh_checkgrad cls x x2 v : mute (fresh_checkgrad cls x x2 v).
Proof. apply mute_bind; [apply mute_call | intros; apply mute_call]. Qed.

Lemma mute_testmodel_checkgrad cls x x2 fixed v :
  mute (testmodel_checkgrad cls x x2 fixed v).
Proof.
  apply mute_bind; [apply mute_call | intros m].
  apply mute_bind; [apply mute_set_testmodel | intros _].
  apply mute_bind; [|intros _; apply mute_call].
  destruct fixed; [apply mute_call | apply mute_ret].
Qed.

Lemma mute_default_X rows oi : mute (default_X rows oi).
Proof.
  apply mute_bind; [apply mute_draw_np | intros x].
  destruct oi; [|apply mute_ret].
  apply mute_bind; [apply mute_lift | intros n].
  apply mute_bind; [apply mute_draw_np | intros v; apply mute_lift].
Qed.

Lemma mute_raise {A : Type} (e : exn) : mute (raise e : Drv A).
Proof. intros s r s' E. inversion E; subst. reflexivity. Qed.

Lemma mute_testmodel_rerun : mute testmodel_rerun.
Proof.
  apply mute_bind; [apply mute_gets | intros [m|]];
    [apply mute_call | apply mute_raise].
Qed.

Lemma when_print_stdout (b : bool) (l : line) (s : dstate) r s' :
  when b (print l) s = (r, s') ->
  r = Ok tt /\ stdout s' = stdout s ++ (if b then [l] else []).
Proof.
  destruct b; intros E; inversion E; subst; simpl; [auto|].
  rewrite app_nil_r. auto.
Qed.

(** *** What a failed check shows *)

Lemma observe_inv (mk : result bool -> event) (m : Drv bool) (s : dstate) r s' :
  observe mk m s = (r, s') -> exists s0, m s = (r, s0) /\ s' = record (mk r) s0.
Proof.
  unfold observe. destruct (m s) as [r0 s0]. intros E. inversion E; subst. eauto.
Qed.

(** The first check adds to the output, whatever it returns or raises. *)
Lemma psd_attempt_stdout (x : ndarray) (s : dstate) r s' :
  psd_attempt x s = (r, s') -> exists o, stdout s' = stdout s ++ o.
Proof.
  intros E. unfold psd_attempt in E.
  step_in E as m s1 E1; pose proof (mute_call _ _ _ _ E1) as O1.
  2:{ inversion E; subst. exists []. rewrite app_nil_r. exact O1. }
  step_in E as v s2 E2; pose proof (mute_call _ _ _ _ E2) as O2.
  2:{ inversion E; subst. exists []. rewrite app_nil_r. congruence. }
  destruct (is_positive_semi_definite v).
  - inversion E; subst. exists []. rewrite app_nil_r. congruence.
  - step_in E as lo s3 E3; pose proof (mute_lift _ _ _ _ E3) as O3.
    2:{ inversion E; subst. exists []. rewrite app_nil_r. congruence. }
    step_in E as u s4 E4; [|discriminate E4].
    inversion E4; subst. inversion E; subst. cbn [stdout].
    exists [Number lo]. congruence.
Qed.

(** So does the attempt of a gradient check, under its [try] or not. *)
Lemma guarded_attempt_stdout (verbose guarded : bool) (c : check)
    (not_implemented : string) (attempt : Drv bool) (s : dstate) r s' :
  mute attempt ->
  (if guarded then
     try_except (observe (Attempt c) attempt) NotImplementedError
       (when verbose (print (Text (not_implemented +:+ kern_name))) ;; ret true)
   else observe (Attempt c) attempt) s = (r, s') ->
  exists o, stdout s' = stdout s ++ o.
Proof.
  intros Ma E. destruct guarded.
  - unfold try_except in E.
    destruct (observe (Attempt c) attempt s) as [r0 s0] eqn:Eo.
    pose proof (mute_observe _ _ Ma _ _ _ Eo) as Oo.
    destruct r0 as [b|e].
    + inversion E; subst. exists []. rewrite app_nil_r. exact Oo.
    + destruct (exn_eqb e NotImplementedError).
      * step_in E as u s1 E1; destruct (when_print_stdout _ _ _ _ _ E1) as (X & O1);
          [|discriminate X].
        inversion E; subst. eexists. rewrite O1, Oo. reflexivity.
      * inversion E; subst. exists []. rewrite app_nil_r. exact Oo.
  - pose proof (mute_observe _ _ Ma _ _ _ E) as Oo.
    exists []. rewrite app_nil_r. exact Oo.
Qed.

(** The assertion and [return False] print nothing and leave the kernel and
    the framework alone. *)
Lemma failure_tail_frame (debug assert_first : bool) (s : dstate) r s' :
  (((if assert_first
     then py_assert debug false ;; set_pass_checks false
     else set_pass_checks false ;; py_assert debug false) ;;
    ret false) : Drv bool) s = (r, s') ->
  stdout s' = stdout s /\ world s' = world s /\ trace s' = trace s.
Proof. destruct debug, assert_first; intros E; inversion E; subst; auto. Qed.

(** A failure shown from a later state is shown from an earlier one. *)
Lemma failure_shown_later (x x2 : ndarray) (c : check) (s s2 s' : dstate)
    (o : list line) (pre t : list event) :
  stdout s2 = stdout s ++ o ->
  failure_shown x x2 c s2 s' t -> failure_shown x x2 c s s' (pre ++ t).
Proof.
  intros O (s1 & printed & P1 & P2 & R). exists s1, (o ++ printed).
  split; [rewrite P1, O, <- !app_assoc; reflexivity|]. split; [exact P2|].
  destruct (rerun_of c x x2) as [rerun|]; [|exact R].
  destruct R as (r' & s3 & pre' & E & W & ->).
  exists r', s3, (pre ++ pre'). rewrite app_assoc. auto.
Qed.

Lemma shows_done (x x2 : ndarray) : shows x x2 (gets pass_checks : Drv bool).
Proof.
  intros s out s' E. inversion E; subst. exists [].
  split; [rewrite app_nil_r; reflexivity | intros c []].
Qed.

Lemma shows_gradient_check (debug verbose : bool) (c : check) (guarded : bool)
    (checking not_implemented failed : string) (attempt rerun : Drv bool)
    (assert_first : bool) (rest : Drv bool) (x x2 : ndarray) :
  Text (failed +:+ kern_name +:+ " covariance function. Gradient values as follows:")
  = failure_line kern_name c ->
  rerun_of c x x2 = Some rerun ->
  quiet attempt -> mute attempt -> quiet rerun -> mute rerun ->
  shows x x2 rest ->
  shows x x2
    (gradient_check debug verbose c guarded checking not_implemented failed
       attempt rerun assert_first rest).
Proof.
  intros Hl Hr Qa Ma Qr Mr Srest s out s' Hrun.
  unfold gradient_check in Hrun.
  step_in Hrun as u0 s0 E; destruct (when_print_run _ _ _ _ _ E) as (X & _ & T0);
    destruct (when_print_stdout _ _ _ _ _ E) as (_ & O0);
    [clear X E | discriminate].
  step_in Hrun as res s1 E; destruct (guarded_attempt_run _ _ _ _ _ _ _ _ Qa E)
    as (r0 & _ & T1 & Er); destruct (guarded_attempt_stdout _ _ _ _ _ _ _ _ Ma E)
    as (o1 & O1); clear E.
  - step_in Hrun as u2 s2 E; destruct (when_print_run _ _ _ _ _ E) as (X & _ & T2);
      destruct (when_print_stdout _ _ _ _ _ E) as (_ & O2);
      [clear X E | discriminate].
    assert (O : stdout s2 = stdout s ++ (if verbose then [Text checking] else [])
                              ++ o1 ++ (if (res && verbose)%bool
                                        then [Text "Check passed."] else []))
      by (rewrite O2, O1, O0, <- !app_assoc; reflexivity).
    destruct res; simpl in Hrun.
    + destruct (Srest _ _ _ Hrun) as (t & Tt & Sh).
      exists (Attempt c r0 :: t). split.
      * rewrite Tt, T2, T1, T0, <- app_assoc. reflexivity.
      * intros c' [Eq|I].
        -- exfalso. injection Eq as _ ->. discriminate Er.
        -- apply (failure_shown_later x x2 c' s s2 s' _ [Attempt c r0] t O).
           apply Sh, I.
    + assert (r0 = Ok false) as ->.
      { destruct r0 as [b|e]; [congruence|].
        destruct (guarded && exn_eqb e NotImplementedError); discriminate. }
      step_in Hrun as u3 s3 E; [|discriminate E].
      assert (F3 : stdout s3 = stdout s2 ++ [failure_line kern_name c] /\
                   trace s3 = trace s2)
        by (inversion E; subst; rewrite <- Hl; auto).
      clear E. destruct F3 as [O3 T3].
      assert (Shown : forall r' s5 s6,
                rerun s3 = (r', s5) ->
                stdout s6 = stdout s5 -> world s6 = world s5 ->
                forall c', In (Attempt c' (Ok false))
                              [Attempt c (Ok false); Rerun c r'] ->
                failure_shown x x2 c' s s6 [Attempt c (Ok false); Rerun c r']).
      { intros r' s5 s6 Er5 O6 W6 c' [Eq|[Eq|[]]]; [|discriminate Eq].
        injection Eq as <-.
        match type of O with _ = _ ++ ?o => exists s3, o end. split.
        - rewrite O3, O, <- app_assoc. reflexivity.
        - split; [rewrite O6; exact (Mr _ _ _ Er5)|].
          rewrite Hr. exists r', s5, [Attempt c (Ok false)]. auto. }
      step_in Hrun as rr s4 E; destruct (observe_inv _ _ _ _ _ E) as (s5 & Er5 & ->);
        destruct (Qr _ _ _ Er5) as [_ T5]; clear E.
      * destruct (failure_tail_frame _ _ _ _ _ Hrun) as (O6 & W6 & T6).
        exists [Attempt c (Ok false); Rerun c (Ok rr)]. split.
        -- rewrite T6. cbn [record trace].
           rewrite T5, T3, T2, T1, T0, <- app_assoc. reflexivity.
        -- apply (Shown _ _ _ Er5); [rewrite O6 | rewrite W6]; reflexivity.
      * inversion Hrun; subst.
        exists [Attempt c (Ok false); Rerun c (Raise rr)]. split.
        -- cbn [record trace].
           rewrite T5, T3, T2, T1, T0, <- app_assoc. reflexivity.
        -- apply (Shown _ _ _ Er5); reflexivity.
  - injection Hrun as <- <-.
    exists [Attempt c r0]. split; [congruence|].
    intros c' [Eq|[]]. exfalso. injection Eq as _ ->. discriminate Er.
Qed.

Lemma shows_check_psd (debug verbose : bool) (x x2 : ndarray) (rest : Drv bool) :
  shows x x2 rest -> shows x x2 (check_psd debug verbose x rest).
Proof.
  intros Srest s out s' Hrun.
  unfold check_psd in Hrun.
  step_in Hrun as u0 s0 E; destruct (when_print_run _ _ _ _ _ E) as (X & _ & T0);
    destruct (when_print_stdout _ _ _ _ _ E) as (_ & O0);
    [clear X E | discriminate].
  step_in Hrun as res s1 E; destruct (observe_inv _ _ _ _ _ E) as (s5 & Er5 & ->);
    destruct (quiet_psd_attempt x _ _ _ Er5) as [_ T1];
    destruct (psd_attempt_stdout _ _ _ _ Er5) as (o1 & O1); clear E.
  - step_in Hrun as u2 s2 E; destruct (when_print_run _ _ _ _ _ E) as (X & _ & T2);
      destruct (when_print_stdout _ _ _ _ _ E) as (_ & O2);
      [clear X E | discriminate].
    cbn [record trace stdout] in T2, O2.
    assert (O : stdout s2 = stdout s
                  ++ (if verbose
                      then [Text "Checking covariance function is positive definite."]
                      else [])
                  ++ o1 ++ (if (res && verbose)%bool
                            then [Text "Check passed."] else []))
      by (rewrite O2, O1, O0, <- !app_assoc; reflexivity).
    destruct res; simpl in Hrun.
    + destruct (Srest _ _ _ Hrun) as (t & Tt & Sh).
      exists (Attempt psd_K_X (Ok true) :: t). split.
      * rewrite Tt, T2, T1, T0, <- app_assoc. reflexivity.
      * intros c' [Eq|I]; [discriminate Eq|].
        apply (failure_shown_later x x2 c' s s2 s' _ [Attempt psd_K_X (Ok true)] t O).
        apply Sh, I.
    + step_in Hrun as u3 s3 E; [|discriminate E].
      assert (F3 : stdout s3 = stdout s2 ++ [failure_line kern_name psd_K_X] /\
                   trace s3 = trace s2)
        by (inversion E; subst; auto).
      clear E. destruct F3 as [O3 T3].
      assert (F6 : stdout s' = stdout s3 /\ world s' = world s3 /\ trace s' = trace s3).
      { destruct debug; inversion Hrun; subst; auto. }
      destruct F6 as (O6 & W6 & T6).
      exists [Attempt psd_K_X (Ok false)]. split.
      * rewrite T6, T3, T2, T1, T0. reflexivity.
      * intros c' [Eq|[]]. injection Eq as <-.
        match type of O with _ = _ ++ ?o => exists s3, o end. split.
        -- rewrite O3, O, <- app_assoc. reflexivity.
        -- split; [exact O6 | exact W6].
  - inversion Hrun; subst. exists [Attempt psd_K_X (Raise res)].
    split; [cbn [record trace]; congruence|].
    intros c' [Eq|[]]. discriminate Eq.
Qed.

(** Every run of the driver either stops while generating the default data,
    or shows the failures of its history on the data [x], [x2] of the run:
    the arguments where they were given. *)
Lemma driver_shows (debug : bool) (X_arg X2_arg : option ndarray)
    (output_ind : option Z) (verbose : bool) (fixed_X_dims : option Dims)
    (s : dstate) (out : result bool) (s' : dstate) :
  check_kernel_gradient_functions debug X_arg X2_arg output_ind verbose
    fixed_X_dims s = (out, s') ->
  (exists x x2 t,
     (forall a, X_arg = Some a -> x = a) /\ (forall a, X2_arg = Some a -> x2 = a) /\
     trace s' = trace s ++ t /\
     forall c, In (Attempt c (Ok false)) t -> failure_shown x x2 c s s' t) \/
  (trace s' = trace s /\ exists e, out = Raise e).
Proof.
  intros Hrun. unfold check_kernel_gradient_functions in Hrun.
  step_in Hrun as u0 s0 E; [|discriminate E].
  assert (P0 : stdout s0 = stdout s /\ trace s0 = trace s)
    by (inversion E; subst; auto).
  clear E. destruct P0 as [O0 T0].
  step_in Hrun as x s1 E.
  2:{ right. injection Hrun as <- <-.
      destruct X_arg; [discriminate E|].
      destruct (quiet_default_X _ _ _ _ _ E) as [_ T1].
      split; [congruence | eauto]. }
  assert (P1 : stdout s1 = stdout s /\ trace s1 = trace s /\
               forall a, X_arg = Some a -> x = a).
  { destruct X_arg as [a|].
    - inversion E; subst. split; [exact O0|]. split; [exact T0|].
      intros a0 Ea. congruence.
    - destruct (quiet_default_X _ _ _ _ _ E) as [_ T1].
      pose proof (mute_default_X _ _ _ _ _ E) as O1.
      split; [congruence|]. split; [congruence|]. intros a0 Ea. discriminate Ea. }
  clear E. destruct P1 as (O1 & T1 & X1).
  step_in Hrun as x2 s2 E.
  2:{ right. injection Hrun as <- <-.
      destruct X2_arg; [discriminate E|].
      destruct (quiet_default_X _ _ _ _ _ E) as [_ T2].
      split; [congruence | eauto]. }
  assert (P2 : stdout s2 = stdout s /\ trace s2 = trace s /\
               forall a, X2_arg = Some a -> x2 = a).
  { destruct X2_arg as [a|].
    - inversion E; subst. split; [exact O1|]. split; [exact T1|].
      intros a0 Ea. congruence.
    - destruct (quiet_default_X _ _ _ _ _ E) as [_ T2].
      pose proof (mute_default_X _ _ _ _ _ E) as O2.
      split; [congruence|]. split; [congruence|]. intros a0 Ea. discriminate Ea. }
  clear E. destruct P2 as (O2 & T2 & X2).
  left. exists x, x2.
  enough (Sh : exists t, trace s' = trace s2 ++ t /\
                 forall c, In (Attempt c (Ok false)) t ->
                           failure_shown x x2 c s2 s' t).
  { destruct Sh as (t & Tt & Sh). exists t.
    split; [exact X1|]. split; [exact X2|]. split; [congruence|].
    intros c I.
    assert (O : stdout s2 = stdout s ++ []) by (rewrite app_nil_r; exact O2).
    exact (failure_shown_later x x2 c s s2 s' [] [] t O (Sh c I)). }
  refine (shows_check_psd debug verbose x x2 _ _ s2 out s' Hrun).
  repeat (apply shows_gradient_check;
          [ reflexivity | reflexivity
          | first [apply quiet_fresh_checkgrad | apply quiet_testmodel_checkgrad]
          | first [apply mute_fresh_checkgrad | apply mute_testmodel_checkgrad]
          | first [apply quiet_fresh_checkgrad | apply quiet_testmodel_rerun]
          | first [apply mute_fresh_checkgrad | apply mute_testmodel_rerun]
          | ]).
  apply shows_done.
Qed.



End DriverProperties.

(** *** Consequences of [run_spec] *)

Lemma run_spec_head (debug : bool) (cs : list check) (t : list event)
    (out : result bool) :
  run_spec debug cs t out ->
  match cs with
  | [] => t = [] /\ out = Ok true
  | c :: _ => exists r t', t = Attempt c r :: t'
  end.
Proof. intros Hrs. destruct Hrs; eauto. Qed.

Lemma run_spec_not_false (cs : list check) (t : list event) (out : result bool) :
  run_spec true cs t out -> out <> Ok false.
Proof.
  intros Hrs. induction Hrs; try discriminate; try assumption.
  destruct r'; discriminate.
Qed.

Lemma run_spec_true (debug : bool) (cs : list check) (t : list event)
    (out : result bool) :
  run_spec debug cs t out ->
  (out = Ok true <-> map event_check t = cs /\ forallb passing t = true).
Proof.
  intros Hrs. induction Hrs.
  - split; auto.
  - simpl. rewrite H. simpl. rewrite IHHrs. split.
    + intros [E F]. split; [f_equal|]; assumption.
    + intros [E F]. split; [congruence | assumption].
  - split; [destruct debug; discriminate | intros [_ F]; discriminate F].
  - split; [destruct r', debug; discriminate | intros [_ F]; discriminate F].
  - split; [discriminate|]. intros [_ F]. cbn [forallb passing] in F.
    rewrite H in F. discriminate.
Qed.

Lemma run_spec_failure (debug : bool) (cs : list check) (t : list event)
    (out : result bool) (c : check) :
  run_spec debug cs t out -> In (Attempt c (Ok false)) t ->
  exists pre, forallb passing pre = true /\
    ((c = psd_K_X /\ t = pre ++ [Attempt c (Ok false)] /\
      out = assert_outcome debug) \/
     (c <> psd_K_X /\ exists r', t = pre ++ [Attempt c (Ok false); Rerun c r'] /\
      out = match r' with Ok _ => assert_outcome debug | Raise e => Raise e end)).
Proof.
  intros Hrs. induction Hrs; intros I.
  - destruct I.
  - destruct I as [I|I].
    + injection I as -> ->. discriminate H.
    + destruct (IHHrs I) as (pre & F & D). exists (Attempt c0 r :: pre). split.
      * simpl. rewrite H. exact F.
      * destruct D as [(E1 & E2 & E3)|(E1 & r' & E2 & E3)]; subst t.
        -- left. auto.
        -- right. split; [assumption|]. exists r'. auto.
  - destruct I as [I|[]]. injection I as <-. exists []. split; [reflexivity|].
    left. auto.
  - destruct I as [I|[I|[]]]; [|discriminate I]. injection I as <-.
    exists []. split; [reflexivity|]. right. split; [assumption|]. exists r'. auto.
  - destruct I as [I|[]]. discriminate I.
Qed.

Lemma run_spec_skipped (debug : bool) (cs : list check) (t : list event)
    (out : result bool) (c : check) :
  run_spec debug cs t out -> In (Attempt c (Raise NotImplementedError)) t ->
  skippable c = true ->
  exists pre post before after,
    cs = before ++ c :: after /\
    t = pre ++ Attempt c (Raise NotImplementedError) :: post /\
    forallb passing pre = true /\
    match after with
    | [] => post = [] /\ out = Ok true
    | c' :: _ => exists r' post', post = Attempt c' r' :: post'
    end.
Proof.
  intros Hrs. induction Hrs; intros I S.
  - destruct I.
  - destruct I as [I|I].
    + injection I as -> ->. exists [], t, [], cs.
      repeat split. apply (run_spec_head _ _ _ _ Hrs).
    + destruct (IHHrs I S) as (pre & post & before & after & E1 & E2 & F & N).
      exists (Attempt c0 r :: pre), post, (c0 :: before), after.
      subst. repeat split; [|exact N]. simpl. rewrite H. exact F.
  - destruct I as [I|[]]. discriminate I.
  - destruct I as [I|[I|[]]]; discriminate I.
  - destruct I as [I|[]]. injection I as -> ->. simpl in H. congruence.
Qed.

Lemma run_spec_unskipped (debug : bool) (cs : list check) (t : list event)
    (out : result bool) (c : check) :
  run_spec debug cs t out -> In (Attempt c (Raise NotImplementedError)) t ->
  skippable c = false ->
  out = Raise NotImplementedError /\
  exists pre, forallb passing pre = true /\
              t = pre ++ [Attempt c (Raise NotImplementedError)].
Proof.
  intros Hrs. induction Hrs; intros I S.
  - destruct I.
  - destruct I as [I|I].
    + injection I as -> ->. simpl in H. congruence.
    + destruct (IHHrs I S) as (E & pre & F & T). split; [exact E|].
      exists (Attempt c0 r :: pre). subst. split; [|reflexivity].
      simpl. rewrite H. exact F.
  - destruct I as [I|[]]. discriminate I.
  - destruct I as [I|[I|[]]]; discriminate I.
  - destruct I as [I|[]]. injection I as -> ->. split; [reflexivity|].
    exists []. auto.
Qed.

Section DriverClaims.
Context {World Model Dims : Type} `{Harness World Model Dims}.
#[local] Abbreviation dstate := (@dstate World Model).

Lemma driver_history (debug : bool) (X_arg X2_arg : option ndarray)
    (output_ind : option Z) (verbose : bool) (fixed_X_dims : option Dims)
    (s : dstate) :
  let r := check_kernel_gradient_functions debug X_arg X2_arg output_ind verbose
             fixed_X_dims s in
  let t := skipn (length (trace s)) (trace (snd r)) in
  run_spec debug all_checks t (fst r) \/ (t = [] /\ exists e, fst r = Raise e).
Proof.
  intros r t.
  destruct (driver_follows debug X_arg X2_arg output_ind verbose fixed_X_dims
              s (fst r) (snd r)) as [(t' & T & Hrs)|(_ & T & E)].
  - subst r. apply surjective_pairing.
  - left. subst t. rewrite T, skipn_app, Nat.sub_diag, skipn_all. exact Hrs.
  - right. subst t. rewrite T, skipn_all. auto.
Qed.

(** C1 (as amended).  Let [t] be the history of one call of the driver.
    - With assertions enabled ([debug], the default) the call never returns
      false; it returns false only under [python -O].
    - It returns true exactly when all ten checks were attempted and each
      passed or was skipped.
    - When a check fails, every check before it passed or was skipped, no later
      check is attempted, and the call ends in [AssertionError] (in [False]
      under [python -O]): directly for the positive-semi-definiteness check,
      and after the verbose re-run for a gradient check, whose own exception,
      if it raises one, reaches the caller instead.
    - The failure message of that check is printed first, and it is the last
      line the driver prints.  A failed gradient check is then re-run as
      [checkgrad(verbose=True)], on a model built anew on the data of the
      call in checks 2, 3, 4 and 7 and on [testmodel] in the others; the
      re-run starts where the message was printed, its outcome is the last
      event of the history, and nothing touches the kernel or the framework
      after it.  The positive-semi-definiteness check has no re-run. *)
Theorem driver_failed_check_raises (debug : bool) (X_arg X2_arg : option ndarray)
    (output_ind : option Z) (verbose : bool) (fixed_X_dims : option Dims)
    (s : dstate) :
  let r := check_kernel_gradient_functions debug X_arg X2_arg output_ind verbose
             fixed_X_dims s in
  let t := skipn (length (trace s)) (trace (snd r)) in
  (fst r = Ok false -> debug = false) /\
  (fst r = Ok true <-> map event_check t = all_checks /\ forallb passing t = true) /\
  (forall c, In (Attempt c (Ok false)) t ->
     (exists pre, forallb passing pre = true /\
        ((c = psd_K_X /\ t = pre ++ [Attempt c (Ok false)] /\
          fst r = assert_outcome debug) \/
         (c <> psd_K_X /\
          exists r', t = pre ++ [Attempt c (Ok false); Rerun c r'] /\
            fst r = match r' with
                    | Ok _ => assert_outcome debug
                    | Raise e => Raise e
                    end))) /\
     exists x x2,
       (forall a, X_arg = Some a -> x = a) /\
       (forall a, X2_arg = Some a -> x2 = a) /\
       failure_shown x x2 c s (snd r) t).
Proof.
  intros r t.
  destruct (driver_history debug X_arg X2_arg output_ind verbose fixed_X_dims s)
    as [Hrs|(T & e & E)]; fold r in Hrs || fold r in T, E; fold t in Hrs || fold t in T.
  - split; [|split].
    + intros F. destruct debug; [|reflexivity].
      exfalso. exact (run_spec_not_false _ _ _ Hrs F).
    + exact (run_spec_true _ _ _ _ Hrs).
    + intros c I. split; [exact (run_spec_failure _ _ _ _ c Hrs I)|].
      destruct (driver_shows debug X_arg X2_arg output_ind verbose fixed_X_dims
                  s (fst r) (snd r))
        as [(x & x2 & t' & X1 & X2 & Tt & Sh)|(T & _)].
      * subst r. apply surjective_pairing.
      * assert (Et : t = t').
        { subst t. rewrite Tt, skipn_app, Nat.sub_diag, skipn_all. reflexivity. }
        exists x, x2. split; [exact X1|]. split; [exact X2|].
        rewrite Et. apply Sh. rewrite <- Et. exact I.
      * exfalso. assert (Et : t = []) by (subst t; rewrite T; apply skipn_all).
        rewrite Et in I. destruct I.
  - rewrite T, E. split; [discriminate|]. split.
    + split; [discriminate | intros [X _]; discriminate X].
    + intros c [].
Qed.

(** C3.  A [NotImplementedError] raised in the guarded part of a check from
    number 3 onward is a pass: the checks before it passed, and the run goes
    on to the next check of the order (after the tenth, the call returns
    true).  Raised in check 1 or 2 it ends the call and reaches the caller. *)
Theorem driver_not_implemented (debug : bool) (X_arg X2_arg : option ndarray)
    (output_ind : option Z) (verbose : bool) (fixed_X_dims : option Dims)
    (s : dstate) :
  let r := check_kernel_gradient_functions debug X_arg X2_arg output_ind verbose
             fixed_X_dims s in
  let t := skipn (length (trace s)) (trace (snd r)) in
  forall c, In (Attempt c (Raise NotImplementedError)) t ->
    passes c (Raise NotImplementedError) = (3 <=? check_number c)%nat /\
    ((3 <= check_number c)%nat ->
       exists pre post before after,
         all_checks = before ++ c :: after /\
         t = pre ++ Attempt c (Raise NotImplementedError) :: post /\
         forallb passing pre = true /\
         match after with
         | [] => post = [] /\ fst r = Ok true
         | c' :: _ => exists r' post', post = Attempt c' r' :: post'
         end) /\
    ((check_number c <= 2)%nat ->
       fst r = Raise NotImplementedError /\
       exists pre, forallb passing pre = true /\
                   t = pre ++ [Attempt c (Raise NotImplementedError)]).
Proof.
  intros r t c I.
  destruct (driver_history debug X_arg X2_arg output_ind verbose fixed_X_dims s)
    as [Hrs|(T & _)]; fold r in Hrs || fold r in T; fold t in Hrs || fold t in T.
  2:{ rewrite T in I. destruct I. }
  split; [reflexivity|]. split; intros L.
  - apply (run_spec_skipped _ _ _ _ c Hrs I).
    unfold skippable. apply Nat.leb_le. exact L.
  - apply (run_spec_unskipped _ _ _ _ c Hrs I).
    unfold skippable. apply Nat.leb_gt. lia.
Qed.

End DriverClaims.

(** *** Runs of the driver on the example harness *)

(** C1, counterexample.  The gradient of K(X, X) w.r.t. the hyperparameters
    disagrees with its numeric estimate (check 2 fails).  With assertions
    enabled the call does not return false: after the verbose re-run,
    [assert result] raises [AssertionError], which reaches the caller. *)
Lemma driver_gradient_mismatch_raises :
  let r := check_kernel_gradient_functions (H := example_harness wrong_dK_dtheta)
             true (Some (zeros 3 2)) (Some (zeros 4 2)) None false None
             (init_state tt example_rng) in
  fst r = Raise AssertionError /\
  trace (snd r) = [Attempt psd_K_X (Ok true); Attempt dK_dtheta_X (Ok false);
                   Rerun dK_dtheta_X (Ok false)] /\
  stdout (snd r) =
    [Text "Gradient of K(X, X) wrt theta failed for rbf covariance function. Gradient values as follows:"].
Proof. repeat split. Qed.

(** Under [python -O] the same run returns false. *)
Lemma driver_gradient_mismatch_optimized :
  fst (check_kernel_gradient_functions (H := example_harness wrong_dK_dtheta)
         false (Some (zeros 3 2)) (Some (zeros 4 2)) None false None
         (init_state tt example_rng)) = Ok false.
Proof. reflexivity. Qed.

(** A kernel that implements only [update_gradients_full] on (X, X): checks 3
    to 10 are skipped and the call returns true. *)
Lemma driver_skips_not_implemented :
  let r := check_kernel_gradient_functions (H := example_harness only_dK_dtheta)
             true (Some (zeros 3 2)) (Some (zeros 4 2)) None false None
             (init_state tt example_rng) in
  fst r = Ok true /\
  trace (snd r) =
    [Attempt psd_K_X (Ok true); Attempt dK_dtheta_X (Ok true);
     Attempt dK_dtheta_X_X2 (Raise NotImplementedError);
     Attempt dKdiag_dtheta_X (Raise NotImplementedError);
     Attempt dK_dX_X (Raise NotImplementedError);
     Attempt dK_dX_X_X2 (Raise NotImplementedError);
     Attempt dKdiag_dX_X (Raise NotImplementedError);
     Attempt d2K_dXdX_X_X2 (Raise NotImplementedError);
     Attempt d2K_dXdX_X (Raise NotImplementedError);
     Attempt d2Kdiag_dXdX_X (Raise NotImplementedError)].
Proof. repeat split. Qed.

(** C3, witness: on that kernel the [NotImplementedError] of check 3 is a pass
    and check 4 is attempted next. *)
Lemma driver_not_implemented_example :
  let s := init_state (Model := adapter * bool) tt example_rng in
  let r := check_kernel_gradient_functions (H := example_harness only_dK_dtheta)
             true (Some (zeros 3 2)) (Some (zeros 4 2)) None false None s in
  let t := skipn (length (trace s)) (trace (snd r)) in
  passes dK_dtheta_X_X2 (Raise NotImplementedError)
  = (3 <=? check_number dK_dtheta_X_X2)%nat /\
  ((3 <= check_number dK_dtheta_X_X2)%nat ->
     exists pre post before after,
       all_checks = before ++ dK_dtheta_X_X2 :: after /\
       t = pre ++ Attempt dK_dtheta_X_X2 (Raise NotImplementedError) :: post /\
       forallb passing pre = true /\
       match after with
       | [] => post = [] /\ fst r = Ok true
       | c' :: _ => exists r' post', post = Attempt c' r' :: post'
       end) /\
  ((check_number dK_dtheta_X_X2 <= 2)%nat ->
     fst r = Raise NotImplementedError /\
     exists pre, forallb passing pre = true /\
                 t = pre ++ [Attempt dK_dtheta_X_X2 (Raise NotImplementedError)]).
Proof.
  intros s r t.
  assert (I : In (Attempt dK_dtheta_X_X2 (Raise NotImplementedError)) t).
  { vm_compute. right. right. left. reflexivity. }
  exact (driver_not_implemented (H := example_harness only_dK_dtheta)
           true (Some (zeros 3 2)) (Some (zeros 4 2)) None false None
           s dK_dtheta_X_X2 I).
Defined.

(** A kernel that implements no gradient: the [NotImplementedError] of check 2
    reaches the caller. *)
Lemma driver_propagates_not_implemented :
  let r := check_kernel_gradient_functions (H := example_harness nothing_implemented)
             true (Some (zeros 3 2)) (Some (zeros 4 2)) None false None
             (init_state tt example_rng) in
  fst r = Raise NotImplementedError /\
  trace (snd r) = [Attempt psd_K_X (Ok true);
                   Attempt dK_dtheta_X (Raise NotImplementedError)].
Proof. repeat split. Qed.

(* ------------------------------------------------------------------ *)
(** ** Default data of the driver *)

Section DefaultData.
Context {World Model Dims : Type} `{Harness World Model Dims}.
#[local] Abbreviation dstate := (@dstate World Model).

(** Without [output_ind] the default matrix is [rows] by [input_dim] and holds
    the coming standard-normal draws, row after row. *)
Lemma default_X_plain (rows : nat) (s : dstate) :
  exists x s',
    default_X rows None s = (Ok x, s') /\
    shape x = [rows; kern_input_dim] /\
    forall i j, item x [i; j] = normals (np_random s) (i * kern_input_dim + j)%nat.
Proof.
  unfold default_X, bind, draw_np. simpl.
  eexists _, _. split; [reflexivity|]. split; reflexivity.
Qed.

(** With [output_ind = j], a valid column, the whole column [j] holds one
    integer [v] with [output_dim <= v < rows]; when [output_dim >= rows] the
    call raises [ValueError]. *)
Lemma default_X_output_column (rows : nat) (j : Z) (s : dstate) :
  (- Z.of_nat kern_input_dim <= j < Z.of_nat kern_input_dim)%Z ->
  let c := Z.to_nat (if (j <? 0)%Z then Z.of_nat kern_input_dim + j else j)%Z in
  if (kern_output_dim <? Z.of_nat rows)%Z then
    exists x s' v,
      default_X rows (Some j) s = (Ok x, s') /\
      shape x = [rows; kern_input_dim] /\
      (kern_output_dim <= v < Z.of_nat rows)%Z /\
      forall i, item x [i; c] = IZR v
  else exists s', default_X rows (Some j) s = (Raise ValueError, s').
Proof.
  intros J c. unfold default_X, bind, draw_np, randint. simpl.
  destruct (kern_output_dim <? Z.of_nat rows)%Z eqn:L.
  - unfold lift, set_column. simpl.
    assert (G : ((- Z.of_nat kern_input_dim <=? j) && (j <? Z.of_nat kern_input_dim))%Z = true).
    { apply andb_true_intro. split; [apply Z.leb_le | apply Z.ltb_lt]; lia. }
    rewrite G.
    eexists _, _, (kern_output_dim + Z.of_nat (integers (np_random s) 0%nat)
                   mod (Z.of_nat rows - kern_output_dim))%Z.
    split; [reflexivity|]. split; [reflexivity|]. split.
    + apply Z.ltb_lt in L.
      pose proof (Z.mod_pos_bound (Z.of_nat (integers (np_random s) 0%nat))
                    (Z.of_nat rows - kern_output_dim)) as B.
      lia.
    + intros i. simpl. fold c. rewrite Nat.eqb_refl. reflexivity.
  - eexists. reflexivity.
Qed.

End DefaultData.

(** C5, at the failing input: a kernel with two outputs, [X] not supplied,
    [output_ind = 1].  The generated matrix is 10 by 2, and every entry of its
    column 1 is the single integer 2, which is not a code of [0, 2). *)
Lemma default_X_codes_out_of_range :
  exists x s',
    default_X (H := example_harness wrong_dK_dtheta) 10 (Some 1%Z)
      (init_state tt example_rng) = (Ok x, s') /\
    shape x = [10%nat; 2%nat] /\
    Forall (fun i => item x [i; 1%nat] = 2%R) (seq 0 10) /\
    kern_output_dim (Harness := example_harness wrong_dK_dtheta) = 2%Z.
Proof.
  eexists _, _. split; [reflexivity|]. split; [reflexivity|].
  split; [|reflexivity]. repeat constructor.
Qed.

(* ------------------------------------------------------------------ *)
(** ** The location adapters *)

Section AdapterProperties.
Context {K : Type} `{Kernel K}.

Lemma draw_run {A : Type} (f : rng -> A * rng) (s : pystate) :
  draw f s = (Ok (fst (f (random s))),
              {| arrays := arrays s; gradient := gradient s; next := next s;
                 random := snd (f (random s)) |}).
Proof. unfold draw. destruct (f (random s)); reflexivity. Qed.

Lemma draw_result_run {A : Type} (f : rng -> result A * rng) (s : pystate) :
  draw_result f s = (fst (f (random s)),
                     {| arrays := arrays s; gradient := gradient s; next := next s;
                        random := snd (f (random s)) |}).
Proof. unfold draw_result. destruct (f (random s)); reflexivity. Qed.

Lemma writes_gradient_only_refl (l : loc) (s : pystate) : writes_gradient_only l s s.
Proof. repeat split. Qed.

Lemma set_gradient_frame (l : loc) (g : ndarray) (s : pystate) :
  writes_gradient_only l s (snd (set_gradient l g s)).
Proof.
  unfold set_gradient, bind, read, gets, lift, modify. cbv beta.
  destruct (broadcast_to g (shape (arrays s !!! l))); cbn.
  - repeat split. intros l' N. apply lookup_insert_ne. congruence.
  - repeat split.
Qed.

(** The three [parameters_changed] change nothing but the gradient buffer of
    the free [X]. *)
Lemma dK_dX_parameters_changed_frame (m : Kern_check_model) (s : pystate) :
  writes_gradient_only (X m) s (snd (dK_dX_parameters_changed m s)).
Proof.
  unfold dK_dX_parameters_changed.
  unfold bind at 1, read at 1, gets. cbv beta iota.
  unfold bind at 1, read at 1, gets. cbv beta iota.
  unfold bind at 1.
  destruct (X2 m); cbv beta iota.
  - unfold bind at 1, read at 1, gets, ret. cbv beta iota.
    unfold bind at 1, lift at 1.
    destruct (gradients_X _ _ _ _); [apply set_gradient_frame | apply writes_gradient_only_refl].
  - unfold ret. cbv beta iota. unfold bind at 1, lift at 1.
    destruct (gradients_X _ _ _ _); [apply set_gradient_frame | apply writes_gradient_only_refl].
Qed.

Lemma dKdiag_dX_parameters_changed_frame (m : Kern_check_model) (s : pystate) :
  writes_gradient_only (X m) s (snd (dKdiag_dX_parameters_changed m s)).
Proof.
  unfold dKdiag_dX_parameters_changed.
  unfold bind at 1, read at 1, gets. cbv beta iota.
  unfold bind at 1, read at 1, gets. cbv beta iota.
  unfold bind at 1, lift at 1.
  destruct (diagonal _); [|apply writes_gradient_only_refl].
  unfold bind at 1, lift at 1.
  destruct (gradients_X_diag _ _ _); [apply set_gradient_frame | apply writes_gradient_only_refl].
Qed.

Lemma d2K_dXdX_parameters_changed_frame (m : Kern_check_d2K_dXdX) (s : pystate) :
  writes_gradient_only (X (base m)) s (snd (d2K_dXdX_parameters_changed m s)).
Proof.
  unfold d2K_dXdX_parameters_changed.
  unfold bind at 1, read at 1, gets. cbv beta iota.
  unfold bind at 1, read at 1, gets. cbv beta iota.
  unfold bind at 1.
  destruct (X2 (base m)); cbv beta iota.
  - unfold bind at 1, read at 1, gets. cbv beta iota.
    unfold bind at 1, lift at 1.
    destruct (gradients_XX _ _ _ _); [|apply writes_gradient_only_refl].
    unfold bind at 1, lift at 1.
    destruct (sum_axis 0 _); [|apply writes_gradient_only_refl].
    unfold bind at 1, lift at 1.
    destruct (sum_axis 1 _); [|apply writes_gradient_only_refl].
    apply set_gradient_frame.
  - unfold bind at 1, lift at 1.
    destruct (gradients_XX _ _ _ _); [|apply writes_gradient_only_refl].
    unfold bind at 1, lift at 1.
    destruct (sum_axis 1 _); [|apply writes_gradient_only_refl].
    unfold bind at 1, lift at 1.
    destruct (sum_axis 1 _); [|apply writes_gradient_only_refl].
    apply set_gradient_frame.
Qed.

(** A constructor that returns has run [parameters_changed] on the object
    it returns. *)
Lemma initialize_parameter_run {A : Type} (parameters_changed : A -> Py unit)
    (m r : A) (s s' : pystate) :
  initialize_parameter parameters_changed m s = (Ok r, s') ->
  r = m /\ s' = snd (parameters_changed m s).
Proof.
  unfold initialize_parameter, bind, ret.
  destruct (parameters_changed m s) as [[u|e] s1]; intros E; inversion E; auto.
Qed.

Lemma Kern_check_model_init_run (kern : option K) (dL : option loc) (x : loc)
    (x2 : option loc) (s0 : pystate) (m0 : Kern_check_model) (s1 : pystate) :
  Kern_check_model_init kern dL (Some x) x2 s0 = (Ok m0, s1) ->
  (forall l, dL = Some l -> allocated s0 l) ->
  X m0 = x /\ X2 m0 = x2 /\ (next s0 <= next s1)%nat /\
  allocated s1 (dL_dK m0) /\
  forall l, (l < next s0)%nat -> arrays s1 !!! l = arrays s0 !!! l.
Proof.
  intros E A. unfold Kern_check_model_init in E.
  unfold bind at 1 in E. rewrite draw_result_run in E.
  destruct (randomize _ _ _ _) as [[k|e] g]; cbn [fst snd] in E; [|discriminate E].
  unfold bind at 1 in E. cbn [ret] in E.
  destruct dL as [l|].
  - cbn in E. injection E as <- <-. cbn.
    repeat split; auto. apply A. reflexivity.
  - unfold bind at 1 in E. unfold bind at 1 in E. unfold read at 1, gets in E.
    cbn [arrays] in E. unfold bind at 1, lift in E.
    destruct (shape_at 0 (arrays s0 !!! x)) as [n|e]; [|discriminate E].
    destruct x2 as [l2|].
    + unfold bind at 1 in E. unfold read at 1, gets in E. cbn [arrays] in E.
      unfold bind at 1 in E.
      destruct (shape_at 0 (arrays s0 !!! l2)) as [n2|e]; [|discriminate E].
      unfold bind at 1 in E. rewrite draw_run in E. cbn in E.
      injection E as <- <-. cbn. unfold allocated. cbn.
      repeat split; auto; try lia.
      intros l L. apply lookup_total_insert_ne. lia.
    + unfold bind at 1 in E. rewrite draw_run in E. cbn in E.
      injection E as <- <-. cbn. unfold allocated. cbn.
      repeat split; auto; try lia.
      intros l L. apply lookup_total_insert_ne. lia.
Qed.

(** A [dL_dK] that [Kern_check_model.__init__] draws without [X2] is square. *)
Lemma Kern_check_model_init_square (kern : option K) (x : loc)
    (s0 : pystate) (m0 : Kern_check_model) (s1 : pystate) (n : nat) :
  Kern_check_model_init kern None (Some x) None s0 = (Ok m0, s1) ->
  shape_at 0 (arrays s0 !!! x) = Ok n ->
  X2 m0 = None /\ dL_dK m0 = next s0 /\ next s1 = S (next s0) /\
  shape (arrays s1 !!! dL_dK m0) = [n; n].
Proof.
  intros E Hn. unfold Kern_check_model_init in E.
  unfold bind at 1 in E. rewrite draw_result_run in E.
  destruct (randomize _ _ _ _) as [[k|e] g]; cbn [fst snd] in E; [|discriminate E].
  unfold bind at 1 in E. cbn [ret] in E.
  unfold bind at 1 in E. unfold bind at 1 in E. unfold read at 1, gets in E.
  cbn [arrays] in E. unfold bind at 1, lift in E. rewrite Hn in E.
  unfold bind at 1 in E. rewrite draw_run in E. cbn in E.
  injection E as <- <-. cbn. repeat split.
  rewrite lookup_total_insert_eq. reflexivity.
Qed.

(** What [Kern_check_dK_dX.__init__] leaves: the fields of the base class and
    a new array object for the free [X]. *)
Lemma Kern_check_dK_dX_body_run (kern : option K) (dL : option loc) (x : loc)
    (x2 : option loc) (s0 : pystate) (m : Kern_check_model) (s : pystate) :
  Kern_check_dK_dX_body kern dL x x2 s0 = (Ok m, s) ->
  exists m0 s1,
    Kern_check_model_init kern dL (Some x) x2 s0 = (Ok m0, s1) /\
    X2 m = X2 m0 /\ dL_dK m = dL_dK m0 /\ X m = next s1 /\
    arrays s = <[next s1 := arrays s1 !!! x]> (arrays s1).
Proof.
  intros E. unfold Kern_check_dK_dX_body in E. unfold bind at 1 in E.
  destruct (Kern_check_model_init kern dL (Some x) x2 s0) as [[m0|e] s1];
    [|discriminate E].
  cbn in E. injection E as <- <-. exists m0, s1. repeat split.
Qed.

(** C10.  Whenever [Kern_check_dKdiag_dX(kernel, dL_dK, X, X2)] returns, with
    whatever [X2]: the construction without [X2] returns the same object in
    the same store, the stored [X2] is [None], and a defaulted [dL_dK] is
    square, [|X|] by [|X|]. *)
Theorem Kern_check_dKdiag_dX_ignores_X2 (kern : option K) (dL : option loc)
    (x : loc) (x2 : option loc) (s : pystate) (m : Kern_check_model)
    (s' : pystate) :
  Kern_check_dKdiag_dX_init kern dL x x2 s = (Ok m, s') ->
  Kern_check_dKdiag_dX_init kern dL x None s = (Ok m, s') /\
  X2 m = None /\
  (dL = None ->
   forall n, shape_at 0 (arrays s !!! x) = Ok n ->
             shape (arrays s' !!! dL_dK m) = [n; n]).
Proof.
  intros E. split; [exact E|].
  unfold Kern_check_dKdiag_dX_init in E. unfold bind at 1 in E.
  unfold Kern_check_dKdiag_dX_body in E.
  destruct (Kern_check_dK_dX_body kern dL x None s) as [[m1|e] s2] eqn:Eb;
    [|discriminate E].
  destruct (initialize_parameter_run _ _ _ _ _ E) as [-> ->].
  destruct (Kern_check_dK_dX_body_run _ _ _ _ _ _ _ Eb)
    as (m0 & s1 & E0 & E2 & Ed & Ex & Ea).
  destruct (dKdiag_dX_parameters_changed_frame m1 s2) as (Fa & _).
  split.
  - rewrite E2. unfold Kern_check_model_init in E0.
    unfold bind at 1 in E0. rewrite draw_result_run in E0.
    destruct (randomize _ _ _ _) as [[k|e] g]; cbn [fst snd] in E0; [|discriminate E0].
    unfold bind at 1 in E0. cbn [ret] in E0.
    unfold bind at 1 in E0.
    match type of E0 with (match ?c with _ => _ end) = _ =>
      destruct c as [[d|e] s3]; [|discriminate E0] end.
    injection E0 as <- _. reflexivity.
  - intros -> n Hn.
    destruct (Kern_check_model_init_square _ _ _ _ _ _ E0 Hn) as (_ & Dl & Nx & Sh).
    rewrite Fa, Ea, Ed, lookup_total_insert_ne by lia. exact Sh.
Qed.

End AdapterProperties.

(** C10, witness: a 3 by 2 matrix [X] and a 4 by 2 matrix passed as [X2]. *)
Lemma Kern_check_dKdiag_dX_ignores_X2_example :
  exists m s',
    Kern_check_dKdiag_dX_init (H := example_kernel) None None 0%nat (Some 1%nat)
      example_store = (Ok m, s') /\
    Kern_check_dKdiag_dX_init (H := example_kernel) None None 0%nat None
      example_store = (Ok m, s') /\
    X2 m = None /\
    shape (arrays s' !!! dL_dK m) = [3%nat; 3%nat].
Proof.
  destruct (Kern_check_dKdiag_dX_init (H := example_kernel) None None 0%nat
              (Some 1%nat) example_store) as [r s'] eqn:E.
  assert (Er : exists m, r = Ok m) by (vm_compute in E; inversion E; eauto).
  destruct Er as (m & ->). exists m, s'. split; [reflexivity|].
  destruct (Kern_check_dKdiag_dX_ignores_X2 (H := example_kernel)
              None None 0%nat (Some 1%nat) example_store m s' E) as (E' & E2 & Sh).
  split; [exact E'|]. split; [exact E2|]. apply Sh; reflexivity.
Defined.

(* ------------------------------------------------------------------ *)
(** ** The second-derivative adapter *)

Lemma sum_axis_1_then_1 (g : ndarray) :
  (3 <= ndim g)%nat ->
  exists s1 s2,
    sum_axis 1 g = Ok s1 /\ sum_axis 1 s1 = Ok s2 /\
    shape s2 = remove_at 1 (remove_at 1 (shape g)) /\
    forall i rest, item s2 (i :: rest) = sum_axes_1_2 g (i :: rest).
Proof.
  intros L. unfold ndim in L.
  destruct g as [[|n [|m [|q sh]]] it]; simpl in L; try lia.
  eexists _, _. split; [reflexivity|]. split; [reflexivity|].
  split; [reflexivity|]. intros i rest. cbn.
  apply sum_n_swap.
Qed.

Lemma sum_axis_0_then_1 (g : ndarray) :
  (3 <= ndim g)%nat ->
  exists s1 s2,
    sum_axis 0 g = Ok s1 /\ sum_axis 1 s1 = Ok s2 /\
    shape s2 = remove_at 1 (remove_at 0 (shape g)) /\
    forall i rest, item s2 (i :: rest) = sum_axes_0_2 g (i :: rest).
Proof.
  intros L. unfold ndim in L.
  destruct g as [[|n [|m [|q sh]]] it]; simpl in L; try lia.
  eexists _, _. split; [reflexivity|]. split; [reflexivity|].
  split; [reflexivity|]. intros i rest. cbn.
  apply sum_n_swap.
Qed.

Lemma broadcast_to_same (a : ndarray) :
  exists b, broadcast_to a (shape a) = Ok b /\ shape b = shape a /\
            forall idx, in_range (shape a) idx -> item b idx = item a idx.
Proof.
  unfold broadcast_to. rewrite broadcast_shapes_same.
  destruct (decide (shape a = shape a)) as [_|N]; [|congruence].
  eexists. split; [reflexivity|]. split; [reflexivity|].
  intros idx F. simpl. rewrite (broadcast_index_in_range _ _ F). reflexivity.
Qed.

Section SecondDerivative.
Context {K : Type} `{Kernel K}.

(** What [Kern_check_d2K_dXdX.__init__] leaves: the free [X] and [Xc] are two
    new arrays, both holding the entries of the argument [X]; the arrays that
    existed before are untouched. *)
Lemma Kern_check_d2K_dXdX_init_run (kern : option K) (dL : option loc) (x : loc)
    (x2 : option loc) (s0 : pystate) (m : Kern_check_d2K_dXdX) (s : pystate) :
  Kern_check_d2K_dXdX_init kern dL x x2 s0 = (Ok m, s) ->
  allocated s0 x -> (forall l, dL = Some l -> allocated s0 l) ->
  X2 (base m) = x2 /\
  (next s0 <= X (base m))%nat /\ Xc m = S (X (base m)) /\
  (dL_dK (base m) < X (base m))%nat /\
  arrays s !!! X (base m) = arrays s0 !!! x /\
  arrays s !!! Xc m = arrays s0 !!! x /\
  forall l, (l < next s0)%nat -> arrays s !!! l = arrays s0 !!! l.
Proof.
  intros E Ax Ad. unfold Kern_check_d2K_dXdX_init in E.
  unfold bind at 1 in E.
  destruct (Kern_check_d2K_dXdX_body kern dL x x2 s0) as [[m1|e] s2] eqn:Eb;
    [|discriminate E].
  destruct (initialize_parameter_run _ _ _ _ _ E) as [-> ->].
  destruct (d2K_dXdX_parameters_changed_frame m1 s2) as (Fa & _).
  rewrite Fa. clear E Fa.
  unfold Kern_check_d2K_dXdX_body in Eb. unfold bind at 1 in Eb.
  destruct (Kern_check_model_init kern dL (Some x) x2 s0) as [[m0|e] s1] eqn:E0;
    [|discriminate Eb].
  destruct (Kern_check_model_init_run _ _ _ _ _ _ _ E0 Ad) as (_ & E2 & Ln & Al & Keep).
  unfold allocated in *. cbn in Eb. injection Eb as <- <-. cbn.
  assert (Hx : arrays s1 !!! x = arrays s0 !!! x) by (apply Keep; exact Ax).
  repeat split; auto; try lia.
  - rewrite lookup_total_insert_ne by lia. rewrite lookup_total_insert_eq.
    rewrite lookup_total_insert_eq. exact Hx.
  - rewrite lookup_total_insert_eq. rewrite !lookup_total_insert_ne by lia. exact Hx.
  - intros l L. rewrite !lookup_total_insert_ne by lia. apply Keep, L.
Qed.

Lemma d2K_dXdX_log_likelihood_run (m : Kern_check_d2K_dXdX) (s : pystate)
    (d x xc : ndarray) :
  X2 (base m) = None ->
  arrays s !!! dL_dK (base m) = d -> arrays s !!! X (base m) = x ->
  arrays s !!! Xc m = xc ->
  d2K_dXdX_log_likelihood m s
  = (rbind (gradients_X (kernel (base m)) d x (Some xc)) (fun g => Ok (np_sum g)), s).
Proof.
  intros E2 Ed Ex Ec.
  unfold d2K_dXdX_log_likelihood, bind, read, gets, lift, ret. rewrite E2.
  cbv beta. rewrite Ed, Ex, Ec.
  destruct (gradients_X (kernel (base m)) d x (Some xc)); reflexivity.
Qed.

Lemma set_gradient_run (l : loc) (g : ndarray) (s : pystate) :
  shape g = shape (arrays s !!! l) ->
  exists G s',
    set_gradient l g s = (Ok tt, s') /\ gradient s' !! l = Some G /\
    shape G = shape g /\
    forall idx, in_range (shape g) idx -> item G idx = item g idx.
Proof.
  intros Sh. destruct (broadcast_to_same g) as (G & EG & SG & IG).
  unfold set_gradient, bind, read, gets, lift, modify. cbv beta.
  rewrite <- Sh, EG.
  eexists G, _. split; [reflexivity|]. split; [|split; assumption].
  cbn. apply lookup_insert_eq.
Qed.

Lemma d2K_dXdX_gradient_X (m : Kern_check_d2K_dXdX) (s : pystate)
    (d x g : ndarray) :
  X2 (base m) = None ->
  arrays s !!! dL_dK (base m) = d -> arrays s !!! X (base m) = x ->
  gradients_XX (kernel (base m)) d x None = Ok g ->
  (3 <= ndim g)%nat -> remove_at 1 (remove_at 1 (shape g)) = shape x ->
  exists G s',
    d2K_dXdX_parameters_changed m s = (Ok tt, s') /\
    gradient s' !! X (base m) = Some G /\ shape G = shape x /\
    forall idx, in_range (shape x) idx -> item G idx = (- sum_axes_1_2 g idx)%R.
Proof.
  intros E2 Ed Ex Eg L Sh.
  destruct (sum_axis_1_then_1 g L) as (a1 & a2 & E1 & E12 & Sa & Ia).
  destruct (set_gradient_run (X (base m)) (neg a2) s) as (G & s' & Es & El & SG & IG).
  { cbn. rewrite Ex, Sa. exact Sh. }
  exists G, s'. split; [|split; [exact El | split]].
  - unfold d2K_dXdX_parameters_changed. rewrite E2.
    unfold bind at 1. unfold read at 1, gets. cbv beta. rewrite Ed.
    unfold bind at 1. unfold read at 1, gets. cbv beta. rewrite Ex.
    unfold bind at 1. unfold bind at 1. unfold lift at 1. rewrite Eg.
    unfold bind at 1. unfold lift at 1. rewrite E1.
    unfold bind at 1. unfold lift at 1. rewrite E12.
    cbn [ret]. exact Es.
  - rewrite SG. cbn. rewrite Sa. exact Sh.
  - intros idx F. rewrite IG by (cbn; rewrite Sa, Sh; exact F).
    cbn. destruct idx as [|i rest].
    + exfalso. rewrite <- Sh in F. unfold ndim in L.
      destruct (shape g) as [|? [|? [|? ?]]]; simpl in L; try lia.
      unfold remove_at in F. simpl in F. inversion F.
    + rewrite Ia. reflexivity.
Qed.

Lemma d2K_dXdX_gradient_X_X2 (m : Kern_check_d2K_dXdX) (s : pystate)
    (l2 : loc) (d x xb g : ndarray) :
  X2 (base m) = Some l2 ->
  arrays s !!! dL_dK (base m) = d -> arrays s !!! X (base m) = x ->
  arrays s !!! l2 = xb ->
  gradients_XX (kernel (base m)) (transpose d) xb (Some x) = Ok g ->
  (3 <= ndim g)%nat -> remove_at 1 (remove_at 0 (shape g)) = shape x ->
  exists G s',
    d2K_dXdX_parameters_changed m s = (Ok tt, s') /\
    gradient s' !! X (base m) = Some G /\ shape G = shape x /\
    forall idx, in_range (shape x) idx -> item G idx = (- sum_axes_0_2 g idx)%R.
Proof.
  intros E2 Ed Ex Eb Eg L Sh.
  destruct (sum_axis_0_then_1 g L) as (a1 & a2 & E1 & E12 & Sa & Ia).
  destruct (set_gradient_run (X (base m)) (neg a2) s) as (G & s' & Es & El & SG & IG).
  { cbn. rewrite Ex, Sa. exact Sh. }
  exists G, s'. split; [|split; [exact El | split]].
  - unfold d2K_dXdX_parameters_changed. rewrite E2.
    unfold bind at 1. unfold read at 1, gets. cbv beta. rewrite Ed.
    unfold bind at 1. unfold read at 1, gets. cbv beta. rewrite Ex.
    unfold bind at 1. unfold bind at 1. unfold read at 1, gets. cbv beta. rewrite Eb.
    unfold bind at 1. unfold lift at 1. rewrite Eg.
    unfold bind at 1. unfold lift at 1. rewrite E1.
    unfold bind at 1. unfold lift at 1. rewrite E12.
    cbn [ret]. exact Es.
  - rewrite SG. cbn. rewrite Sa. exact Sh.
  - intros idx F. rewrite IG by (cbn; rewrite Sa, Sh; exact F).
    cbn. destruct idx as [|i rest].
    + exfalso. rewrite <- Sh in F. unfold ndim in L.
      destruct (shape g) as [|? [|? [|? ?]]]; simpl in L; try lia.
      unfold remove_at in F. simpl in F. inversion F.
    + rewrite Ia. reflexivity.
Qed.

(** C4.  Let [m] be a [Kern_check_d2K_dXdX] built on the array [x0] found at
    the argument [X], and let the differencer move the free [X] to [x'].
    - [Xc] still holds [x0].
    - Without [X2], the objective is [gradients_X(dL_dK, x', x0).sum()], and
      the gradient written to [X] is, entry by entry, minus
      [gradients_XX(dL_dK, x')] summed over its axes 1 and 2.
    - With [X2], the gradient written to [X] is minus
      [gradients_XX(dL_dK.T, X2, x')] summed over its axes 0 and 2.
    The gradient statements are for a [gradients_XX] result of rank at least
    3 whose shape without the two summed axes is the shape of [X]. *)
Theorem d2K_dXdX_objective_and_gradient (kern : option K) (dL : option loc)
    (x : loc) (x2 : option loc) (s0 : pystate) (m : Kern_check_d2K_dXdX)
    (s : pystate) (x' : ndarray) :
  Kern_check_d2K_dXdX_init kern dL x x2 s0 = (Ok m, s) ->
  allocated s0 x ->
  (forall l, dL = Some l -> allocated s0 l) ->
  (forall l, x2 = Some l -> allocated s0 l) ->
  let x0 := arrays s0 !!! x in
  let k := kernel (base m) in
  let d := arrays s !!! dL_dK (base m) in
  let s1 := snd (perturb m x' s) in
  arrays s !!! Xc m = x0 /\
  arrays s1 !!! Xc m = x0 /\
  (x2 = None ->
     d2K_dXdX_log_likelihood m s1
     = (rbind (gradients_X k d x' (Some x0)) (fun g => Ok (np_sum g)), s1) /\
     forall g,
       gradients_XX k d x' None = Ok g ->
       (3 <= ndim g)%nat -> remove_at 1 (remove_at 1 (shape g)) = shape x' ->
       exists G s2,
         d2K_dXdX_parameters_changed m s1 = (Ok tt, s2) /\
         gradient s2 !! X (base m) = Some G /\ shape G = shape x' /\
         forall idx, in_range (shape x') idx ->
                     item G idx = (- sum_axes_1_2 g idx)%R) /\
  (forall l2, x2 = Some l2 ->
     forall g,
       gradients_XX k (transpose d) (arrays s0 !!! l2) (Some x') = Ok g ->
       (3 <= ndim g)%nat -> remove_at 1 (remove_at 0 (shape g)) = shape x' ->
       exists G s2,
         d2K_dXdX_parameters_changed m s1 = (Ok tt, s2) /\
         gradient s2 !! X (base m) = Some G /\ shape G = shape x' /\
         forall idx, in_range (shape x') idx ->
                     item G idx = (- sum_axes_0_2 g idx)%R).
Proof.
  intros E Ax Ad A2 x0 k d s1.
  destruct (Kern_check_d2K_dXdX_init_run _ _ _ _ _ _ _ E Ax Ad)
    as (E2 & Lx & Ec & Ld & Vx & Vc & Keep).
  assert (W : arrays s1 = <[X (base m) := x']> (arrays s)) by reflexivity.
  assert (Wx : arrays s1 !!! X (base m) = x')
    by (rewrite W; apply lookup_total_insert_eq).
  assert (Wc : arrays s1 !!! Xc m = x0).
  { rewrite W, lookup_total_insert_ne by lia. exact Vc. }
  assert (Wd : arrays s1 !!! dL_dK (base m) = d).
  { rewrite W, lookup_total_insert_ne by lia. reflexivity. }
  split; [exact Vc|]. split; [exact Wc|]. split.
  - intros ->. split.
    + apply d2K_dXdX_log_likelihood_run; assumption.
    + intros g Eg L Sh. apply (d2K_dXdX_gradient_X m s1 d x' g); assumption.
  - intros l2 ->. intros g Eg L Sh.
    apply (d2K_dXdX_gradient_X_X2 m s1 l2 d x' (arrays s0 !!! l2) g); try assumption.
    rewrite W, lookup_total_insert_ne.
    + apply Keep. apply (A2 l2). reflexivity.
    + specialize (A2 l2 eq_refl). unfold allocated in A2. lia.
Qed.

End SecondDerivative.

(** C4, witness: the adapter built on the 3 by 2 matrix at location 0, its
    free [X] moved to another 3 by 2 matrix.  [Xc] keeps the original, and
    every entry of the gradient is minus the sum of the 3 * 2 entries, all 1,
    over axes 1 and 2. *)
Lemma d2K_dXdX_objective_and_gradient_example :
  exists m s,
    Kern_check_d2K_dXdX_init (H := example_kernel) None None 0%nat None
      example_store = (Ok m, s) /\
    let s1 := snd (perturb m {| shape := [3; 2]%nat; item := fun _ => 5%R |} s) in
    arrays s1 !!! Xc m = zeros 3 2 /\
    exists G s2,
      d2K_dXdX_parameters_changed (H := example_kernel) m s1 = (Ok tt, s2) /\
      gradient s2 !! X (base m) = Some G /\
      forall idx, in_range [3; 2]%nat idx -> item G idx = (- 6)%R.
Proof.
  destruct (Kern_check_d2K_dXdX_init (H := example_kernel) None None 0%nat None
              example_store) as [r s] eqn:E.
  assert (Er : exists m, r = Ok m) by (vm_compute in E; inversion E; eauto).
  destruct Er as (m & ->). exists m, s. split; [reflexivity|].
  destruct (d2K_dXdX_objective_and_gradient (H := example_kernel)
              None None 0%nat None example_store m s
              {| shape := [3; 2]%nat; item := fun _ => 5%R |} E)
    as (_ & Hc & Hg & _).
  - unfold allocated. simpl. lia.
  - discriminate.
  - discriminate.
  - split; [exact Hc|].
    destruct (Hg eq_refl) as [_ Hgrad].
    destruct (Hgrad {| shape := [3; 3; 2; 2]%nat; item := fun _ => 1%R |} eq_refl)
      as (G & s2 & Ep & El & _ & Hi).
    + unfold ndim. simpl. lia.
    + reflexivity.
    + exists G, s2. split; [exact Ep|]. split; [exact El|].
      intros idx F. rewrite (Hi idx F).
      destruct idx as [|i rest]; [inversion F|].
      simpl. lra.
Defined.

(* ------------------------------------------------------------------ *)
(** ** The Psi-statistics closures *)

Section PsiProperties.
Context {K QX : Type} `{PsiKernel K QX}.
#[local] Abbreviation tstate := (@tstate K QX).
#[local] Abbreviation Tst := (@Tst K QX).

Lemma contraction_sums (fx : fixture) (flag : bool) (a0 a1 a2 : ndarray) (N M : nat) :
  shape (w1 fx) = [N] -> shape (w2 fx) = [N; M] ->
  shape (w3 fx) = [M; M] -> shape (w3n fx) = [N; M; M] ->
  shape a0 = [N] -> shape a1 = [N; M] ->
  shape a2 = (if flag then [N; M; M] else [M; M]) ->
  contraction fx flag a0 a1 a2
  = Ok (sum_n (fun n => item (w1 fx) [n] * item a0 [n]) N
        + sum_n (fun n => sum_n (fun m => item (w2 fx) [n; m] * item a1 [n; m]) M) N
        + (if flag then
             sum_n (fun n => sum_n (fun m => sum_n (fun m' =>
               item (w3n fx) [n; m; m'] * item a2 [n; m; m']) M) M) N
           else
             sum_n (fun m => sum_n (fun m' =>
               item (w3 fx) [m; m'] * item a2 [m; m']) M) M))%R.
Proof.
  intros S1 S2 S3 S3n A0 A1 A2. unfold contraction.
  rewrite (weighted_sum_same_shape (w1 fx) a0) by congruence.
  rewrite (weighted_sum_same_shape (w2 fx) a1) by congruence.
  destruct flag; simpl negb; cbv iota.
  - rewrite (weighted_sum_same_shape (w3n fx) a2) by congruence.
    rewrite S1, S2, S3n. reflexivity.
  - rewrite (weighted_sum_same_shape (w3 fx) a2) by congruence.
    rewrite S1, S2, S3. reflexivity.
Qed.

Variable checker :
  (ndarray -> Tst R) -> (ndarray -> Tst ndarray) -> ndarray -> bool -> Tst bool.

Lemma test_kernel_param_run (fx : fixture) (flag : bool) (s : tstate) :
  accepting checker ->
  exists s', _test_kernel_param checker fx flag s = (Ok tt, s') /\
             handed s' = handed s ++ [(kernel_param, flag)].
Proof.
  intros A. unfold _test_kernel_param, bind, note, modify, gets. cbv beta.
  match goal with |- context [checker ?f ?df ?x true ?s0] =>
    destruct (A f df x true s0) as (s1 & -> & H1) end.
  match goal with |- context [checker ?f ?df ?x false ?s0] =>
    destruct (A f df x false s0) as (s2 & -> & H2) end.
  exists s2. split; [reflexivity|]. rewrite H2, H1. reflexivity.
Qed.

Lemma test_Z_run (fx : fixture) (flag : bool) (s : tstate) :
  accepting checker ->
  exists s', _test_Z checker fx flag s = (Ok tt, s') /\
             handed s' = handed s ++ [(inducing_Z, flag)].
Proof.
  intros A. unfold _test_Z, bind, note, modify. cbv beta.
  match goal with |- context [checker ?f ?df ?x false ?s0] =>
    destruct (A f df x false s0) as (s2 & -> & H2) end.
  exists s2. split; [reflexivity|]. rewrite H2. reflexivity.
Qed.

Lemma test_qX_run (fx : fixture) (flag : bool) (s : tstate) :
  accepting checker ->
  exists s', _test_qX checker fx flag s = (Ok tt, s') /\
             handed s' = handed s ++ [(posterior_qX, flag)].
Proof.
  intros A. unfold _test_qX, bind, note, modify, gets. cbv beta.
  match goal with |- context [checker ?f ?df ?x false ?s0] =>
    destruct (A f df x false s0) as (s2 & -> & H2) end.
  exists s2. split; [reflexivity|]. rewrite H2. reflexivity.
Qed.

Lemma test_kernel_passes_run (fx : fixture) (s : tstate) :
  accepting checker ->
  exists s', test_kernel_passes checker fx s = (Ok tt, s') /\
             handed s' = handed s ++ six_passes.
Proof.
  intros A. unfold test_kernel_passes.
  destruct (test_kernel_param_run fx false s A) as (s1 & E1 & H1).
  destruct (test_Z_run fx false s1 A) as (s2 & E2 & H2).
  destruct (test_qX_run fx false s2 A) as (s3 & E3 & H3).
  destruct (test_kernel_param_run fx true s3 A) as (s4 & E4 & H4).
  destruct (test_Z_run fx true s4 A) as (s5 & E5 & H5).
  destruct (test_qX_run fx true s5 A) as (s6 & E6 & H6).
  exists s6. split.
  - unfold bind. rewrite E1, E2, E3, E4, E5. exact E6.
  - rewrite H6, H5, H4, H3, H2, H1, <- !app_assoc. reflexivity.
Qed.

(** The value of an objective needs the statistics it evaluates to return,
    and no other: the one of [psi2] and [psi2n] that the pass contracts, and
    for the inducing inputs the [psi2] evaluated before the branch. *)
Lemma objective_value (fx : fixture) (t : target) (flag : bool) (p : ndarray)
    (s : tstate) (k : K) (z : ndarray) (q : QX) (a0 a1 a2 : ndarray) :
  evaluation_point fx t p s = Ok (k, z, q) ->
  psi0 k z q = Ok a0 -> psi1 k z q = Ok a1 ->
  (if flag then psi2n k z q else psi2 k z q) = Ok a2 ->
  (t = inducing_Z -> exists b, psi2 k z q = Ok b) ->
  fst (objective fx t flag p s) = contraction fx flag a0 a1 a2.
Proof.
  intros E P0 P1 P2 Pz. destruct t; simpl in E.
  - destruct (set_param_array p (kern s)) as [k'|e] eqn:Ek; [|discriminate E].
    injection E as -> <- <-.
    unfold objective, f_kernel_param, bind, gets, lift, set_kern, modify, ret.
    cbv beta. rewrite Ek. cbn [kern qX]. rewrite P0, P1.
    destruct flag; cbn [negb]; cbv iota in P2 |- *; rewrite P2;
      destruct (contraction fx _ a0 a1 a2); reflexivity.
  - injection E as <- <- <-. destruct (Pz eq_refl) as (b & Pb).
    unfold objective, f_Z, bind, gets, lift, ret.
    cbv beta. rewrite P0, P1.
    destruct flag; cbn [negb]; cbv iota in P2 |- *.
    + rewrite Pb, P2. destruct (contraction fx true a0 a1 a2); reflexivity.
    + rewrite P2. destruct (contraction fx false a0 a1 a2); reflexivity.
  - destruct (qX_set_param_array p (qX s)) as [q'|e] eqn:Eq; [|discriminate E].
    injection E as <- <- <-.
    unfold objective, f_qX, bind, gets, lift, set_qX, modify, ret.
    cbv beta. rewrite Eq. cbn [kern qX]. rewrite P0, P1.
    destruct flag; cbn [negb]; cbv iota in P2 |- *; rewrite P2;
      destruct (contraction fx _ a0 a1 a2); reflexivity.
Qed.

(** Each of the three tests is one pass: the differencer runs on the
    objective of the target, on its analytic gradient and on the start point,
    and its answer is asserted. *)
Lemma test_kernel_param_pass (fx : fixture) (flag : bool) (s : tstate) :
  _test_kernel_param checker fx flag s
  = gradient_pass checker fx (kernel_param, flag) s.
Proof.
  unfold _test_kernel_param, gradient_pass, bind, note, modify, gets.
  cbn [fst snd objective gradient_closure start_point].
  match goal with |- context [checker ?f ?df ?x true ?s0] =>
    destruct (checker f df x true s0) as [[b|e] s1] end; [|reflexivity].
  match goal with |- context [checker ?f ?df ?x false ?s0] =>
    destruct (checker f df x false s0) as [[[|]|e] s2] end; reflexivity.
Qed.

Lemma test_Z_pass (fx : fixture) (flag : bool) (s : tstate) :
  _test_Z checker fx flag s = gradient_pass checker fx (inducing_Z, flag) s.
Proof.
  unfold _test_Z, gradient_pass, bind, note, modify.
  cbn [fst snd objective gradient_closure start_point].
  match goal with |- context [checker ?f ?df ?x false ?s0] =>
    destruct (checker f df x false s0) as [[[|]|e] s2] end; reflexivity.
Qed.

Lemma test_qX_pass (fx : fixture) (flag : bool) (s : tstate) :
  _test_qX checker fx flag s = gradient_pass checker fx (posterior_qX, flag) s.
Proof.
  unfold _test_qX, gradient_pass, bind, note, modify, gets.
  cbn [fst snd objective gradient_closure start_point].
  match goal with |- context [checker ?f ?df ?x false ?s0] =>
    destruct (checker f df x false s0) as [[[|]|e] s2] end; reflexivity.
Qed.

(** The loop body is the six passes, one after the other. *)
Lemma test_kernel_passes_sequence (fx : fixture) (s : tstate) :
  test_kernel_passes checker fx s = gradient_passes checker fx six_passes s.
Proof.
  unfold test_kernel_passes, six_passes. cbn [gradient_passes]. unfold bind.
  rewrite test_kernel_param_pass.
  destruct (gradient_pass checker fx (kernel_param, false) s) as [[u|e] s1];
    [|reflexivity].
  rewrite test_Z_pass.
  destruct (gradient_pass checker fx (inducing_Z, false) s1) as [[u1|e] s2];
    [|reflexivity].
  rewrite test_qX_pass.
  destruct (gradient_pass checker fx (posterior_qX, false) s2) as [[u2|e] s3];
    [|reflexivity].
  rewrite test_kernel_param_pass.
  destruct (gradient_pass checker fx (kernel_param, true) s3) as [[u3|e] s4];
    [|reflexivity].
  rewrite test_Z_pass.
  destruct (gradient_pass checker fx (inducing_Z, true) s4) as [[u4|e] s5];
    [|reflexivity].
  rewrite test_qX_pass.
  destruct (gradient_pass checker fx (posterior_qX, true) s5) as [[[]|e] s6];
    reflexivity.
Qed.

(** C6.  For a fixture with weights of shapes (N), (N, M), (M, M) and
    (N, M, M):
    - for each target and each formulation, when the statistics that the
      objective evaluates return with the shapes of their weights, the
      objective [f(p)] is the sum of [w1 * psi0], of [w2 * psi1] and of
      [w3 * psi2], in the per-sample pass of [w3n * psi2n] instead of the
      last;
    - whatever the differencer is, [_test_kernel_param], [_test_Z] and
      [_test_qX] run it on exactly this objective, on the analytic gradient of
      the same target and formulation and on the start point, and assert its
      answer;
    - the loop body is the sequence of the six passes: the three targets
      under [psi2], then the three targets under [psi2n];
    - when the differencer accepts every gradient, all six are run. *)
Theorem psi_objective_and_passes (fx : fixture) (N M : nat) :
  shape (w1 fx) = [N] -> shape (w2 fx) = [N; M] ->
  shape (w3 fx) = [M; M] -> shape (w3n fx) = [N; M; M] ->
  (forall t (flag : bool) p s k z q a0 a1 a2,
     evaluation_point fx t p s = Ok (k, z, q) ->
     psi0 k z q = Ok a0 -> psi1 k z q = Ok a1 ->
     (if flag then psi2n k z q else psi2 k z q) = Ok a2 ->
     (t = inducing_Z -> exists b, psi2 k z q = Ok b) ->
     shape a0 = [N] -> shape a1 = [N; M] ->
     shape a2 = (if flag then [N; M; M] else [M; M]) ->
     fst (objective fx t flag p s)
     = Ok (sum_n (fun n => item (w1 fx) [n] * item a0 [n]) N
           + sum_n (fun n => sum_n (fun m => item (w2 fx) [n; m] * item a1 [n; m]) M) N
           + (if flag then
                sum_n (fun n => sum_n (fun m => sum_n (fun m' =>
                  item (w3n fx) [n; m; m'] * item a2 [n; m; m']) M) M) N
              else
                sum_n (fun m => sum_n (fun m' =>
                  item (w3 fx) [m; m'] * item a2 [m; m']) M) M))%R) /\
  (forall flag s,
     _test_kernel_param checker fx flag s
     = gradient_pass checker fx (kernel_param, flag) s /\
     _test_Z checker fx flag s = gradient_pass checker fx (inducing_Z, flag) s /\
     _test_qX checker fx flag s = gradient_pass checker fx (posterior_qX, flag) s) /\
  (forall s,
     test_kernel_passes checker fx s = gradient_passes checker fx six_passes s) /\
  (accepting checker ->
   forall s, exists s',
     test_kernel_passes checker fx s = (Ok tt, s') /\
     handed s' = handed s ++ six_passes).
Proof.
  intros S1 S2 S3 S3n. split; [|split; [|split]].
  - intros t flag p s k z q a0 a1 a2 E P0 P1 P2 Pz A0 A1 A2.
    rewrite (objective_value fx t flag p s k z q a0 a1 a2 E P0 P1 P2 Pz).
    apply (contraction_sums fx flag a0 a1 a2 N M); assumption.
  - intros flag s. split; [apply test_kernel_param_pass|].
    split; [apply test_Z_pass | apply test_qX_pass].
  - apply test_kernel_passes_sequence.
  - intros A s. apply test_kernel_passes_run, A.
Qed.

End PsiProperties.

(** C6, witness: the example fixture (N = 2, M = 1) on constant statistics. *)
Lemma psi_objective_and_passes_example :
  fst (objective (H := example_psi_kernel) example_fixture inducing_Z true
         (zeros 1 2) {| kern := tt; qX := tt; handed := [] |}) = Ok (2 + 4 + 8)%R /\
  _test_Z (H := example_psi_kernel) example_checker example_fixture true
    {| kern := tt; qX := tt; handed := [] |}
  = gradient_pass (H := example_psi_kernel) example_checker example_fixture
      (inducing_Z, true) {| kern := tt; qX := tt; handed := [] |} /\
  exists s',
    test_kernel_passes (H := example_psi_kernel) example_checker example_fixture
      {| kern := tt; qX := tt; handed := [] |} = (Ok tt, s') /\
    handed s' = six_passes.
Proof.
  destruct (psi_objective_and_passes (H := example_psi_kernel) example_checker
              example_fixture 2 1 eq_refl eq_refl eq_refl eq_refl)
    as (Hobj & Hpass & _ & Hall).
  split; [|split].
  - rewrite (Hobj inducing_Z true (zeros 1 2) {| kern := tt; qX := tt; handed := [] |}
               tt (zeros 1 2) tt _ _ _ eq_refl eq_refl eq_refl eq_refl
               (fun _ => ex_intro _ _ eq_refl) eq_refl eq_refl eq_refl).
    f_equal. simpl. lra.
  - destruct (Hpass true {| kern := tt; qX := tt; handed := [] |}) as (_ & HZ & _).
    exact HZ.
  - apply Hall. intros f df x0 v s. exists s. split; reflexivity.
Defined.

(* ------------------------------------------------------------------ *)
(** ** Centring, scaling and the normalised variance *)

Lemma nth_map_seq (f : nat -> R) (n j : nat) :
  (j < n)%nat -> nth j (map f (seq 0 n)) 0%R = f j.
Proof.
  intros L. rewrite (nth_indep _ 0%R (f 0%nat)) by (rewrite length_map, length_seq; exact L).
  rewrite map_nth, seq_nth by exact L. reflexivity.
Qed.

Lemma sum_n_minus (f g : nat -> R) (n : nat) :
  sum_n (fun i => (f i - g i)%R) n = (sum_n f n - sum_n g n)%R.
Proof. induction n as [|n IH]; simpl; [lra | rewrite IH; lra]. Qed.

Section ColumnStatistics.
Variables (a : ndarray) (N Q : nat).
Hypothesis shape_a : shape a = [N; Q].

Lemma dim0_a : dim 0 a = N.
Proof. unfold dim. rewrite shape_a. reflexivity. Qed.

Lemma dim1_a : dim 1 a = Q.
Proof. unfold dim. rewrite shape_a. reflexivity. Qed.

Lemma nth_mean0 (j : nat) : (j < Q)%nat -> nth j (mean0 a) 0%R = col_mean a j.
Proof. intros L. unfold mean0. rewrite dim1_a. apply nth_map_seq, L. Qed.

Lemma nth_std0 (j : nat) : (j < Q)%nat -> nth j (std0 a) 0%R = col_std a j.
Proof. intros L. unfold std0. rewrite dim1_a. apply nth_map_seq, L. Qed.

(** After [a -= a.mean(0)] every column has mean 0. *)
Lemma col_mean_centred (j : nat) :
  (j < Q)%nat -> col_mean (sub_row a (mean0 a)) j = 0%R.
Proof.
  intros L. unfold col_mean at 1, col_sum. unfold dim. cbn [shape sub_row item].
  fold (dim 0 a). rewrite dim0_a, (nth_mean0 j L).
  replace (sum_n (fun i => item a [i; j] - col_mean a j) N)%R
    with (sum_n (fun i => item a [i; j]) N - INR N * col_mean a j)%R.
  2:{ rewrite sum_n_minus, sum_n_const. reflexivity. }
  unfold col_mean, col_sum. rewrite dim0_a.
  destruct N as [|n].
  - simpl. lra.
  - field. apply not_0_INR. discriminate.
Qed.

(** Centring leaves the variance of every column unchanged. *)
Lemma col_var_centred (j : nat) :
  (j < Q)%nat -> col_var (sub_row a (mean0 a)) j = col_var a j.
Proof.
  intros L. unfold col_var at 1. rewrite (col_mean_centred j L).
  unfold dim. cbn [shape sub_row item]. fold (dim 0 a).
  rewrite (nth_mean0 j L). unfold col_var. rewrite dim0_a.
  f_equal. apply sum_n_ext. intros i _. ring.
Qed.

End ColumnStatistics.

(** After [c /= c.std(0)], a column of mean 0 and positive variance has mean
    0 and standard deviation 1. *)
Lemma col_scaled (c : ndarray) (N Q j : nat) :
  shape c = [N; Q] -> (j < Q)%nat ->
  col_mean c j = 0%R -> (0 < col_var c j)%R ->
  col_mean (div_row c (std0 c)) j = 0%R /\ col_std (div_row c (std0 c)) j = 1%R.
Proof.
  intros Sc L M0 V.
  assert (S0 : (0 < col_std c j)%R) by (apply sqrt_lt_R0, V).
  assert (Em : col_mean (div_row c (std0 c)) j = 0%R).
  { unfold col_mean, col_sum, dim. cbn [shape div_row item]. fold (dim 0 c).
    rewrite (nth_std0 c N Q Sc j L).
    unfold Rdiv at 2. rewrite sum_n_scale.
    fold (col_sum c j). unfold col_mean in M0.
    replace (col_sum c j * / col_std c j / INR (dim 0 c))%R
      with (col_sum c j / INR (dim 0 c) * / col_std c j)%R by (unfold Rdiv; ring).
    rewrite M0. ring. }
  split; [exact Em|].
  unfold col_std at 1. unfold col_var. rewrite Em.
  unfold dim. cbn [shape div_row item]. fold (dim 0 c).
  rewrite (nth_std0 c N Q Sc j L).
  replace (sum_n (fun i => (item c [i; j] / col_std c j - 0) ^ 2) (dim 0 c))%R
    with (sum_n (fun i => (item c [i; j] - 0) ^ 2) (dim 0 c) * / (col_std c j) ^ 2)%R.
  2:{ rewrite <- sum_n_scale. apply sum_n_ext. intros i _. field. lra. }
  assert (Sq : (col_std c j ^ 2 = col_var c j)%R).
  { unfold col_std. simpl. rewrite Rmult_1_r. apply sqrt_sqrt. lra. }
  rewrite Sq.
  replace (sum_n (fun i => (item c [i; j] - 0) ^ 2) (dim 0 c) * / col_var c j
           / INR (dim 0 c))%R
    with (col_var c j * / col_var c j)%R.
  2:{ unfold col_var at 1. rewrite M0. unfold Rdiv. ring. }
  rewrite Rinv_r by lra. apply sqrt_1.
Qed.

(** [Rmax] over a list commutes with division by a positive number. *)
Lemma fold_Rmax_div (m : R) (xs : list R) (x : R) :
  (0 < m)%R ->
  fold_left Rmax (map (fun v => (v / m)%R) xs) (x / m)%R = (fold_left Rmax xs x / m)%R.
Proof.
  intros Pm. revert x. induction xs as [|y xs IH]; intros x; simpl; [reflexivity|].
  replace (Rmax (x / m) (y / m))%R with (Rmax x y / m)%R; [apply IH|].
  unfold Rmax. destruct (Rle_dec x y) as [Le|Gt], (Rle_dec (x / m) (y / m))%R as [Le'|Gt'];
    try reflexivity; exfalso.
  - apply Gt'. unfold Rdiv. apply Rmult_le_compat_r; [|exact Le].
    left. apply Rinv_0_lt_compat, Pm.
  - apply Gt. apply (Rmult_le_reg_r (/ m)); [apply Rinv_0_lt_compat, Pm | exact Le'].
Qed.

Lemma fold_Rmax_ge (xs : list R) (x : R) :
  (x <= fold_left Rmax xs x)%R /\ Forall (fun y => (y <= fold_left Rmax xs x)%R) xs.
Proof.
  revert x. induction xs as [|y xs IH]; intros x; simpl.
  - split; [lra | constructor].
  - destruct (IH (Rmax x y)) as [A B]. split; [|constructor; [|exact B]].
    + pose proof (Rmax_l x y). lra.
    + pose proof (Rmax_r x y). lra.
Qed.

(** A vector with a positive entry has a positive maximum, and divided by it
    has maximum exactly 1. *)
Lemma vmax_normalised (v : list R) :
  Exists (fun x => (0 < x)%R) v ->
  exists m, vmax v = Ok m /\ (0 < m)%R /\ vmax (map (fun x => (x / m)%R) v) = Ok 1%R.
Proof.
  intros Ex. destruct v as [|x xs]; [inversion Ex|].
  exists (fold_left Rmax xs x). split; [reflexivity|].
  assert (Pm : (0 < fold_left Rmax xs x)%R).
  { destruct (fold_Rmax_ge xs x) as [A B]. inversion Ex as [? ? P|? ? P]; subst.
    - lra.
    - rewrite Forall_forall in B. apply Exists_exists in P.
      destruct P as (y & Iy & Py). specialize (B y Iy). lra. }
  split; [exact Pm|]. simpl. rewrite fold_Rmax_div by exact Pm.
  f_equal. field. lra.
Qed.

(** What lines 56 to 59 do to the state: two batches of division warnings,
    the second one missing when [var.max()] raises. *)
Lemma normalize_latent_run (Xb : ndarray) (vb : list R) (s : lstate) :
  let C := sub_row Xb (mean0 Xb) in
  let w1 := divide_warnings (scaling_pairs C (std0 C)) in
  normalize_latent Xb vb s
  = match vmax vb with
    | Ok m =>
        (Ok (div_row C (std0 C), map (fun v => (v / m)%R) vb),
         {| lrandom := lrandom s;
            warnings := (warnings s ++ w1)
                        ++ divide_warnings (map (fun v => (v, m)) vb) |})
    | Raise e => (Raise e, {| lrandom := lrandom s; warnings := warnings s ++ w1 |})
    end.
Proof.
  intros C w1. unfold normalize_latent, bind, numpy_warn, modify, lift, ret.
  fold C. fold w1. destruct (vmax vb); reflexivity.
Qed.

Lemma is_zero_false (x : R) : x <> 0%R -> is_zero x = false.
Proof. intros N. unfold is_zero. destruct (Req_dec_T x 0); [contradiction | reflexivity]. Qed.

Lemma is_zero_true (x : R) : x = 0%R -> is_zero x = true.
Proof. intros E. unfold is_zero. destruct (Req_dec_T x 0); [reflexivity | contradiction]. Qed.

(** Numpy's division warns of nothing when no divisor is zero. *)
Lemma divide_warnings_nonzero (pairs : list (R * R)) :
  (forall p, In p pairs -> snd p <> 0%R) -> divide_warnings pairs = [].
Proof.
  intros Nz. unfold divide_warnings.
  assert (E : forall f, existsb (fun p => is_zero (snd p) && f p) pairs = false).
  { intros f. destruct (existsb _ pairs) eqn:Ex; [|reflexivity].
    apply existsb_exists in Ex. destruct Ex as (p & Ip & Hp).
    rewrite (is_zero_false _ (Nz p Ip)) in Hp. discriminate Hp. }
  rewrite (E (fun p => negb (is_zero (fst p)))), (E (fun p => is_zero (fst p))).
  reflexivity.
Qed.

(** Whatever it divides, numpy's division emits [RuntimeWarning]s only. *)
Lemma divide_warnings_category (pairs : list (R * R)) :
  Forall (fun w => category w = "RuntimeWarning") (divide_warnings pairs).
Proof.
  unfold divide_warnings.
  destruct (existsb _ pairs), (existsb _ pairs); cbn; repeat constructor.
Qed.

(** Where every division is of zero by zero, numpy warns once, of an invalid
    value. *)
Lemma divide_warnings_zero_by_zero (pairs : list (R * R)) :
  pairs <> [] -> (forall p, In p pairs -> fst p = 0%R /\ snd p = 0%R) ->
  divide_warnings pairs = [invalid_value_warning].
Proof.
  intros Ne Z. unfold divide_warnings.
  assert (E1 : existsb (fun p => is_zero (snd p) && negb (is_zero (fst p))) pairs = false).
  { destruct (existsb _ pairs) eqn:Ex; [|reflexivity].
    apply existsb_exists in Ex. destruct Ex as (p & Ip & Hp).
    destruct (Z p Ip) as [Z1 Z2].
    rewrite (is_zero_true _ Z1), (is_zero_true _ Z2) in Hp. discriminate Hp. }
  assert (E2 : existsb (fun p => is_zero (snd p) && is_zero (fst p)) pairs = true).
  { destruct pairs as [|p ps]; [congruence|]. cbn [existsb].
    destruct (Z p (or_introl eq_refl)) as [Z1 Z2].
    rewrite (is_zero_true _ Z1), (is_zero_true _ Z2). reflexivity. }
  rewrite E1, E2. reflexivity.
Qed.

Lemma scaling_pairs_In (c : ndarray) (std : list R) (p : R * R) :
  In p (scaling_pairs c std) ->
  exists i j, (i < dim 0 c)%nat /\ (j < dim 1 c)%nat /\
              p = (item c [i; j], nth j std 0%R).
Proof.
  unfold scaling_pairs. intros I. apply in_flat_map in I.
  destruct I as (i & Ii & I). apply in_map_iff in I. destruct I as (j & <- & Ij).
  apply in_seq in Ii. apply in_seq in Ij. exists i, j. repeat split; lia.
Qed.

(** Lines 56 to 59 on a matrix whose every column has positive variance and
    a variance of non-zero maximum: no warning, the state is as it was. *)
Lemma normalize_latent_quiet (Xb : ndarray) (vb : list R) (N Q : nat) (m : R)
    (s : lstate) :
  shape Xb = [N; Q] ->
  (forall j, (j < Q)%nat -> (0 < col_var Xb j)%R) ->
  vmax vb = Ok m -> m <> 0%R ->
  normalize_latent Xb vb s
  = (Ok (div_row (sub_row Xb (mean0 Xb)) (std0 (sub_row Xb (mean0 Xb))),
         map (fun v => (v / m)%R) vb), s).
Proof.
  intros Sh V Em Nm. rewrite normalize_latent_run. cbv zeta. rewrite Em.
  rewrite divide_warnings_nonzero.
  - rewrite divide_warnings_nonzero.
    + rewrite !app_nil_r. destruct s; reflexivity.
    + intros p I. apply in_map_iff in I. destruct I as (v & <- & _). exact Nm.
  - intros p I. apply scaling_pairs_In in I. destruct I as (i & j & _ & Lj & ->).
    assert (Sc : shape (sub_row Xb (mean0 Xb)) = [N; Q]) by exact Sh.
    rewrite (dim1_a _ N Q Sc) in Lj. cbn [snd].
    rewrite (nth_std0 _ N Q Sc j Lj). unfold col_std.
    rewrite (col_var_centred Xb N Q Sh j Lj).
    pose proof (sqrt_lt_R0 _ (V j Lj)). lra.
Qed.

(** Whenever lines 56 to 59 return: the result, and what they add to the
    warnings. *)
Lemma normalize_latent_inv (Xb : ndarray) (vb : list R) (s : lstate)
    (r : ndarray * list R) (s' : lstate) :
  normalize_latent Xb vb s = (Ok r, s') ->
  exists m ws,
    vmax vb = Ok m /\
    r = (div_row (sub_row Xb (mean0 Xb)) (std0 (sub_row Xb (mean0 Xb))),
         map (fun v => (v / m)%R) vb) /\
    lrandom s' = lrandom s /\ warnings s' = warnings s ++ ws /\
    Forall (fun w => category w = "RuntimeWarning") ws.
Proof.
  rewrite normalize_latent_run. cbv zeta.
  destruct (vmax vb) as [m|e]; [|discriminate].
  intros E. injection E as <- <-. eexists m, _.
  split; [reflexivity|]. split; [reflexivity|]. split; [reflexivity|].
  split; [cbn; rewrite <- app_assoc; reflexivity|].
  apply Forall_app. split; apply divide_warnings_category.
Qed.

(* ------------------------------------------------------------------ *)
(** ** [initialize_latent] *)

Lemma assign_block_run (x b y : ndarray) :
  assign_block x b = Ok y ->
  shape y = shape x /\
  forall i j, item y [i; j]
              = if ((i <? dim 0 b) && (j <? dim 1 b))%nat
                then item b [i; j] else item x [i; j].
Proof.
  unfold assign_block, dim.
  destruct (shape x) as [|n [|q [|? ?]]]; try discriminate;
    destruct (shape b) as [|r [|c [|? ?]]]; try discriminate.
  destruct (((r <=? n) || (r =? 1)) && ((c <=? q) || (c =? 1)))%nat; [|discriminate].
  intros E. injection E as <-. split; reflexivity.
Qed.

Section InitializationProperties.
Context {P : Type} `{LatentLib P}.

Lemma ldraw_run {A : Type} (f : rng -> A * rng) (s : lstate) :
  ldraw f s = (Ok (fst (f (lrandom s))),
               {| lrandom := snd (f (lrandom s)); warnings := warnings s |}).
Proof. unfold ldraw. destruct (f (lrandom s)); reflexivity. Qed.

(** The base matrix of every branch is [Y.shape[0]] by [input_dim]. *)
Lemma initialize_latent_branch_shape (init : string) (input_dim : nat)
    (Y : ndarray) (s : lstate) (Xb : ndarray) (vb : list R) (s' : lstate) :
  initialize_latent_branch init input_dim Y s = (Ok (Xb, vb), s') ->
  exists N, shape_at 0 Y = Ok N /\ shape Xb = [N; input_dim].
Proof.
  intros E. unfold initialize_latent_branch in E.
  unfold bind at 1, lift at 1 in E.
  destruct (shape_at 0 Y) as [N|e]; [|discriminate E].
  exists N. split; [reflexivity|].
  unfold bind at 1 in E. rewrite ldraw_run in E. cbn [fst snd randn] in E.
  destruct (String.eqb "PCA" init).
  - unfold bind at 1, lift at 1 in E. destruct (PCA Y) as [p|e]; [|discriminate E].
    unfold bind at 1, lift at 1 in E. destruct (shape_at 1 Y) as [d|e]; [|discriminate E].
    unfold bind at 1, lift at 1 in E.
    destruct (project p Y (Nat.min input_dim d)) as [PC|e]; [|discriminate E].
    unfold bind at 1, lift at 1 in E.
    match type of E with context [assign_block ?x ?b] =>
      destruct (assign_block x b) as [y|e] eqn:Ea; [|discriminate E] end.
    injection E as <- _ _. apply assign_block_run in Ea. apply Ea.
  - destruct (String.eqb init "empirical_samples").
    + unfold bind at 1, warn, modify in E. cbv beta iota in E.
      unfold bind at 1, lift at 1 in E. cbv beta iota in E.
      unfold bind at 1, lift at 1 in E.
      destruct (shape_at 1 Y) as [d|e]; [|discriminate E].
      unfold bind at 1, ldraw_result in E. cbn [lrandom warnings] in E.
      match type of E with context [multivariate_normal ?a ?b ?c ?g] =>
        destruct (multivariate_normal a b c g) as [[smp|e] g'] end; [|discriminate E].
      unfold bind at 1, lift at 1 in E.
      match type of E with context [assign_block ?x ?b] =>
        destruct (assign_block x b) as [y|e] eqn:Ea; [|discriminate E] end.
      unfold bind at 1 in E. rewrite ldraw_run in E.
      injection E as <- _ _. apply assign_block_run in Ea. apply Ea.
    + destruct (String.eqb init "random").
      * injection E as <- _ _. reflexivity.
      * unfold bind at 1, warn, modify in E. injection E as <- _ _. reflexivity.
Qed.

(** C7.  Whenever the base matrix of the branch has positive variance in
    every column and the variance of the branch has a positive entry,
    [initialize_latent] returns a matrix whose every column has mean 0 and
    standard deviation 1, together with the variance of the branch divided by
    its maximum, whose own maximum is exactly 1. *)
Theorem initialize_latent_normalised (init : string) (input_dim : nat)
    (Y : ndarray) (s : lstate) (Xb : ndarray) (vb : list R) (s' : lstate) :
  initialize_latent_branch init input_dim Y s = (Ok (Xb, vb), s') ->
  (forall j, (j < input_dim)%nat -> (0 < col_var Xb j)%R) ->
  Exists (fun v => (0 < v)%R) vb ->
  exists Xr var m,
    initialize_latent init input_dim Y s = (Ok (Xr, var), s') /\
    shape Xr = shape Xb /\
    (forall j, (j < input_dim)%nat -> col_mean Xr j = 0%R /\ col_std Xr j = 1%R) /\
    vmax vb = Ok m /\ var = map (fun v => (v / m)%R) vb /\ vmax var = Ok 1%R.
Proof.
  intros E V Ex.
  destruct (initialize_latent_branch_shape _ _ _ _ _ _ _ E) as (N & _ & Sh).
  destruct (vmax_normalised vb Ex) as (m & Em & Pm & E1).
  exists (div_row (sub_row Xb (mean0 Xb)) (std0 (sub_row Xb (mean0 Xb)))),
         (map (fun v => (v / m)%R) vb), m.
  split; [|split; [reflexivity | split; [|auto]]].
  - unfold initialize_latent, bind. rewrite E. cbn [fst snd].
    apply (normalize_latent_quiet Xb vb N input_dim m s' Sh V Em). lra.
  - intros j L. apply (col_scaled _ N input_dim j); [exact Sh | exact L | |].
    + apply (col_mean_centred Xb N input_dim Sh j L).
    + rewrite (col_var_centred Xb N input_dim Sh j L). apply V, L.
Qed.


End InitializationProperties.

(** The uniform draws of [0.5, 1.5) taken by ["empirical_samples"] are
    positive, so that branch too has a positive entry once there is a
    column. *)
Lemma uniform_variance_has_positive (input_dim : nat) (g : rng) :
  (0 < input_dim)%nat -> (forall k, (0 <= uniforms g k)%R) ->
  Exists (fun v => (0 < v)%R) (fst (uniform (5 / 10) (15 / 10) input_dim g)).
Proof.
  intros L U. destruct input_dim as [|q]; [lia|]. simpl. left.
  specialize (U 0%nat). lra.
Qed.

(** C7, witness: ["random"] with one latent dimension on two observations;
    the base column is (0, 1). *)
Lemma initialize_latent_normalised_example :
  exists Xr var m,
    initialize_latent (H := example_latent_lib) "random" 1 example_Y
      {| lrandom := example_rng; warnings := [] |}
    = (Ok (Xr, var), {| lrandom := snd (randn 2 1 example_rng); warnings := [] |}) /\
    shape Xr = [2%nat; 1%nat] /\
    (forall j, (j < 1)%nat -> col_mean Xr j = 0%R /\ col_std Xr j = 1%R) /\
    vmax (var0 (fst (randn 2 1 example_rng))) = Ok m /\
    var = map (fun v => (v / m)%R) (var0 (fst (randn 2 1 example_rng))) /\
    vmax var = Ok 1%R.
Proof.
  apply (initialize_latent_normalised (H := example_latent_lib) "random" 1 example_Y
           {| lrandom := example_rng; warnings := [] |}
           (fst (randn 2 1 example_rng)) (var0 (fst (randn 2 1 example_rng)))).
  - reflexivity.
  - intros j L. assert (j = 0%nat) as -> by lia.
    unfold col_var, col_mean, col_sum, dim. simpl. lra.
  - left. unfold col_var, col_mean, col_sum, dim. simpl. lra.
Defined.

Section InitializationBranches.
Context {P : Type} `{LatentLib P}.

(** C8 (as amended).  For ["PCA"] on an N by D matrix [Y] whose projection on
    [min(input_dim, D)] components is N by [min(input_dim, D)]: the base
    matrix is the standard-normal N by [input_dim] matrix with that leading
    block overwritten by the projection, and the variance before
    normalisation is 0.1 times the first [input_dim] eigen-fractions, as many
    as there are: its length, and the length of the returned [var], is
    [min(input_dim, len(fracs))]; nothing pads it to [input_dim]. *)
Theorem initialize_latent_PCA (input_dim : nat) (Y : ndarray) (s : lstate)
    (N D : nat) (p : P) (PC : ndarray) :
  shape Y = [N; D] -> PCA Y = Ok p ->
  project p Y (Nat.min input_dim D) = Ok PC ->
  shape PC = [N; Nat.min input_dim D] ->
  let var := map (fun f => (1 / 10 * f)%R) (firstn input_dim (fracs p)) in
  exists Xb,
    initialize_latent_branch "PCA" input_dim Y s
    = (Ok (Xb, var),
       {| lrandom := snd (randn N input_dim (lrandom s)); warnings := warnings s |}) /\
    shape Xb = [N; input_dim] /\
    (forall i j,
       item Xb [i; j]
       = if ((i <? N) && (j <? Nat.min input_dim D))%nat
         then item PC [i; j]
         else normals (lrandom s) (i * input_dim + j)%nat) /\
    length var = Nat.min input_dim (length (fracs p)) /\
    forall Xr var' s',
      initialize_latent "PCA" input_dim Y s = (Ok (Xr, var'), s') ->
      length var' = Nat.min input_dim (length (fracs p)).
Proof.
  intros SY Ep Epc SPC var.
  assert (Ea : exists Xb,
             assign_block (fst (randn N input_dim (lrandom s))) PC = Ok Xb).
  { unfold assign_block. cbn [fst randn shape]. rewrite SPC.
    rewrite Nat.leb_refl. cbn [orb andb].
    destruct ((Nat.min input_dim D <=? input_dim)%nat) eqn:L; [eauto|].
    apply Nat.leb_gt in L. lia. }
  destruct Ea as (Xb & Ea).
  assert (Eb : initialize_latent_branch "PCA" input_dim Y s
               = (Ok (Xb, var),
                  {| lrandom := snd (randn N input_dim (lrandom s));
                     warnings := warnings s |})).
  { unfold initialize_latent_branch, shape_at. rewrite SY. cbn [nth_error].
    unfold bind at 1, lift at 1. unfold bind at 1. rewrite ldraw_run.
    cbn [String.eqb Ascii.eqb Bool.eqb].
    unfold bind at 1, lift at 1. rewrite Ep.
    unfold bind at 1, lift at 1. unfold bind at 1, lift at 1. rewrite Epc.
    unfold bind at 1, lift at 1. rewrite Ea. reflexivity. }
  assert (Lv : length var = Nat.min input_dim (length (fracs p)))
    by (unfold var; rewrite length_map; apply length_firstn).
  exists Xb. split; [exact Eb|].
  destruct (assign_block_run _ _ _ Ea) as [Sh It].
  split; [exact Sh|]. split; [|split; [exact Lv|]].
  - intros i j. rewrite It. unfold dim. rewrite SPC. reflexivity.
  - intros Xr var' s' E. unfold initialize_latent, bind in E. rewrite Eb in E.
    cbn [fst snd] in E.
    destruct (normalize_latent_inv _ _ _ _ _ E) as (m & ws & _ & Er & _).
    injection Er as _ ->. rewrite length_map. exact Lv.
Qed.

(** C9 (as amended).  An [init] other than ["PCA"], ["empirical_samples"] and
    ["random"] adds a deprecation warning and takes the column variance of
    the standard-normal base matrix as variance.  ["empirical_samples"] adds
    its own deprecation warning, writes the sample into the base matrix, and
    takes [input_dim] uniform draws of [0.5, 1.5) as variance. *)
Theorem initialize_latent_deprecated (input_dim : nat) (Y : ndarray) (s : lstate)
    (N : nat) :
  shape_at 0 Y = Ok N ->
  let X0 := fst (randn N input_dim (lrandom s)) in
  let g1 := snd (randn N input_dim (lrandom s)) in
  (forall init,
     init <> "PCA" -> init <> "empirical_samples" -> init <> "random" ->
     initialize_latent_branch init input_dim Y s
     = (Ok (X0, var0 X0),
        {| lrandom := g1;
           warnings := warnings s ++
             [{| category := "DeprecationWarning";
                 message := init +:+ " is not a valid initialization method."
                   +:+ "Supoprt for anything else than 'PCA' or 'random' will be removed in the next major release." |}] |})) /\
  (forall D smp g2 Xb,
     shape_at 1 Y = Ok D ->
     multivariate_normal (repeat 0%R N) (diag_add (tdot Y) (1 / 1000000))
       (Nat.min input_dim D) g1 = (Ok smp, g2) ->
     assign_block X0 (transpose smp) = Ok Xb ->
     initialize_latent_branch "empirical_samples" input_dim Y s
     = (Ok (Xb, map (fun i => (5 / 10 + (15 / 10 - 5 / 10) * uniforms g2 i)%R)
                  (seq 0 input_dim)),
        {| lrandom := snd (uniform (5 / 10) (15 / 10) input_dim g2);
           warnings := warnings s ++
             [{| category := "DeprecationWarning";
                 message := "Deprecated initialization method 'empirical_samples'. Use 'random' instead." |}] |})).
Proof.
  intros EN X0 g1. split.
  - intros init N1 N2 N3.
    unfold initialize_latent_branch. rewrite EN.
    unfold bind at 1, lift at 1. unfold bind at 1. rewrite ldraw_run.
    assert (E1 : String.eqb "PCA" init = false)
      by (apply String.eqb_neq; congruence).
    assert (E2 : String.eqb init "empirical_samples" = false)
      by (apply String.eqb_neq; exact N2).
    assert (E3 : String.eqb init "random" = false)
      by (apply String.eqb_neq; exact N3).
    rewrite E1, E2, E3. reflexivity.
  - intros D smp g2 Xb ED Em Ea.
    unfold initialize_latent_branch. rewrite EN.
    unfold bind at 1, lift at 1. unfold bind at 1. rewrite ldraw_run.
    cbn [String.eqb Ascii.eqb Bool.eqb].
    unfold bind at 1, warn, modify. cbv beta iota.
    unfold bind at 1, lift at 1. cbv beta iota.
    unfold bind at 1, lift at 1. rewrite ED.
    unfold bind at 1, ldraw_result. cbn [lrandom warnings].
    fold g1. rewrite Em.
    unfold bind at 1, lift at 1. fold X0. rewrite Ea.
    unfold bind at 1. rewrite ldraw_run. reflexivity.
Qed.

End InitializationBranches.

(** C8, witness: two latent dimensions asked of the one-column [example_Y]. *)
Lemma initialize_latent_PCA_example :
  exists Xb,
    initialize_latent_branch (H := example_latent_lib) "PCA" 2 example_Y
      {| lrandom := example_rng; warnings := [] |}
    = (Ok (Xb, map (fun f => (1 / 10 * f)%R) (firstn 2 [1%R])),
       {| lrandom := snd (randn 2 2 example_rng); warnings := [] |}) /\
    shape Xb = [2%nat; 2%nat] /\
    (forall i j,
       item Xb [i; j]
       = if ((i <? 2) && (j <? Nat.min 2 1))%nat
         then item example_Y [i; j]
         else INR (i * 2 + j)) /\
    length (map (fun f => (1 / 10 * f)%R) (firstn 2 [1%R])) = Nat.min 2 1 /\
    forall Xr var' s',
      initialize_latent (H := example_latent_lib) "PCA" 2 example_Y
        {| lrandom := example_rng; warnings := [] |} = (Ok (Xr, var'), s') ->
      length var' = Nat.min 2 1.
Proof.
  apply (initialize_latent_PCA (H := example_latent_lib) 2 example_Y
           {| lrandom := example_rng; warnings := [] |} 2 1 tt
           {| shape := [2%nat; 1%nat]; item := item example_Y |});
    reflexivity.
Defined.

(** C8, counterexample.  [Y] has one column and [input_dim] is 2: the call
    returns, and the returned [var] has length 1, not [input_dim]. *)
Lemma initialize_latent_PCA_var_is_short :
  exists Xr var s',
    initialize_latent (H := example_latent_lib) "PCA" 2 example_Y
      {| lrandom := example_rng; warnings := [] |} = (Ok (Xr, var), s') /\
    shape example_Y = [2%nat; 1%nat] /\
    length var = 1%nat.
Proof.
  unfold initialize_latent, bind.
  destruct (initialize_latent_branch (H := example_latent_lib) "PCA" 2 example_Y
              {| lrandom := example_rng; warnings := [] |}) as [rb sb] eqn:Eb.
  cbn in Eb. injection Eb as <- <-. cbn [fst snd].
  rewrite normalize_latent_run. cbv zeta.
  change (vmax [(1 / 10 * 1)%R]) with (@Ok R (1 / 10 * 1)%R).
  eexists _, _, _. split; [reflexivity|]. split; reflexivity.
Qed.

(** C9, witness: one latent dimension on [example_Y]. *)
Lemma initialize_latent_deprecated_example :
  initialize_latent_branch (H := example_latent_lib) "spectral" 1 example_Y
    {| lrandom := example_rng_half; warnings := [] |}
  = (Ok (fst (randn 2 1 example_rng_half), var0 (fst (randn 2 1 example_rng_half))),
     {| lrandom := snd (randn 2 1 example_rng_half);
        warnings :=
          [{| category := "DeprecationWarning";
              message := "spectral is not a valid initialization method.Supoprt for anything else than 'PCA' or 'random' will be removed in the next major release." |}] |}).
Proof.
  destruct (initialize_latent_deprecated (H := example_latent_lib) 1 example_Y
              {| lrandom := example_rng_half; warnings := [] |} 2 eq_refl)
    as [Hother _].
  apply (Hother "spectral"); discriminate.
Defined.

(** C9, counterexample.  Under ["empirical_samples"] with two latent
    dimensions, the variance before normalisation is the pair of uniform
    draws (0.5, 1), while both columns of the base matrix have variance 1. *)
Lemma initialize_latent_empirical_samples_variance :
  exists Xb var s',
    initialize_latent_branch (H := example_latent_lib) "empirical_samples" 2
      example_Y {| lrandom := example_rng_half; warnings := [] |}
    = (Ok (Xb, var), s') /\
    var = [(5 / 10 + (15 / 10 - 5 / 10) * 0)%R;
           (5 / 10 + (15 / 10 - 5 / 10) * (1 / 2))%R] /\
    col_var Xb 0 = 1%R /\ col_var Xb 1 = 1%R /\
    nth 0 var 0%R <> nth 0 (var0 Xb) 0%R.
Proof.
  eexists _, _, _. split; [cbn; reflexivity|]. split; [reflexivity|].
  match goal with |- col_var ?X 0 = _ /\ _ => set (Xb := X) end.
  assert (C0 : col_var Xb 0 = 1%R)
    by (unfold col_var, col_mean, col_sum, dim; simpl; lra).
  assert (C1 : col_var Xb 1 = 1%R)
    by (unfold col_var, col_mean, col_sum, dim; simpl; lra).
  split; [exact C0|]. split; [exact C1|].
  change (nth 0 (var0 Xb) 0%R) with (col_var Xb 0). rewrite C0.
  simpl. lra.
Qed.

(* ================================================================== *)
(** * Further properties *)

(* ------------------------------------------------------------------ *)
(** ** Order of the checks *)

Lemma run_spec_attempts_in_order (debug : bool) (cs : list check) (t : list event)
    (out : result bool) :
  run_spec debug cs t out ->
  exists k, (k <= length cs)%nat /\
            map event_check (filter is_attempt t) = firstn k cs.
Proof.
  intros Hrs. induction Hrs.
  - exists 0%nat. split; [simpl; lia | reflexivity].
  - destruct IHHrs as (k & L & E). exists (S k). simpl.
    split; [lia | rewrite E; reflexivity].
  - exists 1%nat. simpl. split; [lia | reflexivity].
  - exists 1%nat. simpl. split; [lia | reflexivity].
  - exists 1%nat. simpl. split; [lia | reflexivity].
Qed.

Lemma run_spec_rerun (debug : bool) (cs : list check) (t : list event)
    (out : result bool) (c : check) (r' : result bool) :
  run_spec debug cs t out -> In (Rerun c r') t ->
  c <> psd_K_X /\
  exists pre, forallb passing pre = true /\
    t = pre ++ [Attempt c (Ok false); Rerun c r'] /\
    out = match r' with Ok _ => assert_outcome debug | Raise e => Raise e end.
Proof.
  intros Hrs. induction Hrs; intros I.
  - destruct I.
  - destruct I as [I|I]; [discriminate I|].
    destruct (IHHrs I) as (N & pre & F & E & O). split; [exact N|].
    exists (Attempt c0 r :: pre). subst t. split; [|auto].
    simpl. rewrite H. exact F.
  - destruct I as [I|[]]. discriminate I.
  - destruct I as [I|[I|[]]]; [discriminate I|]. injection I as <- <-.
    split; [assumption|]. exists []. auto.
  - destruct I as [I|[]]. discriminate I.
Qed.

(* ------------------------------------------------------------------ *)
(** ** The verdict of the positive-semi-definiteness test *)

Lemma bind_ok {S A B : Type} (m : M S A) (f : A -> M S B) (s : S) (a : A) (s1 : S) :
  m s = (Ok a, s1) -> bind m f s = f a s1.
Proof. intros E. unfold bind. rewrite E. reflexivity. Qed.

Lemma bind_raise {S A B : Type} (m : M S A) (f : A -> M S B) (s : S) (e : exn) (s1 : S) :
  m s = (Raise e, s1) -> bind m f s = (Raise e, s1).
Proof. intros E. unfold bind. rewrite E. reflexivity. Qed.

Lemma float_min2_cases (a b : float) : float_min2 a b = a \/ float_min2 a b = b.
Proof.
  unfold float_min2.
  destruct (PrimFloat.is_nan a); [auto|].
  destruct (PrimFloat.is_nan b); [auto|].
  destruct (PrimFloat.ltb b a); auto.
Qed.

Lemma fold_float_min2_In (xs : list float) (x : float) :
  In (fold_left float_min2 xs x) (x :: xs).
Proof.
  revert x. induction xs as [|y xs IH]; intros x; simpl; [auto|].
  destruct (IH (float_min2 x y)) as [E|I]; [|auto].
  rewrite <- E. destruct (float_min2_cases x y) as [-> | ->]; auto.
Qed.

(** The minimum that a failed test prints exists, and is the real part of
    one of the eigenvalues. *)
Lemma real_min_of_failed_test (v : list complex128) :
  is_positive_semi_definite v = false ->
  exists z, In z v /\ real_min v = Ok (real z).
Proof.
  intros F. unfold real_min.
  destruct v as [|z0 v]; [discriminate F|]. cbn [map].
  pose proof (fold_float_min2_In (map real v) (real z0)) as I.
  change (real z0 :: map real v) with (map real (z0 :: v)) in I.
  apply in_map_iff in I. destruct I as (z & Ez & Iz).
  exists z. split; [exact Iz | rewrite Ez; reflexivity].
Qed.

(** X1.  The verdict of [is_positive_semi_definite] looks at the real parts
    only, and a concatenated spectrum passes exactly when both parts pass. *)
Theorem is_positive_semi_definite_real_parts (v w : list complex128) :
  is_positive_semi_definite (v ++ w)
  = is_positive_semi_definite v && is_positive_semi_definite w /\
  (map real v = map real w ->
   is_positive_semi_definite v = is_positive_semi_definite w).
Proof.
  unfold is_positive_semi_definite. split.
  - rewrite existsb_app.
    destruct (existsb _ v), (existsb _ w); reflexivity.
  - intros E.
    assert (X : forall u, existsb (fun z => PrimFloat.leb (real z) (-1e-10)%float) u
                          = existsb (fun x => PrimFloat.leb x (-1e-10)%float) (map real u)).
    { induction u as [|z u IH]; simpl; [reflexivity | rewrite IH; reflexivity]. }
    rewrite (X v), (X w), E. reflexivity.
Qed.

Section DriverFurther.
Context {World Model Dims : Type} `{Harness World Model Dims}.
#[local] Abbreviation Drv := (@Drv World Model).
#[local] Abbreviation dstate := (@dstate World Model).
#[local] Abbreviation call := (@call World Model).
#[local] Abbreviation draw_np := (@draw_np World Model).
#[local] Abbreviation print := (@print World Model).
#[local] Abbreviation set_pass_checks := (@set_pass_checks World Model).
#[local] Abbreviation set_testmodel := (@set_testmodel World Model).
#[local] Abbreviation py_assert := (@py_assert World Model).

Tactic Notation "run_in" hyp(H) "as" ident(a) ident(s1) ident(E) :=
  unfold bind at 1 in H;
  match type of H with
  | (match ?m ?s with _ => _ end) = _ => destruct (m s) as [[a|a] s1] eqn:E
  end.

(** X2.  The first check, on a model [m] whose kernel matrix has the
    eigenvalues [v]: the result is the verdict on [v]; a passing test prints
    nothing, and a failing one prints one number, the real part of one of the
    eigenvalues, without raising. *)
Theorem psd_attempt_verdict (x : ndarray) (s : dstate) (m : Model) (w1 : World)
    (v : list complex128) (w2 : World) :
  construct cls_model x None (world s) = (Ok m, w1) ->
  eigenvalues m w1 = (Ok v, w2) ->
  exists s',
    psd_attempt x s = (Ok (is_positive_semi_definite v), s') /\
    world s' = w2 /\
    (is_positive_semi_definite v = true -> stdout s' = stdout s) /\
    (is_positive_semi_definite v = false ->
     exists z, In z v /\ stdout s' = stdout s ++ [Number (real z)]).
Proof.
  intros Ec Ee. unfold psd_attempt.
  unfold bind at 1. unfold call at 1. rewrite Ec.
  unfold bind at 1. unfold call at 1. cbn [world]. rewrite Ee.
  destruct (is_positive_semi_definite v) eqn:V.
  - eexists. split; [reflexivity|]. split; [reflexivity|].
    split; [reflexivity | discriminate].
  - destruct (real_min_of_failed_test v V) as (z & Iz & Ez).
    unfold bind, lift, print, modify, ret. rewrite Ez.
    eexists. split; [reflexivity|]. split; [reflexivity|].
    split; [discriminate|]. intros _. exists z. split; [exact Iz | reflexivity].
Qed.

(* ------------------------------------------------------------------ *)
(** ** Failures of the default data *)

Lemma set_pass_checks_run (b : bool) (s : dstate) :
  set_pass_checks b s
  = (Ok tt, {| world := world s; np_random := np_random s; stdout := stdout s;
               pass_checks := b; testmodel := testmodel s; trace := trace s |}).
Proof. reflexivity. Qed.

(** [np.random.randint(low, high)] with [low >= high] raises before the
    column is written. *)
Lemma default_X_value_error (rows : nat) (j : Z) (s : dstate) :
  (Z.of_nat rows <= kern_output_dim)%Z ->
  exists s', default_X rows (Some j) s = (Raise ValueError, s') /\
             trace s' = trace s /\ stdout s' = stdout s /\ world s' = world s.
Proof.
  intros L. unfold default_X, bind, draw_np, randint, lift. simpl.
  destruct (kern_output_dim <? Z.of_nat rows)%Z eqn:E.
  - apply Z.ltb_lt in E. lia.
  - eexists. split; [reflexivity|]. repeat split.
Qed.

Lemma default_X_index_error (rows : nat) (j : Z) (s : dstate) :
  (kern_output_dim < Z.of_nat rows)%Z ->
  ~ (- Z.of_nat kern_input_dim <= j < Z.of_nat kern_input_dim)%Z ->
  exists s', default_X rows (Some j) s = (Raise IndexError, s') /\
             trace s' = trace s /\ stdout s' = stdout s /\ world s' = world s.
Proof.
  intros L J. unfold default_X, bind, draw_np, randint, lift. simpl.
  destruct (kern_output_dim <? Z.of_nat rows)%Z eqn:E.
  2:{ apply Z.ltb_ge in E. lia. }
  unfold set_column. simpl.
  destruct ((- Z.of_nat kern_input_dim <=? j) && (j <? Z.of_nat kern_input_dim))%Z eqn:G.
  - apply andb_prop in G. destruct G as [G1 G2].
    apply Z.leb_le in G1. apply Z.ltb_lt in G2. lia.
  - eexists. split; [reflexivity|]. repeat split.
Qed.

(** X3.  With [output_ind] given, a kernel with at least ten outputs and no
    [X], or with at least twenty outputs and no [X2], makes the call raise
    [ValueError] while the default data is drawn: no check is attempted,
    nothing is printed and the kernel is not touched. *)
Theorem driver_output_dim_too_large (debug : bool) (X_arg X2_arg : option ndarray)
    (j : Z) (verbose : bool) (fixed_X_dims : option Dims) (s : dstate) :
  (X_arg = None /\ (10 <= kern_output_dim)%Z) \/
  (X2_arg = None /\ (20 <= kern_output_dim)%Z) ->
  let r := check_kernel_gradient_functions debug X_arg X2_arg (Some j) verbose
             fixed_X_dims s in
  fst r = Raise ValueError /\ trace (snd r) = trace s /\
  stdout (snd r) = stdout s /\ world (snd r) = world s.
Proof.
  intros Hyp r. subst r. unfold check_kernel_gradient_functions.
  rewrite (bind_ok _ _ _ _ _ (set_pass_checks_run true s)).
  set (s0 := {| world := world s; np_random := np_random s; stdout := stdout s;
                pass_checks := true; testmodel := testmodel s; trace := trace s |}).
  assert (First : (10 <= kern_output_dim)%Z ->
                  exists s', default_X 10 (Some j) s0 = (Raise ValueError, s') /\
                    trace s' = trace s /\ stdout s' = stdout s /\ world s' = world s).
  { intros L. apply (default_X_value_error 10 j s0). simpl. lia. }
  destruct X_arg as [a|].
  - destruct Hyp as [[X _]|[-> L]]; [discriminate X|].
    rewrite (bind_ok _ _ s0 a s0) by reflexivity.
    destruct (default_X_value_error 20 j s0) as (s' & E & T & O & W); [simpl; lia|].
    rewrite (bind_raise _ _ _ _ _ E). auto.
  - destruct First as (s' & E & T & O & W); [destruct Hyp as [[_ L]|[_ L]]; lia|].
    rewrite (bind_raise _ _ _ _ _ E). auto.
Qed.

(** X4.  With fewer than ten outputs and an [output_ind] that is not a column
    of the default matrix, the call raises [IndexError] when [X] or [X2] is
    to be generated, again before any check. *)
Theorem driver_output_ind_out_of_range (debug : bool) (X_arg X2_arg : option ndarray)
    (j : Z) (verbose : bool) (fixed_X_dims : option Dims) (s : dstate) :
  X_arg = None \/ X2_arg = None ->
  (kern_output_dim < 10)%Z ->
  ~ (- Z.of_nat kern_input_dim <= j < Z.of_nat kern_input_dim)%Z ->
  let r := check_kernel_gradient_functions debug X_arg X2_arg (Some j) verbose
             fixed_X_dims s in
  fst r = Raise IndexError /\ trace (snd r) = trace s /\
  stdout (snd r) = stdout s /\ world (snd r) = world s.
Proof.
  intros Hyp L J r. subst r. unfold check_kernel_gradient_functions.
  rewrite (bind_ok _ _ _ _ _ (set_pass_checks_run true s)).
  set (s0 := {| world := world s; np_random := np_random s; stdout := stdout s;
                pass_checks := true; testmodel := testmodel s; trace := trace s |}).
  destruct X_arg as [a|].
  - destruct Hyp as [X| ->]; [discriminate X|].
    rewrite (bind_ok _ _ s0 a s0) by reflexivity.
    destruct (default_X_index_error 20 j s0) as (s' & E & T & O & W);
      [simpl; lia | exact J |].
    rewrite (bind_raise _ _ _ _ _ E). auto.
  - destruct (default_X_index_error 10 j s0) as (s' & E & T & O & W);
      [simpl; lia | exact J |].
    rewrite (bind_raise _ _ _ _ _ E). auto.
Qed.

(* ------------------------------------------------------------------ *)
(** ** What a successful call prints *)

(** The first check prints only when the test fails. *)
Lemma psd_attempt_passed_mute (x : ndarray) (s s' : dstate) :
  psd_attempt x s = (Ok true, s') -> stdout s' = stdout s.
Proof.
  intros E. unfold psd_attempt in E.
  run_in E as m s1 E1; [|discriminate E].
  run_in E as v s2 E2; [|discriminate E].
  pose proof (mute_call _ _ _ _ E1) as O1.
  pose proof (mute_call _ _ _ _ E2) as O2.
  destruct (is_positive_semi_definite v).
  - inversion E; subst. congruence.
  - run_in E as lo s3 E3; [|discriminate E].
    run_in E as u s4 E4; [|discriminate E]. discriminate E.
Qed.

Lemma reports_done (verbose : bool) : reports verbose 0 (gets pass_checks : Drv bool).
Proof.
  intros s s' E. inversion E; subst. exists []. rewrite app_nil_r. auto.
Qed.

(** The part of a failed check after the message never returns true. *)
Lemma failed_check_not_true (debug assert_first : bool) (c : check) (l : line)
    (rerun : Drv bool) (s s' : dstate) :
  (print l ;; observe (Rerun c) rerun ;;
   (if assert_first
    then py_assert debug false ;; set_pass_checks false
    else set_pass_checks false ;; py_assert debug false) ;;
   ret false) s <> (Ok true, s').
Proof.
  intros E.
  run_in E as u s1 E1; [|discriminate E].
  run_in E as b s2 E2; [|discriminate E].
  run_in E as u3 s3 E3; [|discriminate E]. discriminate E.
Qed.

Lemma reports_gradient_check (debug verbose : bool) (c : check) (guarded : bool)
    (checking not_implemented failed : string) (attempt rerun : Drv bool)
    (assert_first : bool) (rest : Drv bool) (n : nat) :
  mute attempt ->
  is_check_passed (Text checking) = false ->
  (guarded = true -> is_check_passed (Text (not_implemented +:+ kern_name)) = false) ->
  reports verbose n rest ->
  reports verbose (S n)
    (gradient_check debug verbose c guarded checking not_implemented failed
       attempt rerun assert_first rest).
Proof.
  intros Ma Hc Hn Frest s s' Hrun.
  unfold gradient_check in Hrun.
  run_in Hrun as u0 s0 E; destruct (when_print_stdout _ _ _ _ _ E) as (X & O0);
    [clear X E | discriminate].
  run_in Hrun as res s1 E; [|discriminate Hrun].
  assert (O1 : exists extra, stdout s1 = stdout s0 ++ extra /\
                 (verbose = false -> extra = []) /\
                 length (filter is_check_passed extra) = 0%nat).
  { destruct guarded.
    - unfold try_except in E.
      destruct (observe (Attempt c) attempt s0) as [r0 s00] eqn:Eo.
      pose proof (mute_observe _ _ Ma _ _ _ Eo) as Oo.
      destruct r0 as [b|e].
      + inversion E; subst. exists []. rewrite app_nil_r. auto.
      + destruct (exn_eqb e NotImplementedError); [|discriminate E].
        run_in E as u1 s01 E01;
          destruct (when_print_stdout _ _ _ _ _ E01) as (X & O01); [|discriminate].
        inversion E; subst.
        exists (if verbose then [Text (not_implemented +:+ kern_name)] else []).
        split; [congruence|]. split; [intros ->; reflexivity|].
        destruct verbose; [|reflexivity]. cbn [filter]. rewrite (Hn eq_refl). reflexivity.
    - pose proof (mute_observe _ _ Ma _ _ _ E) as Oo.
      exists []. rewrite app_nil_r. auto. }
  clear E. destruct O1 as (extra & O1 & X1 & C1).
  run_in Hrun as u2 s2 E; destruct (when_print_stdout _ _ _ _ _ E) as (X & O2);
    [clear X E | discriminate].
  destruct res; cbn [negb] in Hrun; cbv iota in Hrun.
  - destruct (Frest _ _ Hrun) as (out & O3 & X3 & C3).
    exists ((if verbose then [Text checking] else []) ++ extra
            ++ (if (true && verbose)%bool then [Text "Check passed."] else []) ++ out).
    split; [|split].
    + rewrite O3, O2, O1, O0, <- !app_assoc. reflexivity.
    + intros ->. rewrite (X1 eq_refl), (X3 eq_refl). reflexivity.
    + intros ->. cbn [andb]. rewrite !filter_app, !length_app, C1, (C3 eq_refl).
      cbn [filter]. rewrite Hc. reflexivity.
  - exfalso. exact (failed_check_not_true _ _ _ _ _ _ _ Hrun).
Qed.

Lemma reports_check_psd (debug verbose : bool) (x : ndarray) (rest : Drv bool) (n : nat) :
  reports verbose n rest -> reports verbose (S n) (check_psd debug verbose x rest).
Proof.
  intros Frest s s' Hrun. unfold check_psd in Hrun.
  run_in Hrun as u0 s0 E; destruct (when_print_stdout _ _ _ _ _ E) as (X & O0);
    [clear X E | discriminate].
  run_in Hrun as res s1 E; [|discriminate Hrun].
  run_in Hrun as u2 s2 E2; destruct (when_print_stdout _ _ _ _ _ E2) as (X & O2);
    [clear X E2 | discriminate].
  destruct res; cbn [negb] in Hrun; cbv iota in Hrun.
  - assert (O1 : stdout s1 = stdout s0).
    { unfold observe in E. destruct (psd_attempt x s0) as [r0 s00] eqn:Ea.
      inversion E; subst. apply (psd_attempt_passed_mute _ _ _ Ea). }
    destruct (Frest _ _ Hrun) as (out & O3 & X3 & C3).
    exists ((if verbose
             then [Text "Checking covariance function is positive definite."] else [])
            ++ (if (true && verbose)%bool then [Text "Check passed."] else []) ++ out).
    split; [|split].
    + rewrite O3, O2, O1, O0, <- !app_assoc. reflexivity.
    + intros ->. rewrite (X3 eq_refl). reflexivity.
    + intros ->. cbn [andb]. rewrite !filter_app, !length_app, (C3 eq_refl). reflexivity.
  - exfalso.
    run_in Hrun as u3 s3 E3; [|discriminate Hrun].
    run_in Hrun as u4 s4 E4; [|discriminate Hrun].
    run_in Hrun as u5 s5 E5; [|discriminate Hrun]. discriminate Hrun.
Qed.

(** X5.  A call that returns true has printed nothing when [verbose] is
    off; when [verbose] is on it has printed ["Check passed."] ten times, once
    for each check, skipped checks included. *)
Theorem driver_success_report (debug : bool) (X_arg X2_arg : option ndarray)
    (output_ind : option Z) (verbose : bool) (fixed_X_dims : option Dims)
    (s : dstate) :
  let r := check_kernel_gradient_functions debug X_arg X2_arg output_ind verbose
             fixed_X_dims s in
  fst r = Ok true ->
  exists out, stdout (snd r) = stdout s ++ out /\
    (verbose = false -> out = []) /\
    (verbose = true -> length (filter is_check_passed out) = 10%nat).
Proof.
  intros r Hr.
  assert (Hrun : check_kernel_gradient_functions debug X_arg X2_arg output_ind verbose
                   fixed_X_dims s = (Ok true, snd r)).
  { rewrite <- Hr. subst r. apply surjective_pairing. }
  generalize dependent (snd r). clear r Hr. intros s' Hrun.
  unfold check_kernel_gradient_functions in Hrun.
  run_in Hrun as u0 s0 E; [|discriminate Hrun].
  pose proof (mute_set_pass_checks _ _ _ _ E) as O0. clear E.
  run_in Hrun as x s1 E; [|discriminate Hrun].
  assert (O1 : stdout s1 = stdout s0).
  { destruct X_arg; [inversion E; reflexivity | exact (mute_default_X _ _ _ _ _ E)]. }
  clear E.
  run_in Hrun as x2 s2 E; [|discriminate Hrun].
  assert (O2 : stdout s2 = stdout s1).
  { destruct X2_arg; [inversion E; reflexivity | exact (mute_default_X _ _ _ _ _ E)]. }
  clear E.
  rewrite <- O0, <- O1, <- O2.
  revert Hrun. generalize s2 s'. clear.
  change (reports verbose 10 (check_psd debug verbose x (
    gradient_check debug verbose dK_dtheta_X false
    "Checking gradients of K(X, X) wrt theta." ""
    "Gradient of K(X, X) wrt theta failed for "
    (fresh_checkgrad cls_dK_dtheta x None verbose)
    (fresh_checkgrad cls_dK_dtheta x None true) false (
  gradient_check debug verbose dK_dtheta_X_X2 true
    "Checking gradients of K(X, X2) wrt theta."
    "update_gradients_full, with differing X and X2, not implemented for "
    "Gradient of K(X, X) wrt theta failed for "
    (fresh_checkgrad cls_dK_dtheta x (Some x2) verbose)
    (fresh_checkgrad cls_dK_dtheta x (Some x2) true) false (
  gradient_check debug verbose dKdiag_dtheta_X true
    "Checking gradients of Kdiag(X) wrt theta."
    "update_gradients_diag not implemented for "
    "Gradient of Kdiag(X) wrt theta failed for "
    (fresh_checkgrad cls_dKdiag_dtheta x None verbose)
    (fresh_checkgrad cls_dKdiag_dtheta x None true) false (
  gradient_check debug verbose dK_dX_X true
    "Checking gradients of K(X, X) wrt X."
    "gradients_X not implemented for "
    "Gradient of K(X, X) wrt X failed for "
    (testmodel_checkgrad cls_dK_dX x None fixed_X_dims verbose)
    testmodel_rerun true (
  gradient_check debug verbose dK_dX_X_X2 true
    "Checking gradients of K(X, X2) wrt X."
    "gradients_X not implemented for "
    "Gradient of K(X, X2) wrt X failed for "
    (testmodel_checkgrad cls_dK_dX x (Some x2) fixed_X_dims verbose)
    testmodel_rerun true (
  gradient_check debug verbose dKdiag_dX_X true
    "Checking gradients of Kdiag(X) wrt X."
    "gradients_X not implemented for "
    "Gradient of Kdiag(X) wrt X failed for "
    (testmodel_checkgrad cls_dKdiag_dX x None fixed_X_dims verbose)
    (fresh_checkgrad cls_dKdiag_dX x None true) false (
  gradient_check debug verbose d2K_dXdX_X_X2 true
    "Checking gradients of dK(X, X2) wrt X2 with full cov in dimensions"
    "gradients_X not implemented for "
    "Gradient of dK(X, X2) wrt X failed for "
    (testmodel_checkgrad cls_d2K_dXdX x (Some x2) fixed_X_dims verbose)
    testmodel_rerun true (
  gradient_check debug verbose d2K_dXdX_X true
    "Checking gradients of dK(X, X) wrt X with full cov in dimensions"
    "gradients_X not implemented for "
    "Gradient of dK(X, X) wrt X with full cov in dimensions failed for "
    (testmodel_checkgrad cls_d2K_dXdX x None fixed_X_dims verbose)
    testmodel_rerun true (
  gradient_check debug verbose d2Kdiag_dXdX_X true
    "Checking gradients of dKdiag(X, X) wrt X with cov in dimensions"
    "gradients_X not implemented for "
    "Gradient of dKdiag(X, X) wrt X with cov in dimensions failed for "
    (testmodel_checkgrad cls_d2Kdiag_dXdX x None fixed_X_dims verbose)
    testmodel_rerun true (
  gets pass_checks)))))))))))).
  apply reports_check_psd.
  repeat (apply reports_gradient_check;
          [ first [apply mute_fresh_checkgrad | apply mute_testmodel_checkgrad]
          | reflexivity | first [discriminate | intros _; reflexivity] | ]).
  apply reports_done.
Qed.

(* ------------------------------------------------------------------ *)
(** ** Order of the attempts and of the re-run *)

(** X6.  The history of a call only grows.  The checks attempted are an
    initial segment of the ten, in their order and each once.  A re-run
    happens only for a gradient check whose attempt has just returned false;
    it is then the last event of the call. *)
Theorem driver_checks_in_order (debug : bool) (X_arg X2_arg : option ndarray)
    (output_ind : option Z) (verbose : bool) (fixed_X_dims : option Dims)
    (s : dstate) :
  let r := check_kernel_gradient_functions debug X_arg X2_arg output_ind verbose
             fixed_X_dims s in
  let t := skipn (length (trace s)) (trace (snd r)) in
  trace (snd r) = trace s ++ t /\
  (exists k, (k <= 10)%nat /\
             map event_check (filter is_attempt t) = firstn k all_checks) /\
  (forall c r', In (Rerun c r') t ->
     c <> psd_K_X /\
     exists pre, forallb passing pre = true /\
       t = pre ++ [Attempt c (Ok false); Rerun c r'] /\
       fst r = match r' with Ok _ => assert_outcome debug | Raise e => Raise e end).
Proof.
  intros r t.
  destruct (driver_follows debug X_arg X2_arg output_ind verbose fixed_X_dims
              s (fst r) (snd r)) as [(t' & T & Hrs)|(_ & T & E)].
  - subst r. apply surjective_pairing.
  - assert (Et : t = t').
    { subst t. rewrite T, skipn_app, Nat.sub_diag, skipn_all. reflexivity. }
    rewrite Et. split; [exact T|]. split.
    + exact (run_spec_attempts_in_order _ _ _ _ Hrs).
    + intros c r' I. exact (run_spec_rerun _ _ _ _ c r' Hrs I).
  - assert (Et : t = []) by (subst t; rewrite T, skipn_all; reflexivity).
    rewrite Et, app_nil_r. split; [exact T|]. split.
    + exists 0%nat. split; [lia | reflexivity].
    + intros c r' [].
Qed.

(* ------------------------------------------------------------------ *)
(** ** The variable [testmodel] *)

Lemma call_run {A : Type} (f : World -> result A * World) (s : dstate) r s' :
  call f s = (r, s') -> r = fst (f (world s)) /\ testmodel s' = testmodel s.
Proof.
  unfold call. destruct (f (world s)) as [r0 w]. intros E. inversion E; subst. auto.
Qed.

(** An attempt that returns has bound [testmodel] to the model it built. *)
Lemma testmodel_checkgrad_run (cls : adapter) (x : ndarray) (x2 : option ndarray)
    (fixed_X_dims : option Dims) (verbose : bool) (s : dstate) (b : bool)
    (s1 : dstate) :
  testmodel_checkgrad cls x x2 fixed_X_dims verbose s = (Ok b, s1) ->
  exists m w, construct cls x x2 (world s) = (Ok m, w) /\ testmodel s1 = Some m.
Proof.
  intros E. unfold testmodel_checkgrad in E.
  run_in E as m s0 E0; [|discriminate E].
  assert (C : exists w, construct cls x x2 (world s) = (Ok m, w)).
  { unfold call in E0. destruct (construct cls x x2 (world s)) as [r0 w].
    inversion E0; subst. eauto. }
  destruct C as (w & C).
  run_in E as u s2 E2; [|discriminate E].
  assert (T2 : testmodel s2 = Some m) by (inversion E2; reflexivity).
  run_in E as u3 s3 E3; [|discriminate E].
  assert (T3 : testmodel s3 = Some m).
  { destruct fixed_X_dims.
    - destruct (call_run _ _ _ _ E3) as [_ T]. congruence.
    - inversion E3; subst. exact T2. }
  destruct (call_run _ _ _ _ E) as [_ T].
  exists m, w. split; [exact C | congruence].
Qed.

(** X7.  In the checks that keep their model in [testmodel], an attempt that
    returns leaves in [testmodel] the model it has constructed, and the
    re-run calls [checkgrad(verbose=True)] on that very model, without
    constructing another. *)
Theorem testmodel_rerun_same_model (cls : adapter) (x : ndarray) (x2 : option ndarray)
    (fixed_X_dims : option Dims) (verbose : bool) (s : dstate) (b : bool)
    (s1 : dstate) :
  testmodel_checkgrad cls x x2 fixed_X_dims verbose s = (Ok b, s1) ->
  exists m w,
    construct cls x x2 (world s) = (Ok m, w) /\ testmodel s1 = Some m /\
    forall s2, testmodel s2 = testmodel s1 ->
               testmodel_rerun s2 = call (checkgrad m true) s2.
Proof.
  intros E. destruct (testmodel_checkgrad_run _ _ _ _ _ _ _ _ E) as (m & w & C & T).
  exists m, w. split; [exact C|]. split; [exact T|].
  intros s2 E2. unfold testmodel_rerun, bind, gets. rewrite E2, T. reflexivity.
Qed.

Lemma record_testmodel (e : event) (s : dstate) : testmodel (record e s) = testmodel s.
Proof. reflexivity. Qed.

Lemma observe_bound (mk : result bool -> event) (m : Drv bool) (reads : bool) :
  (forall s r s', m s = (r, s') ->
     r <> Raise UnboundLocalError /\ (r = Ok false -> ready reads s')) ->
  forall s r s', observe mk m s = (r, s') ->
    r <> Raise UnboundLocalError /\ (r = Ok false -> ready reads s').
Proof.
  intros Hm s r s' E. unfold observe in E. destruct (m s) as [r0 s0] eqn:Em.
  inversion E; subst. destruct (Hm _ _ _ Em) as [N R]. split; [exact N|].
  intros F. exact (R F).
Qed.

Lemma when_print_testmodel (b : bool) (l : line) (s : dstate) r s' :
  when b (print l) s = (r, s') -> r = Ok tt /\ testmodel s' = testmodel s.
Proof. destruct b; intros E; inversion E; subst; auto. Qed.

Lemma never_unbound_gradient_check (reads debug verbose : bool) (c : check)
    (guarded : bool) (checking not_implemented failed : string)
    (attempt rerun : Drv bool) (assert_first : bool) (rest : Drv bool) :
  (forall s r s', attempt s = (r, s') ->
     r <> Raise UnboundLocalError /\ (r = Ok false -> ready reads s')) ->
  (forall s r s', ready reads s -> rerun s = (r, s') -> r <> Raise UnboundLocalError) ->
  never_unbound rest ->
  never_unbound
    (gradient_check debug verbose c guarded checking not_implemented failed
       attempt rerun assert_first rest).
Proof.
  intros Ha Hr Frest s out s' Hrun.
  unfold gradient_check in Hrun.
  run_in Hrun as u0 s0 E; destruct (when_print_testmodel _ _ _ _ _ E) as (X & _);
    [clear X E | discriminate].
  assert (Hatt : forall r s1,
            (if guarded then
               try_except (observe (Attempt c) attempt) NotImplementedError
                 (when verbose (print (Text (not_implemented +:+ kern_name))) ;; ret true)
             else observe (Attempt c) attempt) s0 = (r, s1) ->
            r <> Raise UnboundLocalError /\ (r = Ok false -> ready reads s1)).
  { intros r s1 E. destruct guarded.
    - unfold try_except in E.
      destruct (observe (Attempt c) attempt s0) as [r0 s00] eqn:Eo.
      destruct (observe_bound _ _ _ Ha _ _ _ Eo) as [N R].
      destruct r0 as [b|e].
      + inversion E; subst. auto.
      + destruct (exn_eqb e NotImplementedError).
        * run_in E as u1 s01 E01;
            destruct (when_print_testmodel _ _ _ _ _ E01) as (X & _); [|discriminate].
          inversion E; subst. split; discriminate.
        * inversion E; subst. auto.
    - exact (observe_bound _ _ _ Ha _ _ _ E). }
  run_in Hrun as res s1 E; destruct (Hatt _ _ eq_refl) as [N R]; clear E Hatt.
  2:{ inversion Hrun; subst. exact N. }
  run_in Hrun as u2 s2 E; destruct (when_print_testmodel _ _ _ _ _ E) as (X & T2);
    [clear X E | discriminate].
  destruct res; cbn [negb] in Hrun; cbv iota in Hrun.
  - exact (Frest _ _ _ Hrun).
  - run_in Hrun as u3 s3 E3; [|discriminate E3].
    assert (T3 : testmodel s3 = testmodel s2) by (inversion E3; reflexivity). clear E3.
    assert (Rd : ready reads s3).
    { intros X. rewrite T3, T2. exact (R eq_refl X). }
    run_in Hrun as rr s4 E4.
    + clear - Hrun. destruct debug, assert_first; inversion Hrun; discriminate.
    + inversion Hrun; subst. unfold observe in E4.
      destruct (rerun s3) as [r0 s30] eqn:Er. inversion E4; subst.
      exact (Hr _ _ _ Rd Er).
Qed.

Section BoundNames.
Hypothesis binds : harness_binds_its_names.

Lemma raise_neq {A : Type} (e : exn) :
  e <> UnboundLocalError -> @Raise A e <> Raise UnboundLocalError.
Proof. intros N X. injection X as X. exact (N X). Qed.

Lemma raise_retype {A B : Type} (e : exn) :
  @Raise A e <> Raise UnboundLocalError -> @Raise B e <> Raise UnboundLocalError.
Proof. intros N X. injection X as X. apply N. rewrite X. reflexivity. Qed.

Lemma call_construct_bound cls x x2 (s : dstate) e s' :
  call (construct cls x x2) s = (Raise e, s') -> e <> UnboundLocalError.
Proof.
  intros E. destruct (call_run _ _ _ _ E) as [X _]. intros ->.
  destruct binds as (B & _). exact (B cls x x2 (world s) (eq_sym X)).
Qed.

Lemma call_fix_columns_bound m d (s : dstate) e s' :
  call (fix_columns m d) s = (Raise e, s') -> e <> UnboundLocalError.
Proof.
  intros E. destruct (call_run _ _ _ _ E) as [X _]. intros ->.
  destruct binds as (_ & B & _). exact (B m d (world s) (eq_sym X)).
Qed.

Lemma call_checkgrad_bound m v (s : dstate) r s' :
  call (checkgrad m v) s = (r, s') -> r <> Raise UnboundLocalError.
Proof.
  intros E. destruct (call_run _ _ _ _ E) as [-> _]. apply binds.
Qed.

Lemma call_eigenvalues_bound m (s : dstate) e s' :
  call (eigenvalues m) s = (Raise e, s') -> e <> UnboundLocalError.
Proof.
  intros E. destruct (call_run _ _ _ _ E) as [X _]. intros ->.
  destruct binds as (_ & _ & _ & B). exact (B m (world s) (eq_sym X)).
Qed.

Lemma fresh_checkgrad_bound cls x x2 v (s : dstate) r s' :
  fresh_checkgrad cls x x2 v s = (r, s') ->
  r <> Raise UnboundLocalError /\ (r = Ok false -> ready false s').
Proof.
  intros E. split; [|intros _ X; discriminate X].
  unfold fresh_checkgrad in E. run_in E as m s0 E0.
  - exact (call_checkgrad_bound _ _ _ _ _ E).
  - inversion E; subst. apply raise_neq, (call_construct_bound _ _ _ _ _ _ E0).
Qed.

Lemma testmodel_checkgrad_bound (reads : bool) cls x x2 fixed v (s : dstate) r s' :
  testmodel_checkgrad cls x x2 fixed v s = (r, s') ->
  r <> Raise UnboundLocalError /\ (r = Ok false -> ready reads s').
Proof.
  intros E. split.
  - unfold testmodel_checkgrad in E. run_in E as m s0 E0.
    2:{ inversion E; subst. apply raise_neq, (call_construct_bound _ _ _ _ _ _ E0). }
    run_in E as u s2 E2; [|discriminate E2].
    run_in E as u3 s3 E3.
    + exact (call_checkgrad_bound _ _ _ _ _ E).
    + inversion E; subst. destruct fixed; [|discriminate E3].
      apply raise_neq, (call_fix_columns_bound _ _ _ _ _ E3).
  - intros -> _.
    destruct (testmodel_checkgrad_run _ _ _ _ _ _ _ _ E) as (m & w & _ & T).
    rewrite T. discriminate.
Qed.

Lemma fresh_rerun_bound (reads : bool) cls x x2 v (s : dstate) r s' :
  ready reads s -> fresh_checkgrad cls x x2 v s = (r, s') ->
  r <> Raise UnboundLocalError.
Proof. intros _ E. exact (proj1 (fresh_checkgrad_bound _ _ _ _ _ _ _ E)). Qed.

Lemma testmodel_rerun_bound (s : dstate) r s' :
  ready true s -> testmodel_rerun s = (r, s') -> r <> Raise UnboundLocalError.
Proof.
  intros Rd E. unfold testmodel_rerun, bind, gets in E.
  destruct (testmodel s) as [m|] eqn:T.
  - exact (call_checkgrad_bound _ _ _ _ _ E).
  - exfalso. exact (Rd eq_refl T).
Qed.

Lemma never_unbound_default_X rows oi : never_unbound (default_X rows oi).
Proof.
  intros s out s' E. unfold default_X in E.
  run_in E as x s0 E0.
  2:{ unfold draw_np in E0. destruct (randn rows kern_input_dim (np_random s)).
      discriminate E0. }
  destruct oi as [j|]; [|inversion E; discriminate].
  run_in E as n s1 E1.
  2:{ inversion E; subst. unfold lift in E1. inversion E1 as [[X Y]].
      unfold shape_at in X. destruct (nth_error (shape x) 0); inversion X. discriminate. }
  run_in E as v s2 E2.
  2:{ inversion E; subst. unfold draw_np, randint in E2.
      destruct (kern_output_dim <? Z.of_nat n)%Z; inversion E2. discriminate. }
  unfold lift in E. inversion E as [[X Y]]. unfold set_column.
  destruct (shape x) as [|? [|? [|? ?]]]; try discriminate.
  match goal with |- context [if ?b then _ else _] => destruct b end; discriminate.
Qed.

Lemma never_unbound_check_psd (debug verbose : bool) (x : ndarray) (rest : Drv bool) :
  never_unbound rest -> never_unbound (check_psd debug verbose x rest).
Proof.
  intros Frest s out s' Hrun. unfold check_psd in Hrun.
  run_in Hrun as u0 s0 E; destruct (when_print_testmodel _ _ _ _ _ E) as (X & _);
    [clear X E | discriminate].
  run_in Hrun as res s1 E.
  2:{ inversion Hrun; subst. unfold observe in E.
      destruct (psd_attempt x s0) as [r0 s00] eqn:Ea. inversion E; subst.
      unfold psd_attempt in Ea.
      run_in Ea as m s01 E1.
      2:{ inversion Ea; subst. apply raise_neq, (call_construct_bound _ _ _ _ _ _ E1). }
      run_in Ea as v s02 E2.
      2:{ inversion Ea; subst. apply raise_neq, (call_eigenvalues_bound _ _ _ _ E2). }
      destruct (is_positive_semi_definite v); [discriminate Ea|].
      run_in Ea as lo s03 E3.
      2:{ inversion Ea; subst. unfold lift in E3. inversion E3 as [[X Y]].
          unfold real_min in X. destruct (map real v); inversion X. discriminate. }
      run_in Ea as u4 s04 E4; discriminate. }
  run_in Hrun as u2 s2 E2; destruct (when_print_testmodel _ _ _ _ _ E2) as (X & _);
    [clear X E2 | discriminate].
  destruct res; cbn [negb] in Hrun; cbv iota in Hrun.
  - exact (Frest _ _ _ Hrun).
  - clear - Hrun. destruct debug; inversion Hrun; discriminate.
Qed.

Lemma never_unbound_done : never_unbound (gets pass_checks : Drv bool).
Proof. intros s out s' E. inversion E. discriminate. Qed.

End BoundNames.

(** X8.  When the operations of the harness do not raise
    [UnboundLocalError], neither does the call: wherever a re-run reads
    [testmodel], the attempt of the same check has bound it. *)
Theorem driver_testmodel_bound (debug : bool) (X_arg X2_arg : option ndarray)
    (output_ind : option Z) (verbose : bool) (fixed_X_dims : option Dims)
    (s : dstate) :
  harness_binds_its_names ->
  fst (check_kernel_gradient_functions debug X_arg X2_arg output_ind verbose
         fixed_X_dims s) <> Raise UnboundLocalError.
Proof.
  intros binds.
  destruct (check_kernel_gradient_functions debug X_arg X2_arg output_ind verbose
              fixed_X_dims s) as [out s'] eqn:Hrun.
  cbn [fst]. unfold check_kernel_gradient_functions in Hrun.
  run_in Hrun as u0 s0 E; [clear E | discriminate E].
  run_in Hrun as x s1 E.
  2:{ inversion Hrun; subst. destruct X_arg; [discriminate E|].
      exact (raise_retype _ (never_unbound_default_X _ _ _ _ _ E)). }
  clear E.
  run_in Hrun as x2 s2 E.
  2:{ inversion Hrun; subst. destruct X2_arg; [discriminate E|].
      exact (raise_retype _ (never_unbound_default_X _ _ _ _ _ E)). }
  clear E. revert Hrun. generalize s2 out s'.
  refine (never_unbound_check_psd binds debug verbose x _ _).
  repeat first
    [ apply (never_unbound_gradient_check true);
      [ intros ? ? ?; apply (testmodel_checkgrad_bound binds true)
      | intros ? ? ?; apply testmodel_rerun_bound; exact binds | ]
    | apply (never_unbound_gradient_check false);
      [ first [ intros ? ? ?; apply (fresh_checkgrad_bound binds)
              | intros ? ? ?; apply (testmodel_checkgrad_bound binds false) ]
      | intros ? ? ?; apply (fresh_rerun_bound binds false) | ] ].
  apply never_unbound_done.
Qed.

End DriverFurther.

(** X2, witness: the example harness, whose eigenvalues are 1 and 0.5. *)
Lemma psd_attempt_verdict_example :
  exists s',
    psd_attempt (H := example_harness wrong_dK_dtheta) (zeros 3 2)
      (init_state tt example_rng) = (Ok true, s') /\
    stdout s' = [].
Proof.
  destruct (psd_attempt_verdict (H := example_harness wrong_dK_dtheta) (zeros 3 2)
              (init_state tt example_rng) _ _ _ _ eq_refl eq_refl)
    as (s' & E & _ & T & _).
  exists s'. split; [exact E | apply T; reflexivity].
Defined.

(** X3, witness: twelve outputs, no [X], [output_ind = 0]. *)
Lemma driver_output_dim_too_large_example :
  let s := init_state (Model := adapter * bool) tt example_rng in
  let r := check_kernel_gradient_functions (H := coregionalize_harness)
             true None None (Some 0%Z) true None s in
  fst r = Raise ValueError /\ trace (snd r) = trace s /\
  stdout (snd r) = stdout s /\ world (snd r) = world s.
Proof.
  apply (driver_output_dim_too_large (H := coregionalize_harness)).
  left. split; [reflexivity | simpl; lia].
Defined.

(** X4, witness: two inputs, two outputs, [output_ind = 5]. *)
Lemma driver_output_ind_out_of_range_example :
  let s := init_state (Model := adapter * bool) tt example_rng in
  let r := check_kernel_gradient_functions (H := example_harness wrong_dK_dtheta)
             true None None (Some 5%Z) true None s in
  fst r = Raise IndexError /\ trace (snd r) = trace s /\
  stdout (snd r) = stdout s /\ world (snd r) = world s.
Proof.
  apply (driver_output_ind_out_of_range (H := example_harness wrong_dK_dtheta)).
  - left. reflexivity.
  - simpl. lia.
  - simpl. lia.
Defined.

(** X5, witness: a kernel that implements only [update_gradients_full] on
    (X, X), checked with [verbose] on; eight of the ten lines follow a skip. *)
Lemma driver_success_report_example :
  let s := init_state (Model := adapter * bool) tt example_rng in
  let r := check_kernel_gradient_functions (H := example_harness only_dK_dtheta)
             true (Some (zeros 3 2)) (Some (zeros 4 2)) None true None s in
  exists out, stdout (snd r) = stdout s ++ out /\
    (true = false -> out = []) /\
    (true = true -> length (filter is_check_passed out) = 10%nat).
Proof.
  exact (driver_success_report (H := example_harness only_dK_dtheta)
           true (Some (zeros 3 2)) (Some (zeros 4 2)) None true None
           (init_state tt example_rng) eq_refl).
Defined.

(** X7, witness: the model of check 5 on the example harness. *)
Lemma testmodel_rerun_same_model_example :
  let s := init_state (Model := adapter * bool) tt example_rng in
  exists m w s1,
    testmodel_checkgrad (H := example_harness wrong_dK_dX) cls_dK_dX (zeros 3 2)
      None None false s = (Ok false, s1) /\
    construct (Harness := example_harness wrong_dK_dX) cls_dK_dX (zeros 3 2) None
      (world s) = (Ok m, w) /\
    testmodel s1 = Some m /\
    testmodel_rerun (H := example_harness wrong_dK_dX) s1
    = call (checkgrad (Harness := example_harness wrong_dK_dX) m true) s1.
Proof.
  intros s.
  destruct (testmodel_rerun_same_model (H := example_harness wrong_dK_dX) cls_dK_dX
              (zeros 3 2) None None false s false _ eq_refl) as (m & w & C & T & R).
  eexists m, w, _. split; [reflexivity|]. split; [exact C|]. split; [exact T|].
  apply R. reflexivity.
Defined.

(** X8, witness: the gradient w.r.t. [X] is wrong, so check 5 fails and its
    re-run reads [testmodel]; the call ends in [AssertionError]. *)
Lemma driver_testmodel_bound_example :
  harness_binds_its_names (H := example_harness wrong_dK_dX) /\
  fst (check_kernel_gradient_functions (H := example_harness wrong_dK_dX)
         true (Some (zeros 3 2)) (Some (zeros 4 2)) None false None
         (init_state tt example_rng)) <> Raise UnboundLocalError.
Proof.
  assert (B : harness_binds_its_names (H := example_harness wrong_dK_dX)).
  { repeat split; intros; discriminate. }
  split; [exact B|].
  exact (driver_testmodel_bound (H := example_harness wrong_dK_dX)
           true (Some (zeros 3 2)) (Some (zeros 4 2)) None false None
           (init_state tt example_rng) B).
Defined.

(* ------------------------------------------------------------------ *)
(** ** The adapters: defaults, objectives and what they write *)

Lemma np_mul_same_shape (w a : ndarray) :
  shape a = shape w ->
  exists p, np_mul w a = Ok p /\
            np_sum p = sum_over (shape w) (fun idx => (item w idx * item a idx)%R).
Proof.
  intros E. unfold np_mul. rewrite E, broadcast_shapes_same.
  eexists. split; [reflexivity|]. unfold np_sum. simpl.
  apply sum_over_ext. intros idx F.
  rewrite (broadcast_index_in_range _ _ F). reflexivity.
Qed.

Section AdaptersFurther.
Context {K : Type} `{Kernel K}.

(** X9.  Whenever [Kern_check_model()] without data returns: [randomize]
    returned the kernel of the model; [X] is a new 20 by [input_dim] array of
    the normal draws that follow and [dL_dK] a new 20 by 20 array of the
    uniform draws that follow; no array that existed before is touched. *)
Theorem Kern_check_model_defaults (kern : option K) (s : pystate)
    (m : Kern_check_model) (s' : pystate) :
  Kern_check_model_init kern None None None s = (Ok m, s') ->
  let r := randomize 1 (1 / 10)
             (match kern with None => RBF 1 | Some k => k end) (random s) in
  let g := snd r in
  fst r = Ok (kernel m) /\ X2 m = None /\
  X m = next s /\ dL_dK m = S (next s) /\ next s' = S (S (next s)) /\
  shape (arrays s' !!! X m) = [20%nat; input_dim (kernel m)] /\
  shape (arrays s' !!! dL_dK m) = [20%nat; 20%nat] /\
  (forall i j, item (arrays s' !!! X m) [i; j]
               = normals g (i * input_dim (kernel m) + j)%nat) /\
  (forall i j, item (arrays s' !!! dL_dK m) [i; j] = uniforms g (i * 20 + j)%nat) /\
  (forall l, (l < next s)%nat -> arrays s' !!! l = arrays s !!! l).
Proof.
  intros E r g.
  unfold Kern_check_model_init in E.
  unfold bind at 1 in E. rewrite draw_result_run in E. fold r in E.
  destruct (fst r) as [k|e]; [|discriminate E]. fold g in E.
  unfold bind at 1 in E. unfold bind at 1 in E. rewrite draw_run in E.
  unfold alloc at 1 in E. cbn [arrays gradient next random fst snd] in E.
  unfold bind at 1 in E. unfold bind at 1 in E. unfold read at 1, gets in E.
  cbn [arrays] in E. rewrite lookup_total_insert_eq in E.
  unfold bind at 1, lift at 1 in E. cbn [randn fst shape_at shape nth_error] in E.
  unfold bind at 1 in E. rewrite draw_run in E. cbn in E.
  injection E as <- <-. cbn.
  repeat split.
  - rewrite lookup_total_insert_ne by lia. rewrite lookup_total_insert_eq. reflexivity.
  - rewrite lookup_total_insert_eq. reflexivity.
  - intros i j. rewrite lookup_total_insert_ne by lia.
    rewrite lookup_total_insert_eq. reflexivity.
  - intros i j. rewrite lookup_total_insert_eq. reflexivity.
  - intros l L. rewrite !lookup_total_insert_ne by lia. reflexivity.
Qed.
(** X10.  [log_likelihood] leaves the store as it is.  When the kernel
    matrix has the shape of [dL_dK], its value is the sum over all entries of
    [dL_dK * K]; when the two shapes cannot be broadcast together it raises
    [ValueError]. *)
Theorem log_likelihood_sum (m : Kern_check_model) (s : pystate) (k : ndarray) :
  let d := arrays s !!! dL_dK m in
  K_full (kernel m) (arrays s !!! X m)
    (option_map (fun l => arrays s !!! l) (X2 m)) = Ok k ->
  (shape k = shape d ->
   log_likelihood m s
   = (Ok (sum_over (shape d) (fun idx => (item d idx * item k idx)%R)), s)) /\
  (broadcast_shapes (shape d) (shape k) = None ->
   log_likelihood m s = (Raise ValueError, s)).
Proof.
  intros d Ek.
  assert (E : log_likelihood m s
              = (rbind (np_mul d k) (fun p => Ok (np_sum p)), s)).
  { unfold log_likelihood, bind, read, gets, lift, ret. cbv beta. fold d.
    destruct (X2 m) as [l2|]; cbn [option_map] in Ek; cbv beta iota; rewrite Ek;
      destruct (np_mul d k); reflexivity. }
  split.
  - intros Sh. destruct (np_mul_same_shape d k Sh) as (p & Ep & Es).
    rewrite E, Ep. cbn [rbind]. rewrite Es. reflexivity.
  - intros B. rewrite E. unfold np_mul. rewrite B. reflexivity.
Qed.

(** X11.  The objective of [Kern_check_dKdiag_dX] reads the diagonal of
    [dL_dK] only: for an n by n [dL_dK] and a [Kdiag] of length n it is the
    sum of [dL_dK[i, i] * Kdiag[i]]. *)
Theorem dKdiag_dX_log_likelihood_diagonal (m : Kern_check_model) (s : pystate)
    (n : nat) (kd : ndarray) :
  let d := arrays s !!! dL_dK m in
  shape d = [n; n] ->
  Kdiag (kernel m) (arrays s !!! X m) = Ok kd -> shape kd = [n] ->
  dKdiag_dX_log_likelihood m s
  = (Ok (sum_n (fun i => (item d [i; i] * item kd [i])%R) n), s).
Proof.
  intros d Sd Ek Sk.
  assert (Ed : exists dd, np_diag d = Ok dd /\ shape dd = [n] /\
                          forall i, item dd [i] = item d [i; i]).
  { unfold np_diag. rewrite Sd, Nat.min_id. eexists. split; [reflexivity|].
    split; reflexivity. }
  destruct Ed as (dd & Ed & Sdd & Idd).
  destruct (np_mul_same_shape dd kd) as (p & Ep & Es); [congruence|].
  unfold dKdiag_dX_log_likelihood, bind, read, gets, lift, ret. cbv beta. fold d.
  rewrite Ed, Ek, Ep, Es, Sdd. cbn [sum_over]. do 2 f_equal.
  apply sum_n_ext. intros i _. rewrite Idd. reflexivity.
Qed.

(** X12.  The three objectives leave the store as it is, whatever they
    return or raise; the three [parameters_changed] change nothing but the
    gradient buffer of the free [X]: no array, and no other gradient. *)
Theorem adapters_frame (m : Kern_check_model) (m2 : Kern_check_d2K_dXdX)
    (s : pystate) :
  snd (log_likelihood m s) = s /\
  snd (dKdiag_dX_log_likelihood m s) = s /\
  snd (d2K_dXdX_log_likelihood m2 s) = s /\
  writes_gradient_only (X m) s (snd (dK_dX_parameters_changed m s)) /\
  writes_gradient_only (X m) s (snd (dKdiag_dX_parameters_changed m s)) /\
  writes_gradient_only (X (base m2)) s (snd (d2K_dXdX_parameters_changed m2 s)).
Proof.
  split; [|split; [|split; [|split; [|split]]]].
  - unfold log_likelihood, bind, read, gets, lift, ret. cbv beta.
    destruct (X2 m); cbv beta iota;
      (destruct (K_full _ _ _); [|reflexivity]);
      destruct (np_mul _ _); reflexivity.
  - unfold dKdiag_dX_log_likelihood, bind, read, gets, lift, ret. cbv beta.
    destruct (np_diag _); [|reflexivity].
    destruct (Kdiag _ _); [|reflexivity].
    destruct (np_mul _ _); reflexivity.
  - unfold d2K_dXdX_log_likelihood, bind, read, gets, lift, ret. cbv beta.
    destruct (X2 (base m2)); cbv beta iota;
      destruct (gradients_X _ _ _ _); reflexivity.
  - apply dK_dX_parameters_changed_frame.
  - apply dKdiag_dX_parameters_changed_frame.
  - apply d2K_dXdX_parameters_changed_frame.
Qed.

(** X13.  [Kern_check_d2K_dXdX] works on copies: its free [X] and its [Xc]
    are two new array objects, different from each other and from every array
    of the caller, and moving the free [X] changes no array of the caller. *)
Theorem Kern_check_d2K_dXdX_isolated (kern : option K) (dL : option loc)
    (x : loc) (x2 : option loc) (s0 : pystate) (m : Kern_check_d2K_dXdX)
    (s : pystate) (x' : ndarray) :
  Kern_check_d2K_dXdX_init kern dL x x2 s0 = (Ok m, s) ->
  allocated s0 x -> (forall l, dL = Some l -> allocated s0 l) ->
  X (base m) <> Xc m /\
  ~ allocated s0 (X (base m)) /\ ~ allocated s0 (Xc m) /\
  forall l, allocated s0 l ->
            arrays (snd (perturb m x' s)) !!! l = arrays s0 !!! l.
Proof.
  intros E Ax Ad.
  destruct (Kern_check_d2K_dXdX_init_run _ _ _ _ _ _ _ E Ax Ad)
    as (_ & Lx & Ec & _ & _ & _ & Keep).
  unfold allocated in *. repeat split; try lia.
  intros l L. cbn. rewrite lookup_total_insert_ne by lia. apply Keep, L.
Qed.

End AdaptersFurther.

(** X9, witness: the default kernel and the default data, drawn in a store
    that holds two arrays already. *)
Lemma Kern_check_model_defaults_example :
  exists m s',
    Kern_check_model_init (H := example_kernel) None None None None example_store
    = (Ok m, s') /\
    X2 m = None /\ X m = 2%nat /\ dL_dK m = 3%nat /\
    shape (arrays s' !!! X m) = [20%nat; 2%nat] /\
    shape (arrays s' !!! dL_dK m) = [20%nat; 20%nat] /\
    arrays s' !!! 0%nat = zeros 3 2.
Proof.
  destruct (Kern_check_model_init (H := example_kernel) None None None None
              example_store) as [r s'] eqn:E.
  assert (Er : exists m, r = Ok m) by (vm_compute in E; inversion E; eauto).
  destruct Er as (m & ->). exists m, s'. split; [reflexivity|].
  destruct (Kern_check_model_defaults (H := example_kernel) None example_store m s' E)
    as (_ & E2 & Ex & Ed & _ & Sx & Sd & _ & _ & Keep).
  split; [exact E2|]. split; [exact Ex|]. split; [exact Ed|].
  split; [exact Sx|]. split; [exact Sd|].
  rewrite Keep by (cbn; lia). reflexivity.
Defined.

(** X10, witness: a 3 by 3 [dL_dK] of ones against the constant kernel. *)
Lemma log_likelihood_sum_example :
  let m := {| kernel := tt; X := 0%nat; X2 := None; dL_dK := 2%nat |} in
  let s := {| arrays := <[2%nat := {| shape := [3; 3]%nat; item := fun _ => 1%R |}]>
                          (arrays example_store);
              gradient := ∅; next := 3; random := example_rng |} in
  log_likelihood (H := example_kernel) m s = (Ok 9%R, s).
Proof.
  intros m s.
  destruct (log_likelihood_sum (H := example_kernel) m s
              {| shape := [3; 3]%nat; item := fun _ => 1%R |} eq_refl) as [E _].
  rewrite (E eq_refl).
  assert (Ed : arrays s !!! dL_dK m = {| shape := [3; 3]%nat; item := fun _ => 1%R |})
    by reflexivity.
  rewrite Ed. do 2 f_equal. simpl. lra.
Defined.

(** X11, witness: the same store; the diagonal of ones against [Kdiag] of
    ones. *)
Lemma dKdiag_dX_log_likelihood_diagonal_example :
  let m := {| kernel := tt; X := 0%nat; X2 := None; dL_dK := 2%nat |} in
  let s := {| arrays := <[2%nat := {| shape := [3; 3]%nat; item := fun _ => 1%R |}]>
                          (arrays example_store);
              gradient := ∅; next := 3; random := example_rng |} in
  dKdiag_dX_log_likelihood (H := example_kernel) m s = (Ok 3%R, s).
Proof.
  intros m s.
  rewrite (dKdiag_dX_log_likelihood_diagonal (H := example_kernel) m s 3
             {| shape := [3%nat]; item := fun _ => 1%R |} eq_refl eq_refl eq_refl).
  assert (Ed : arrays s !!! dL_dK m = {| shape := [3; 3]%nat; item := fun _ => 1%R |})
    by reflexivity.
  rewrite Ed. do 2 f_equal. simpl. lra.
Defined.

(** X13, witness: the adapter built on the 3 by 2 matrix at location 0. *)
Lemma Kern_check_d2K_dXdX_isolated_example :
  exists m s,
    Kern_check_d2K_dXdX_init (H := example_kernel) None None 0%nat None
      example_store = (Ok m, s) /\
    X (base m) <> Xc m /\
    arrays (snd (perturb m {| shape := [3; 2]%nat; item := fun _ => 5%R |} s)) !!! 0%nat
    = zeros 3 2.
Proof.
  destruct (Kern_check_d2K_dXdX_init (H := example_kernel) None None 0%nat None
              example_store) as [r s] eqn:E.
  assert (Er : exists m, r = Ok m) by (vm_compute in E; inversion E; eauto).
  destruct Er as (m & ->). exists m, s. split; [reflexivity|].
  destruct (Kern_check_d2K_dXdX_isolated (H := example_kernel)
              None None 0%nat None example_store m s
              {| shape := [3; 2]%nat; item := fun _ => 5%R |} E)
    as (N & _ & _ & Keep).
  - unfold allocated. simpl. lia.
  - discriminate.
  - split; [exact N|]. rewrite Keep by (unfold allocated; simpl; lia). reflexivity.
Defined.

(* ------------------------------------------------------------------ *)
(** ** The adapter for the second derivative of the diagonal *)

(** Summing the last axis of an array of shape [sh ++ [r]]. *)
Lemma sum_last_run (g : ndarray) (sh : list nat) (r : nat) :
  shape g = sh ++ [r] ->
  exists a, sum_last g = Ok a /\ shape a = sh /\
    forall idx, length idx = length sh ->
                item a idx = sum_n (fun q => item g (idx ++ [q])) r.
Proof.
  intros Sg. unfold sum_last, ndim. rewrite Sg, length_app. cbn [length].
  rewrite Nat.add_1_r. unfold sum_axis, ndim, dim. rewrite Sg, length_app.
  cbn [length]. rewrite Nat.add_1_r.
  destruct (Nat.ltb_spec (length sh) (S (length sh))) as [_|L]; [|lia].
  eexists. split; [reflexivity|]. cbn [shape item]. split.
  - unfold remove_at. rewrite firstn_app, Nat.sub_diag, firstn_all.
    cbn [firstn]. rewrite skipn_all2 by (rewrite length_app; simpl; lia).
    rewrite !app_nil_r. reflexivity.
  - intros idx Li. rewrite app_nth2, Nat.sub_diag by lia. cbn [nth].
    apply sum_n_ext. intros q _. unfold insert_at.
    rewrite <- Li, firstn_all, skipn_all. reflexivity.
Qed.

Section DiagonalAdapterProperties.
Context {K : Type} `{Kernel K} `{KernelDiag K}.

Lemma d2Kdiag_dXdX_parameters_changed_frame (m : Kern_check_d2K_dXdX) (s : pystate) :
  writes_gradient_only (X (base m)) s (snd (d2Kdiag_dXdX_parameters_changed m s)).
Proof.
  unfold d2Kdiag_dXdX_parameters_changed.
  unfold bind at 1, read at 1, gets. cbv beta iota.
  unfold bind at 1, read at 1, gets. cbv beta iota.
  unfold bind at 1, lift at 1.
  destruct (diagonal _); [|apply writes_gradient_only_refl].
  unfold bind at 1, lift at 1.
  destruct (gradients_XX_diag _ _ _); [|apply writes_gradient_only_refl].
  unfold bind at 1, lift at 1.
  destruct (sum_last _); [|apply writes_gradient_only_refl].
  apply set_gradient_frame.
Qed.

(** X14.  [Kern_check_d2Kdiag_dXdX] stores no [X2]; its [Xc] is a new array
    object holding the entries of the argument [X], and it still holds them
    after the free [X] has moved. *)
Theorem Kern_check_d2Kdiag_dXdX_copy (kern : option K) (dL : option loc)
    (x : loc) (s0 : pystate) (m : Kern_check_d2K_dXdX) (s : pystate)
    (x' : ndarray) :
  Kern_check_d2Kdiag_dXdX_init kern dL x s0 = (Ok m, s) ->
  allocated s0 x -> (forall l, dL = Some l -> allocated s0 l) ->
  X2 (base m) = None /\ ~ allocated s0 (Xc m) /\ Xc m <> X (base m) /\
  arrays s !!! Xc m = arrays s0 !!! x /\
  arrays (snd (perturb m x' s)) !!! Xc m = arrays s0 !!! x.
Proof.
  intros E Ax Ad. unfold Kern_check_d2Kdiag_dXdX_init in E.
  unfold bind at 1 in E.
  destruct (Kern_check_d2Kdiag_dXdX_body kern dL x s0) as [[m1|e] s2] eqn:Eb;
    [|discriminate E].
  destruct (initialize_parameter_run _ _ _ _ _ E) as [-> ->].
  destruct (d2Kdiag_dXdX_parameters_changed_frame m1 s2) as (Fa & _).
  assert (Pa : arrays (snd (perturb m1 x' (snd (d2Kdiag_dXdX_parameters_changed m1 s2))))
               = <[X (base m1) := x']> (arrays s2)).
  { unfold perturb, write, modify. cbn [snd arrays]. rewrite Fa. reflexivity. }
  rewrite Pa, Fa. clear E Fa Pa.
  unfold Kern_check_d2Kdiag_dXdX_body in Eb. unfold bind at 1 in Eb.
  destruct (Kern_check_model_init kern dL (Some x) None s0) as [[m0|e] s1] eqn:E0;
    [|discriminate Eb].
  destruct (Kern_check_model_init_run _ _ _ _ _ _ _ E0 Ad) as (_ & E2 & Ln & Al & Keep).
  unfold allocated in *. cbn in Eb. injection Eb as <- <-. cbn.
  assert (Hx : arrays s1 !!! x = arrays s0 !!! x) by (apply Keep; exact Ax).
  repeat split; auto; try lia.
  - rewrite lookup_total_insert_eq. rewrite lookup_total_insert_ne by lia. exact Hx.
  - rewrite lookup_total_insert_ne by lia. rewrite lookup_total_insert_eq.
    rewrite lookup_total_insert_ne by lia. exact Hx.
Qed.

Lemma take_entry_diagonal (i : nat) (d d' : ndarray) (n n' : nat) :
  shape d = [n; n'] -> shape d' = [n; n'] ->
  item d' [i; i] = item d [i; i] ->
  take_entry i d' = take_entry i d.
Proof.
  intros S1 S2 E. unfold take_entry. rewrite S1, S2, E. reflexivity.
Qed.

Lemma d2Kdiag_rows_diagonal (k : K) (d d' x xc : ndarray) (n n' : nat)
    (rows : list nat) (l : R) :
  shape d = [n; n'] -> shape d' = [n; n'] ->
  (forall i, item d' [i; i] = item d [i; i]) ->
  d2Kdiag_rows k d' x xc rows l = d2Kdiag_rows k d x xc rows l.
Proof.
  intros S1 S2 E. revert l. induction rows as [|i rows IH]; intros l; [reflexivity|].
  cbn [d2Kdiag_rows]. rewrite (take_entry_diagonal i d d' n n' S1 S2 (E i)).
  destruct (take_entry i d); [|reflexivity]. cbn [rbind].
  destruct (take_row i x); [|reflexivity]. cbn [rbind].
  destruct (take_row i xc); [|reflexivity]. cbn [rbind].
  destruct (gradients_X _ _ _ _); [|reflexivity]. cbn [rbind]. apply IH.
Qed.

Lemma d2Kdiag_rows_stops (k : K) (d x xc : ndarray) (rows : list nat) (i : nat)
    (e : exn) (l v : R) :
  In i rows -> take_entry i d = Raise e ->
  d2Kdiag_rows k d x xc rows l <> Ok v.
Proof.
  intros I E. revert l. induction rows as [|j rows IH]; intros l; [destruct I|].
  cbn [d2Kdiag_rows]. destruct I as [->|I].
  - rewrite E. discriminate.
  - destruct (take_entry j d); [|discriminate]. cbn [rbind].
    destruct (take_row j x); [|discriminate]. cbn [rbind].
    destruct (take_row j xc); [|discriminate]. cbn [rbind].
    destruct (gradients_X _ _ _ _); [|discriminate]. cbn [rbind]. apply IH, I.
Qed.

Lemma d2Kdiag_dXdX_log_likelihood_run (m : Kern_check_d2K_dXdX) (s : pystate) :
  d2Kdiag_dXdX_log_likelihood m s
  = (rbind (shape_at 0 (arrays s !!! X (base m))) (fun n =>
       d2Kdiag_rows (kernel (base m)) (arrays s !!! dL_dK (base m))
         (arrays s !!! X (base m)) (arrays s !!! Xc m) (seq 0 n) 0), s).
Proof.
  unfold d2Kdiag_dXdX_log_likelihood, bind, read, gets, lift. cbv beta.
  destruct (shape_at 0 (arrays s !!! X (base m))); reflexivity.
Qed.

(** X15.  The objective of [Kern_check_d2Kdiag_dXdX] leaves the store as it
    is and reads the diagonal of a matrix [dL_dK] only: two stores that agree
    on [X], on [Xc] and on the shape and the diagonal of [dL_dK] give the
    same value or the same exception.  When [dL_dK] has fewer rows or
    columns than [X] has rows, it never returns a value. *)
Theorem d2Kdiag_dXdX_log_likelihood_diagonal (m : Kern_check_d2K_dXdX)
    (s s' : pystate) (n n' : nat) :
  shape (arrays s !!! dL_dK (base m)) = [n; n'] ->
  snd (d2Kdiag_dXdX_log_likelihood m s) = s /\
  (arrays s' !!! X (base m) = arrays s !!! X (base m) ->
   arrays s' !!! Xc m = arrays s !!! Xc m ->
   shape (arrays s' !!! dL_dK (base m)) = [n; n'] ->
   (forall i, item (arrays s' !!! dL_dK (base m)) [i; i]
              = item (arrays s !!! dL_dK (base m)) [i; i]) ->
   fst (d2Kdiag_dXdX_log_likelihood m s') = fst (d2Kdiag_dXdX_log_likelihood m s)) /\
  (forall N, shape_at 0 (arrays s !!! X (base m)) = Ok N ->
             (Nat.min n n' < N)%nat ->
             forall v, fst (d2Kdiag_dXdX_log_likelihood m s) <> Ok v).
Proof.
  intros Sd. split; [|split].
  - rewrite d2Kdiag_dXdX_log_likelihood_run. reflexivity.
  - intros Ex Ec Sd' Ed. rewrite !d2Kdiag_dXdX_log_likelihood_run. cbn [fst].
    rewrite Ex, Ec.
    destruct (shape_at 0 (arrays s !!! X (base m))) as [N|e]; [|reflexivity].
    cbn [rbind]. apply (d2Kdiag_rows_diagonal _ _ _ _ _ n n'); assumption.
  - intros N EN L v. rewrite d2Kdiag_dXdX_log_likelihood_run. cbn [fst].
    rewrite EN. cbn [rbind].
    apply (d2Kdiag_rows_stops _ _ _ _ _ (Nat.min n n') IndexError).
    + apply in_seq. lia.
    + unfold take_entry. rewrite Sd.
      destruct (Nat.ltb_spec (Nat.min n n') n), (Nat.ltb_spec (Nat.min n n') n');
        try reflexivity; lia.
Qed.

(** X16.  For a matrix [dL_dK] and a [gradients_XX_diag] whose result has
    the shape of [X] and one more axis of length r, [parameters_changed]
    writes to the gradient of [X], entry by entry, minus the sum of that
    result over its last axis. *)
Theorem d2Kdiag_dXdX_gradient (m : Kern_check_d2K_dXdX) (s : pystate)
    (n n' r : nat) (dd g : ndarray) :
  let d := arrays s !!! dL_dK (base m) in
  let x := arrays s !!! X (base m) in
  shape d = [n; n'] -> np_diag d = Ok dd ->
  gradients_XX_diag (kernel (base m)) dd x = Ok g ->
  shape g = shape x ++ [r] ->
  exists G s',
    d2Kdiag_dXdX_parameters_changed m s = (Ok tt, s') /\
    gradient s' !! X (base m) = Some G /\ shape G = shape x /\
    forall idx, in_range (shape x) idx ->
                item G idx = (- sum_n (fun q => item g (idx ++ [q])) r)%R.
Proof.
  intros d x Sd Ed Eg Sg.
  destruct (sum_last_run (neg g) (shape x) r Sg) as (a & Ea & Sa & Ia).
  destruct (set_gradient_run (X (base m)) a s) as (G & s' & Es & El & SG & IG).
  { rewrite Sa. reflexivity. }
  exists G, s'. split; [|split; [exact El | split]].
  - unfold d2Kdiag_dXdX_parameters_changed.
    unfold bind at 1. unfold read at 1, gets. cbv beta. fold d.
    unfold bind at 1. unfold read at 1, gets. cbv beta. fold x.
    unfold bind at 1, lift at 1. unfold diagonal. rewrite Sd, Ed.
    unfold bind at 1, lift at 1. rewrite Eg.
    unfold bind at 1, lift at 1. rewrite Ea. exact Es.
  - rewrite SG. exact Sa.
  - intros idx F. rewrite IG by (rewrite Sa; exact F).
    rewrite Ia by (apply in_range_length, F). cbn [neg item].
    apply sum_n_opp.
Qed.

End DiagonalAdapterProperties.

(** X14, witness: the adapter built on the 3 by 2 matrix at location 0. *)
Lemma Kern_check_d2Kdiag_dXdX_copy_example :
  exists m s,
    Kern_check_d2Kdiag_dXdX_init (H := example_kernel) (H0 := example_kernel_diag)
      None None 0%nat example_store = (Ok m, s) /\
    X2 (base m) = None /\
    arrays (snd (perturb m {| shape := [3; 2]%nat; item := fun _ => 5%R |} s)) !!! Xc m
    = zeros 3 2.
Proof.
  destruct (Kern_check_d2Kdiag_dXdX_init (H := example_kernel)
              (H0 := example_kernel_diag) None None 0%nat example_store)
    as [r s] eqn:E.
  assert (Er : exists m, r = Ok m) by (vm_compute in E; inversion E; eauto).
  destruct Er as (m & ->). exists m, s. split; [reflexivity|].
  destruct (Kern_check_d2Kdiag_dXdX_copy (H := example_kernel)
              (H0 := example_kernel_diag)
              None None 0%nat example_store m s
              {| shape := [3; 2]%nat; item := fun _ => 5%R |} E)
    as (E2 & _ & _ & _ & Keep).
  - unfold allocated. simpl. lia.
  - discriminate.
  - split; [exact E2 | exact Keep].
Defined.

(** X15, witness: a 2 by 2 [dL_dK] against an [X] of three rows. *)
Lemma d2Kdiag_dXdX_log_likelihood_diagonal_example :
  let m := {| base := {| kernel := tt; X := 0%nat; X2 := None; dL_dK := 2%nat |};
              Xc := 1%nat |} in
  let s := {| arrays := <[2%nat := {| shape := [2; 2]%nat; item := fun _ => 1%R |}]>
                          (arrays example_store);
              gradient := ∅; next := 3; random := example_rng |} in
  snd (d2Kdiag_dXdX_log_likelihood (H := example_kernel) m s) = s /\
  forall v, fst (d2Kdiag_dXdX_log_likelihood (H := example_kernel) m s) <> Ok v.
Proof.
  intros m s.
  destruct (d2Kdiag_dXdX_log_likelihood_diagonal (H := example_kernel) m s s 2 2 eq_refl)
    as (A & _ & C).
  split; [exact A|]. apply (C 3%nat); [reflexivity | simpl; lia].
Defined.

(** X16, witness: a 3 by 3 [dL_dK], the 3 by 2 [X] at location 0 and second
    derivatives that are all 1 over a last axis of length 2. *)
Lemma d2Kdiag_dXdX_gradient_example :
  let m := {| base := {| kernel := tt; X := 0%nat; X2 := None; dL_dK := 2%nat |};
              Xc := 1%nat |} in
  let s := {| arrays := <[2%nat := {| shape := [3; 3]%nat; item := fun _ => 1%R |}]>
                          (arrays example_store);
              gradient := ∅; next := 3; random := example_rng |} in
  exists G s',
    d2Kdiag_dXdX_parameters_changed (H0 := example_kernel_diag)
      m s = (Ok tt, s') /\
    gradient s' !! 0%nat = Some G /\
    forall idx, in_range [3; 2]%nat idx -> item G idx = (- 2)%R.
Proof.
  intros m s.
  destruct (d2Kdiag_dXdX_gradient (H0 := example_kernel_diag)
              m s 3 3 2 _ _ eq_refl eq_refl eq_refl eq_refl)
    as (G & s' & E & El & _ & IG).
  exists G, s'. split; [exact E|]. split; [exact El|].
  intros idx F. rewrite (IG idx F). simpl. lra.
Defined.

(* ------------------------------------------------------------------ *)
(** ** The Psi-statistics fixture and passes *)

(** X17.  [setup] never raises.  Its weights have the shapes (100), (100, 20),
    (20, 20) and (100, 20, 20) of the four statistics; [w3n] is symmetric in
    its last two axes; and every variance handed to [NormalPosterior] is at
    least 0.01 when the uniform draws are not negative. *)
Theorem setup_fixture (g : rng) :
  exists X X_var fx,
    fst (TestKernelPsiStatisticsGradient.setup g) = Ok (X, X_var, fx) /\
    shape X = [100; 3]%nat /\ shape X_var = [100; 3]%nat /\
    shape (Zs fx) = [20; 3]%nat /\
    shape (w1 fx) = [100%nat] /\ shape (w2 fx) = [100; 20]%nat /\
    shape (w3 fx) = [20; 20]%nat /\ shape (w3n fx) = [100; 20; 20]%nat /\
    (forall n m m', item (w3n fx) [n; m; m'] = item (w3n fx) [n; m'; m]) /\
    ((forall k, (0 <= uniforms g k)%R) ->
     forall i j, (1 / 100 <= item X_var [i; j])%R).
Proof.
  eexists _, _, _. split; [reflexivity|].
  do 7 (split; [reflexivity|]). split.
  - intros n m m'. cbn [w3n item]. apply Rplus_comm.
  - intros U i j. cbn [add_scalar item]. cbn [rand randn fst snd item uniforms].
    specialize (U (i * 3 + j)%nat). lra.
Qed.

Section PsiFurther.
Context {K QX : Type} `{PsiKernel K QX}.
#[local] Abbreviation tstate := (@tstate K QX).
#[local] Abbreviation Tst := (@Tst K QX).

(** The closures of [_test_Z] are pure. *)
Lemma f_Z_state (fx : fixture) (flag : bool) (p : ndarray) (s : tstate) :
  snd (f_Z fx flag p s) = s /\ snd (df_Z fx flag p s) = s.
Proof.
  split.
  - unfold f_Z, bind, gets, lift, ret. cbv beta.
    destruct (psi0 _ _ _); [|reflexivity].
    destruct (psi1 _ _ _); [|reflexivity].
    destruct (psi2 _ _ _); [|reflexivity].
    destruct flag; cbn [negb]; cbv iota.
    + destruct (psi2n _ _ _); [|reflexivity].
      destruct (contraction _ _ _ _ _); reflexivity.
    + destruct (contraction _ _ _ _ _); reflexivity.
  - unfold df_Z, bind, gets, lift. cbv beta.
    destruct (gradients_Z_expectations _ _ _ _ _ _); reflexivity.
Qed.

(** X18.  The closures of [_test_Z] leave the kernel and the posterior as
    they are.  Its objective evaluates [psi2] before it looks at [psi2n]: an
    exception of [psi2] ends the evaluation in the per-sample pass too. *)
Theorem f_Z_evaluates_psi2 (fx : fixture) (flag : bool) (p : ndarray) (s : tstate) :
  snd (f_Z fx flag p s) = s /\ snd (df_Z fx flag p s) = s /\
  forall a0 a1 e,
    psi0 (kern s) p (qX s) = Ok a0 -> psi1 (kern s) p (qX s) = Ok a1 ->
    psi2 (kern s) p (qX s) = Raise e ->
    fst (f_Z fx flag p s) = Raise e.
Proof.
  destruct (f_Z_state fx flag p s) as [A B].
  split; [exact A|]. split; [exact B|].
  intros a0 a1 e P0 P1 P2.
  unfold f_Z, bind, gets, lift, ret. cbv beta. rewrite P0, P1, P2. reflexivity.
Qed.

(** X19.  The closures over the kernel parameters and over the posterior
    write the point they are evaluated at into the shared object and leave it
    there, whatever the statistics then return or raise; no closure touches
    the list of handed targets. *)
Theorem objective_side_effects (fx : fixture) (flag : bool) (p : ndarray) (s : tstate) :
  (forall k', set_param_array p (kern s) = Ok k' ->
     kern (snd (f_kernel_param fx flag p s)) = k' /\
     qX (snd (f_kernel_param fx flag p s)) = qX s) /\
  (forall q', qX_set_param_array p (qX s) = Ok q' ->
     qX (snd (f_qX fx flag p s)) = qX_trigger_params_changed q' /\
     kern (snd (f_qX fx flag p s)) = kern s) /\
  (forall t, handed (snd (objective fx t flag p s)) = handed s).
Proof.
  assert (Fk : forall k', set_param_array p (kern s) = Ok k' ->
             snd (f_kernel_param fx flag p s)
             = {| kern := k'; qX := qX s; handed := handed s |}).
  { intros k' Ek. unfold f_kernel_param, bind, gets, lift, set_kern, modify, ret.
    cbv beta. rewrite Ek. cbn [kern qX handed].
    destruct (psi0 _ _ _); [|reflexivity].
    destruct (psi1 _ _ _); [|reflexivity].
    destruct flag; cbn [negb]; cbv iota.
    - destruct (psi2n _ _ _); [|reflexivity].
      destruct (contraction _ _ _ _ _); reflexivity.
    - destruct (psi2 _ _ _); [|reflexivity].
      destruct (contraction _ _ _ _ _); reflexivity. }
  assert (Fq : forall q', qX_set_param_array p (qX s) = Ok q' ->
             snd (f_qX fx flag p s)
             = {| kern := kern s; qX := qX_trigger_params_changed q';
                  handed := handed s |}).
  { intros q' Eq. unfold f_qX, bind, gets, lift, set_qX, modify, ret.
    cbv beta. rewrite Eq. cbn [kern qX handed].
    destruct (psi0 _ _ _); [|reflexivity].
    destruct (psi1 _ _ _); [|reflexivity].
    destruct flag; cbn [negb]; cbv iota.
    - destruct (psi2n _ _ _); [|reflexivity].
      destruct (contraction _ _ _ _ _); reflexivity.
    - destruct (psi2 _ _ _); [|reflexivity].
      destruct (contraction _ _ _ _ _); reflexivity. }
  split; [|split].
  - intros k' Ek. rewrite (Fk k' Ek). auto.
  - intros q' Eq. rewrite (Fq q' Eq). auto.
  - intros [ | | ]; unfold objective.
    + destruct (set_param_array p (kern s)) as [k'|e] eqn:Ek.
      * rewrite (Fk k' eq_refl). reflexivity.
      * unfold f_kernel_param, bind, gets, lift. cbv beta. rewrite Ek. reflexivity.
    + destruct (f_Z_state fx flag p s) as [-> _]. reflexivity.
    + destruct (qX_set_param_array p (qX s)) as [q'|e] eqn:Eq.
      * rewrite (Fq q' eq_refl). reflexivity.
      * unfold f_qX, bind, gets, lift. cbv beta. rewrite Eq. reflexivity.
Qed.

End PsiFurther.

Section PsiPasses.
Context {K QX : Type} `{PsiKernel K QX}.
#[local] Abbreviation tstate := (@tstate K QX).
#[local] Abbreviation Tst := (@Tst K QX).

Variable checker :
  (ndarray -> Tst R) -> (ndarray -> Tst ndarray) -> ndarray -> bool -> Tst bool.

(** A sequence of passes returns after all of them, or ends at the first
    pass that raises, with its exception and in the state it left. *)
Lemma gradient_passes_first_failure (fx : fixture) (ps : list (target * bool))
    (s : tstate) :
  (exists s', gradient_passes checker fx ps s = (Ok tt, s')) \/
  (exists pre p post e s1 s2,
     ps = pre ++ p :: post /\
     gradient_passes checker fx pre s = (Ok tt, s1) /\
     gradient_pass checker fx p s1 = (Raise e, s2) /\
     gradient_passes checker fx ps s = (Raise e, s2)).
Proof.
  revert s. induction ps as [|p ps IH]; intros s.
  - left. exists s. reflexivity.
  - cbn [gradient_passes]. unfold bind.
    destruct (gradient_pass checker fx p s) as [[[]|e] s1] eqn:Ep.
    + destruct (IH s1) as [(s' & E)|(pre & q & post & e & s2 & s3 & -> & Epre & Eq & E)].
      * left. exists s'. exact E.
      * right. exists (p :: pre), q, post, e, s2, s3.
        split; [reflexivity|]. split; [|split; [exact Eq | exact E]].
        cbn [gradient_passes]. unfold bind. rewrite Ep. exact Epre.
    + right. exists [], p, ps, e, s, s1.
      split; [reflexivity|]. split; [reflexivity|]. split; [exact Ep | reflexivity].
Qed.

(** What the assertion of a pass makes of the last answer of the
    differencer. *)
Lemma asserted_raises (r : result bool * tstate) (e : exn) (s2 : tstate) :
  asserted r = (Raise e, s2) ->
  r = (Ok false, s2) /\ e = AssertionError \/ r = (Raise e, s2).
Proof.
  destruct r as [[[|]|e'] s']; cbn; intros E; inversion E; auto.
Qed.

(** X20.  Whatever the differencer answers, the loop body either returns
    after the six passes, or ends at the first pass that raises: the passes
    before it have returned, no pass after it is run, and the loop body
    raises what that pass raised, in the state that pass left.  A pass raises
    [AssertionError] when the last answer of the differencer, run on the
    objective of that pass, is false, and otherwise what the differencer
    raised. *)
Theorem test_kernel_passes_stops_at_first_failure (fx : fixture) (s : tstate) :
  (exists s',
     test_kernel_passes checker fx s = (Ok tt, s') /\
     gradient_passes checker fx six_passes s = (Ok tt, s')) \/
  (exists pre p post e s1 s2,
     six_passes = pre ++ p :: post /\
     gradient_passes checker fx pre s = (Ok tt, s1) /\
     gradient_pass checker fx p s1 = (Raise e, s2) /\
     test_kernel_passes checker fx s = (Raise e, s2) /\
     let f := objective fx (fst p) (snd p) in
     let df := gradient_closure fx (fst p) (snd p) in
     exists s0 x0 v,
       (checker f df x0 v s0 = (Ok false, s2) /\ v = false /\ e = AssertionError) \/
       checker f df x0 v s0 = (Raise e, s2)).
Proof.
  rewrite test_kernel_passes_sequence.
  destruct (gradient_passes_first_failure fx six_passes s)
    as [(s' & E)|(pre & p & post & e & s1 & s2 & Ep & Epre & Eq & E)].
  - left. exists s'. split; exact E.
  - right. exists pre, p, post, e, s1, s2.
    split; [exact Ep|]. split; [exact Epre|]. split; [exact Eq|]. split; [exact E|].
    cbv zeta. clear E Ep Epre. unfold gradient_pass in Eq.
    destruct p as [[ | | ] flag]; cbn [fst snd] in Eq |- *.
    + match type of Eq with context [checker ?f ?df ?x true ?s0] =>
        destruct (checker f df x true s0) as [[b|e'] s3] eqn:E1 end.
      * apply asserted_raises in Eq. destruct Eq as [[Eq ->]|Eq].
        -- eexists _, _, false. left. split; [exact Eq|]. split; reflexivity.
        -- eexists _, _, false. right. exact Eq.
      * injection Eq as <- <-. eexists _, _, true. right. exact E1.
    + apply asserted_raises in Eq. destruct Eq as [[Eq ->]|Eq].
      * eexists _, _, false. left. split; [exact Eq|]. split; reflexivity.
      * eexists _, _, false. right. exact Eq.
    + apply asserted_raises in Eq. destruct Eq as [[Eq ->]|Eq].
      * eexists _, _, false. left. split; [exact Eq|]. split; reflexivity.
      * eexists _, _, false. right. exact Eq.
Qed.

End PsiPasses.

(** X20, witness: a differencer that rejects every gradient; the assertion of
    the first pass fails and no other pass is run. *)
Lemma test_kernel_passes_stops_at_first_failure_example :
  let s := {| kern := tt; qX := tt; handed := [] |} in
  fst (test_kernel_passes (H := example_psi_kernel) rejecting_checker
         example_fixture s) = Raise AssertionError /\
  exists pre p post e s1 s2,
    six_passes = pre ++ p :: post /\
    gradient_passes (H := example_psi_kernel) rejecting_checker example_fixture pre s
    = (Ok tt, s1) /\
    gradient_pass (H := example_psi_kernel) rejecting_checker example_fixture p s1
    = (Raise e, s2) /\
    test_kernel_passes (H := example_psi_kernel) rejecting_checker example_fixture s
    = (Raise e, s2).
Proof.
  intros s. split; [reflexivity|].
  destruct (test_kernel_passes_stops_at_first_failure (H := example_psi_kernel)
              rejecting_checker example_fixture s)
    as [(s' & E & _)|(pre & p & post & e & s1 & s2 & Ep & Epre & Eq & E & _)].
  - discriminate E.
  - exists pre, p, post, e, s1, s2. auto.
Defined.

(* ------------------------------------------------------------------ *)
(** ** The data of [TestKernelNonContinuous] *)

Lemma nth_map_seq_nat (f : nat -> nat) (n j : nat) :
  (j < n)%nat -> nth j (map f (seq 0 n)) 0%nat = f j.
Proof.
  intros L. rewrite (nth_indep _ 0%nat (f 0%nat)) by (rewrite length_map, length_seq; exact L).
  rewrite map_nth, seq_nth by exact L. reflexivity.
Qed.

(** X21.  [setup] never raises.  [X] is 16 by 4 and [X2] is 24 by 4; the
    first three columns are the normal draws; the last column of [X] holds in
    every row the integer drawn for that row, one of 0, 1 and 2, and the last
    column of [X2] holds 0 in the first six rows and 1 in the others. *)
Theorem noncontinuous_setup_codes (g : rng) :
  exists X X2,
    fst (TestKernelNonContinuous.setup g) = Ok (X, X2) /\
    shape X = [16; 4]%nat /\ shape X2 = [24; 4]%nat /\
    (forall i j, (j < 3)%nat -> item X [i; j] = normals g (i * 4 + j)%nat) /\
    (forall i, (i < 16)%nat ->
       item X [i; 3%nat] = INR (integers g i mod 3) /\ (integers g i mod 3 < 3)%nat) /\
    (forall i, item X2 [i; 3%nat] = if (i <? 6)%nat then 0%R else 1%R).
Proof.
  eexists _, _. split; [reflexivity|].
  split; [reflexivity|]. split; [reflexivity|]. split; [|split].
  - intros i j L. cbn [item].
    destruct j as [|[|[|j]]]; try lia; cbn [Nat.eqb andb];
      rewrite !Bool.andb_false_r; reflexivity.
  - intros i L.
    assert (B : (integers g i mod 3 < 3)%nat) by (apply Nat.mod_upper_bound; discriminate).
    split; [|exact B]. cbn [item]. rewrite !Nat.eqb_refl, !Bool.andb_true_r.
    match goal with |- context [nth i ?l 0%nat] =>
      assert (E : nth i l 0%nat = (integers g i mod 3)%nat)
        by (rewrite nth_map_seq_nat by exact L; reflexivity);
      rewrite !E; clear E end.
    destruct (integers g i mod 3)%nat as [|[|[|c]]]; try lia; cbn [Nat.eqb]; simpl; lra.
  - intros i. cbn [item]. rewrite !Nat.eqb_refl, !Bool.andb_true_r.
    change (3 * 2)%nat with 6%nat. destruct (i <? 6)%nat; reflexivity.
Qed.

(* ------------------------------------------------------------------ *)
(** ** [initialize_latent]: shapes, warnings, edge cases *)

Section InitializationFurther.
Context {P : Type} `{LatentLib P}.

(** What a branch that returned has done, branch by branch. *)
Lemma initialize_latent_branch_inv (init : string) (input_dim : nat)
    (Y : ndarray) (s : lstate) (Xb : ndarray) (vb : list R) (s' : lstate) :
  initialize_latent_branch init input_dim Y s = (Ok (Xb, vb), s') ->
  exists N, shape_at 0 Y = Ok N /\ shape Xb = [N; input_dim] /\
    ((init = "PCA" /\ warnings s' = warnings s /\
      exists p, vb = map (fun f => (1 / 10 * f)%R) (firstn input_dim (fracs p))) \/
     (init = "empirical_samples" /\
      warnings s' = warnings s ++ [empirical_samples_warning] /\
      length vb = input_dim) \/
     (init = "random" /\ warnings s' = warnings s /\
      Xb = fst (randn N input_dim (lrandom s)) /\ vb = var0 Xb) \/
     (init <> "PCA" /\ init <> "empirical_samples" /\ init <> "random" /\
      warnings s' = warnings s ++ [invalid_init_warning init] /\
      Xb = fst (randn N input_dim (lrandom s)) /\ vb = var0 Xb)).
Proof.
  intros E. unfold initialize_latent_branch in E.
  unfold bind at 1, lift at 1 in E.
  destruct (shape_at 0 Y) as [N|e]; [|discriminate E].
  exists N. split; [reflexivity|].
  unfold bind at 1 in E. rewrite ldraw_run in E. cbn [fst snd randn] in E.
  destruct (String.eqb "PCA" init) eqn:E1.
  - apply String.eqb_eq in E1.
    unfold bind at 1, lift at 1 in E. destruct (PCA Y) as [p|e]; [|discriminate E].
    unfold bind at 1, lift at 1 in E. destruct (shape_at 1 Y) as [d|e]; [|discriminate E].
    unfold bind at 1, lift at 1 in E.
    destruct (project p Y (Nat.min input_dim d)) as [PC|e]; [|discriminate E].
    unfold bind at 1, lift at 1 in E.
    match type of E with context [assign_block ?x ?b] =>
      destruct (assign_block x b) as [y|e] eqn:Ea; [|discriminate E] end.
    injection E as <- <- <-. apply assign_block_run in Ea. split; [apply Ea|].
    left. split; [auto|]. split; [reflexivity|]. exists p. reflexivity.
  - apply String.eqb_neq in E1.
    destruct (String.eqb init "empirical_samples") eqn:E2.
    + apply String.eqb_eq in E2.
      unfold bind at 1, warn, modify in E. cbv beta iota in E.
      unfold bind at 1, lift at 1 in E. cbv beta iota in E.
      unfold bind at 1, lift at 1 in E.
      destruct (shape_at 1 Y) as [d|e]; [|discriminate E].
      unfold bind at 1, ldraw_result in E. cbn [lrandom warnings] in E.
      match type of E with context [multivariate_normal ?a ?b ?c ?g] =>
        destruct (multivariate_normal a b c g) as [[smp|e] g'] end; [|discriminate E].
      unfold bind at 1, lift at 1 in E.
      match type of E with context [assign_block ?x ?b] =>
        destruct (assign_block x b) as [y|e] eqn:Ea; [|discriminate E] end.
      unfold bind at 1 in E. rewrite ldraw_run in E.
      injection E as <- <- <-. apply assign_block_run in Ea. split; [apply Ea|].
      right. left. split; [exact E2|]. split; [reflexivity|].
      cbn. rewrite length_map, length_seq. reflexivity.
    + apply String.eqb_neq in E2.
      destruct (String.eqb init "random") eqn:E3.
      * apply String.eqb_eq in E3. injection E as <- <- <-.
        split; [reflexivity|]. right. right. left. auto.
      * apply String.eqb_neq in E3.
        unfold bind at 1, warn, modify in E. injection E as <- <- <-.
        split; [reflexivity|]. right. right. right.
        split; [congruence|]. auto.
Qed.

Lemma initialize_latent_inv (init : string) (input_dim : nat)
    (Y : ndarray) (s : lstate) (Xr : ndarray) (var : list R) (s' : lstate) :
  initialize_latent init input_dim Y s = (Ok (Xr, var), s') ->
  exists Xb vb m s1 ws,
    initialize_latent_branch init input_dim Y s = (Ok (Xb, vb), s1) /\
    vmax vb = Ok m /\
    Xr = div_row (sub_row Xb (mean0 Xb)) (std0 (sub_row Xb (mean0 Xb))) /\
    var = map (fun v => (v / m)%R) vb /\
    lrandom s' = lrandom s1 /\ warnings s' = warnings s1 ++ ws /\
    Forall (fun w => category w = "RuntimeWarning") ws /\
    normalize_latent Xb vb s1 = (Ok (Xr, var), s').
Proof.
  intros E. unfold initialize_latent, bind in E.
  destruct (initialize_latent_branch init input_dim Y s) as [[[Xb vb]|e] s1];
    [|discriminate E].
  cbn [fst snd] in E.
  destruct (normalize_latent_inv _ _ _ _ _ E) as (m & ws & Em & Er & El & Ew & Fw).
  injection Er as -> ->. exists Xb, vb, m, s1, ws. repeat split; auto.
Qed.

(** X22.  Whenever [initialize_latent] returns [(Xr, var)], for any [init]:
    [Xr] is [Y.shape[0]] by [input_dim]; [var] has at least one and at most
    [input_dim] entries, and exactly [input_dim] unless [init] is ["PCA"]. *)
Theorem initialize_latent_result_shape (init : string) (input_dim : nat)
    (Y : ndarray) (s : lstate) (Xr : ndarray) (var : list R) (s' : lstate) :
  initialize_latent init input_dim Y s = (Ok (Xr, var), s') ->
  exists N,
    shape_at 0 Y = Ok N /\ shape Xr = [N; input_dim] /\
    (1 <= length var <= input_dim)%nat /\
    (init <> "PCA" -> length var = input_dim).
Proof.
  intros E.
  destruct (initialize_latent_inv _ _ _ _ _ _ _ E)
    as (Xb & vb & m & s1 & ws & Eb & Em & -> & -> & _).
  destruct (initialize_latent_branch_inv _ _ _ _ _ _ _ Eb) as (N & EN & Sh & Cases).
  exists N. split; [exact EN|]. split; [exact Sh|].
  rewrite length_map.
  assert (L1 : (1 <= length vb)%nat).
  { destruct vb; [discriminate Em | simpl; lia]. }
  assert (Lv : forall X, shape X = [N; input_dim] -> length (var0 X) = input_dim).
  { intros X SX. unfold var0, dim. rewrite SX, length_map, length_seq. reflexivity. }
  destruct Cases as [(-> & _ & p & ->)|[(-> & _ & L)|[(-> & _ & _ & ->)|(N1 & _ & _ & _ & _ & ->)]]].
  - rewrite length_map, length_firstn in *. split; [lia|]. congruence.
  - split; [lia|]. intros _. exact L.
  - rewrite (Lv Xb Sh) in *. split; [lia | reflexivity].
  - rewrite (Lv Xb Sh) in *. split; [lia | reflexivity].
Qed.

(** X23.  With [input_dim = 0], [initialize_latent] never returns, whatever
    [init] and [Y]: it raises.  For ["random"] and for an unrecognised [init]
    on a [Y] with at least one axis, the exception is the [ValueError] of
    [var.max()] on an empty array. *)
Theorem initialize_latent_no_latent_dimension (init : string) (Y : ndarray)
    (s : lstate) :
  (exists e, fst (initialize_latent init 0 Y s) = Raise e) /\
  (forall N, shape_at 0 Y = Ok N ->
     init <> "PCA" -> init <> "empirical_samples" ->
     fst (initialize_latent init 0 Y s) = Raise ValueError).
Proof.
  split.
  - destruct (initialize_latent init 0 Y s) as [[[Xr var]|e] s1] eqn:E; [|eauto].
    exfalso.
    destruct (initialize_latent_inv _ _ _ _ _ _ _ E)
      as (Xb & vb & m & s2 & ws & Eb & Em & _).
    destruct (initialize_latent_branch_inv _ _ _ _ _ _ _ Eb) as (N & EN & Sh & Cases).
    assert (Lv : var0 Xb = []) by (unfold var0, dim; rewrite Sh; reflexivity).
    destruct Cases as [(_ & _ & p & ->)|[(_ & _ & L)|[(_ & _ & _ & ->)|(_ & _ & _ & _ & _ & ->)]]].
    + discriminate Em.
    + destruct vb; [discriminate Em | discriminate L].
    + rewrite Lv in Em. discriminate Em.
    + rewrite Lv in Em. discriminate Em.
  - intros N EN N1 N2.
    assert (E1 : String.eqb "PCA" init = false)
      by (apply String.eqb_neq; congruence).
    assert (E2 : String.eqb init "empirical_samples" = false)
      by (apply String.eqb_neq; exact N2).
    assert (Eb : exists Xb s1,
               initialize_latent_branch init 0 Y s = (Ok (Xb, var0 Xb), s1) /\
               shape Xb = [N; 0%nat]).
    { unfold initialize_latent_branch. rewrite EN.
      unfold bind at 1, lift at 1. unfold bind at 1. rewrite ldraw_run.
      rewrite E1, E2. destruct (String.eqb init "random").
      - eexists _, _. split; reflexivity.
      - eexists _, _. split; reflexivity. }
    destruct Eb as (Xb & s1 & Eb & Sh).
    unfold initialize_latent, bind. rewrite Eb. cbn [fst snd].
    rewrite normalize_latent_run. cbv zeta.
    unfold var0 at 1, dim. rewrite Sh. reflexivity.
Qed.


(** X25.  For ["random"] and for an unrecognised [init], the result depends on
    [Y] through its number of rows only: two data sets with the same
    [shape[0]] give the same matrix, variance, warnings and random state. *)
Theorem initialize_latent_random_ignores_data (init : string) (input_dim : nat)
    (Y Y' : ndarray) (s : lstate) :
  init <> "PCA" -> init <> "empirical_samples" ->
  shape_at 0 Y = shape_at 0 Y' ->
  initialize_latent init input_dim Y s = initialize_latent init input_dim Y' s.
Proof.
  intros N1 N2 ES.
  assert (E1 : String.eqb "PCA" init = false)
    by (apply String.eqb_neq; congruence).
  assert (E2 : String.eqb init "empirical_samples" = false)
    by (apply String.eqb_neq; exact N2).
  unfold initialize_latent, initialize_latent_branch. rewrite ES, E1, E2.
  reflexivity.
Qed.

(** X26.  The post-processing of lines 56 to 59 is idempotent: applied to its
    own result (for a base matrix with positive column variances and a
    variance with a positive entry) it returns the same variance and the same
    entries in every column; neither application emits a warning. *)
Theorem normalize_latent_idempotent (Xb : ndarray) (vb : list R) (N Q : nat)
    (s : lstate) :
  shape Xb = [N; Q] ->
  (forall j, (j < Q)%nat -> (0 < col_var Xb j)%R) ->
  Exists (fun v => (0 < v)%R) vb ->
  exists Xr var Xr',
    normalize_latent Xb vb s = (Ok (Xr, var), s) /\
    normalize_latent Xr var s = (Ok (Xr', var), s) /\
    shape Xr' = shape Xr /\
    forall i j, (j < Q)%nat -> item Xr' [i; j] = item Xr [i; j].
Proof.
  intros Sh V Ex.
  destruct (vmax_normalised vb Ex) as (m & Em & Pm & E1).
  set (C := sub_row Xb (mean0 Xb)).
  set (Xr := div_row C (std0 C)).
  set (var := map (fun v => (v / m)%R) vb).
  assert (SC : shape C = [N; Q]) by exact Sh.
  assert (SXr : shape Xr = [N; Q]) by exact Sh.
  assert (St : forall j, (j < Q)%nat -> col_mean Xr j = 0%R /\ col_std Xr j = 1%R).
  { intros j L. apply (col_scaled C N Q j SC L).
    - apply (col_mean_centred Xb N Q Sh j L).
    - unfold C. rewrite (col_var_centred Xb N Q Sh j L). apply V, L. }
  assert (V' : forall j, (j < Q)%nat -> (0 < col_var Xr j)%R).
  { intros j L. destruct (St j L) as [_ S1]. unfold col_std in S1.
    destruct (Rle_or_lt (col_var Xr j) 0) as [Le|Lt]; [|exact Lt].
    rewrite (sqrt_neg_0 _ Le) in S1. lra. }
  exists Xr, var, (div_row (sub_row Xr (mean0 Xr)) (std0 (sub_row Xr (mean0 Xr)))).
  split; [|split; [|split]].
  - apply (normalize_latent_quiet Xb vb N Q m s Sh V Em). lra.
  - rewrite (normalize_latent_quiet Xr var N Q 1 s SXr V' E1) by lra.
    do 3 f_equal. rewrite <- (map_id var) at 2. apply map_ext. intros v. field.
  - reflexivity.
  - intros i j L. destruct (St j L) as [M0 S1].
    cbn [div_row sub_row item].
    rewrite (nth_std0 (sub_row Xr (mean0 Xr)) N Q SXr j L).
    rewrite (nth_mean0 Xr N Q SXr j L), M0.
    unfold col_std. rewrite (col_var_centred Xr N Q SXr j L).
    fold (col_std Xr j). rewrite S1. field.
Qed.

End InitializationFurther.

(** X22, witness: ["random"] with one latent dimension on [example_Y]. *)
Lemma initialize_latent_result_shape_example :
  exists Xr var s' N,
    initialize_latent (H := example_latent_lib) "random" 1 example_Y
      {| lrandom := example_rng; warnings := [] |} = (Ok (Xr, var), s') /\
    shape_at 0 example_Y = Ok N /\ shape Xr = [N; 1%nat] /\
    (1 <= length var <= 1)%nat.
Proof.
  destruct (initialize_latent (H := example_latent_lib) "random" 1 example_Y
              {| lrandom := example_rng; warnings := [] |})
    as [[[Xr var]|e] s'] eqn:E.
  - destruct (initialize_latent_result_shape (H := example_latent_lib) "random" 1
                example_Y _ Xr var s' E) as (N & EN & Sh & L & _).
    exists Xr, var, s', N. auto.
  - exfalso. unfold initialize_latent, bind in E. 
    destruct (initialize_latent_branch (H := example_latent_lib) "random" 1 example_Y
              {| lrandom := example_rng; warnings := [] |}) as [rb sb] eqn:Eb.
    cbn in Eb. injection Eb as <- <-. cbn [fst snd] in E.
    rewrite normalize_latent_run in E. discriminate E.
Defined.


(** A run on one observation: the centred column is zero and so is its
    standard deviation, the variance is zero and so is its maximum; both
    divisions warn. *)
Lemma initialize_latent_one_row_example :
  exists Xr var s',
    initialize_latent (H := example_latent_lib) "random" 1 (zeros 1 1)
      {| lrandom := example_rng; warnings := [] |} = (Ok (Xr, var), s') /\
    map category (warnings s') = ["RuntimeWarning"; "RuntimeWarning"].
Proof.
  set (X0 := fst (randn 1 1 example_rng)).
  assert (Eb : initialize_latent_branch (H := example_latent_lib) "random" 1 (zeros 1 1)
                 {| lrandom := example_rng; warnings := [] |}
               = (Ok (X0, var0 X0),
                  {| lrandom := snd (randn 1 1 example_rng); warnings := [] |}))
    by reflexivity.
  unfold initialize_latent, bind. rewrite Eb. cbn [fst snd].
  rewrite normalize_latent_run. cbv zeta.
  assert (Ev : var0 X0 = [0%R]).
  { unfold var0, col_var, col_mean, col_sum, dim. simpl. f_equal. lra. }
  rewrite Ev. cbn [vmax fold_left map].
  eexists _, _, _. split; [reflexivity|]. cbn [warnings app].
  set (C := sub_row X0 (mean0 X0)).
  assert (Ep : scaling_pairs C (std0 C) = [(item C [0; 0]%nat, nth 0 (std0 C) 0%R)])
    by reflexivity.
  rewrite Ep.
  rewrite (divide_warnings_zero_by_zero [(0%R, 0%R)]).
  - rewrite divide_warnings_zero_by_zero; [reflexivity | discriminate |].
    intros p [<-|[]]. cbn [fst snd]. split.
    + unfold C, X0. simpl. unfold col_mean, col_sum, dim. simpl. lra.
    + unfold C, X0. simpl. unfold col_std, col_var, col_mean, col_sum, dim. simpl.
      unfold col_mean, col_sum, dim. simpl.
      match goal with |- sqrt ?a = _ => replace a with 0%R by lra end.
      apply sqrt_0.
  - discriminate.
  - intros p [<-|[]]. split; reflexivity.
Qed.

(** X25, witness: [example_Y] against an all-zero matrix with two rows. *)
Lemma initialize_latent_random_ignores_data_example :
  initialize_latent (H := example_latent_lib) "random" 1 example_Y
    {| lrandom := example_rng; warnings := [] |}
  = initialize_latent (H := example_latent_lib) "random" 1 (zeros 2 5)
      {| lrandom := example_rng; warnings := [] |}.
Proof.
  apply (initialize_latent_random_ignores_data (H := example_latent_lib));
    [discriminate | discriminate | reflexivity].
Defined.

(** X26, witness: the base column (0, 1) with variance (1). *)
Lemma normalize_latent_idempotent_example :
  exists Xr var Xr',
    normalize_latent (fst (randn 2 1 example_rng)) [1%R]
      {| lrandom := example_rng; warnings := [] |}
    = (Ok (Xr, var), {| lrandom := example_rng; warnings := [] |}) /\
    normalize_latent Xr var {| lrandom := example_rng; warnings := [] |}
    = (Ok (Xr', var), {| lrandom := example_rng; warnings := [] |}) /\
    shape Xr' = shape Xr /\
    forall i j, (j < 1)%nat -> item Xr' [i; j] = item Xr [i; j].
Proof.
  apply (normalize_latent_idempotent (fst (randn 2 1 example_rng)) [1%R] 2 1
           {| lrandom := example_rng; warnings := [] |}).
  - reflexivity.
  - intros j L. assert (j = 0%nat) as -> by lia.
    unfold col_var, col_mean, col_sum, dim. simpl. lra.
  - left. lra.
Defined.
